(** * Bracket monitoring of the FYERS command-line trading tool

    A shallow embedding of the take-profit / stop-loss bracket code of
    [place-order.js] ([buyWithTPSLAndMonitor], [shortSellWithTPSLAndMonitor])
    and of the [OrderService] class it drives
    ([src/services/orderService.js], the revision whose [validateOrderData]
    checks the stop-limit price relation).

    The brokerage SDK is an external collaborator.  Its answers are inputs
    of the model and every call made to it, every console line and every
    timer operation is recorded in an event trace, so that statements such
    as "exactly one cancel call is issued" are statements about traces.

    The interval callback is [async].  [monitorRun] runs the firings one
    after another; [Async] cuts a firing at its [await]s and lets firings
    overlap as [setInterval] does.

    Prices that are only compared, or moved by the fifty paise of the
    stop-loss orders, are exact numbers; the exit prices, which are
    computed and then rounded to a rupee, are computed in binary64. *)

From Stdlib Require Import List String Ascii Bool Arith Lia ZArith QArith Lqa.
From Stdlib Require Import Qround Qabs SpecFloat.
Import ListNotations.

Local Open Scope string_scope.
Local Open Scope list_scope.

(** ** JavaScript values used by the code *)

Module JS.

(** A JavaScript number as the order code uses it: a price or a quantity,
    or [NaN] (the result of [parseFloat]/[parseInt] on text that is not a
    number).  Finite numbers are kept exact. *)
Inductive num : Type :=
| NaN
| Num (q : Q).

(** [!x] on a number: [0] and [NaN] are falsy. *)
Definition falsy (x : num) : bool :=
  match x with
  | NaN => true
  | Num q => Qeq_bool q 0
  end.

(** [x <= y]; any comparison with [NaN] is false. *)
Definition leb (x y : num) : bool :=
  match x, y with
  | Num a, Num b => Qle_bool a b
  | _, _ => false
  end.

(** [x >= y]. *)
Definition geb (x y : num) : bool := leb y x.

Definition add (x y : num) : num :=
  match x, y with
  | Num a, Num b => Num (a + b)
  | _, _ => NaN
  end.

Definition sub (x y : num) : num :=
  match x, y with
  | Num a, Num b => Num (a - b)
  | _, _ => NaN
  end.

(** Fifty paise, the literal [0.50]. *)
Definition half : num := Num (1 # 2).

(** [!s] on a string: only the empty string is falsy. *)
Definition falsy_string (s : string) : bool :=
  match s with
  | EmptyString => true
  | String _ _ => false
  end.

(** [String.prototype.toUpperCase] on ASCII text. *)
Definition upper_ascii (c : ascii) : ascii :=
  let n := nat_of_ascii c in
  if andb (97 <=? n)%nat (n <=? 122)%nat then ascii_of_nat (n - 32) else c.

Fixpoint toUpperCase (s : string) : string :=
  match s with
  | EmptyString => EmptyString
  | String c r => String (upper_ascii c) (toUpperCase r)
  end.

End JS.

(** ** Orders, errors and the event trace *)

(** The argument object of [OrderService.placeOrder].  A missing
    [limitPrice] or [stopPrice] property is [None]. *)
Record OrderData : Type := mkOrderData {
  od_symbol : string;
  od_quantity : JS.num;
  od_side : Z;
  od_type : Z;
  od_limitPrice : option JS.num;
  od_stopPrice : option JS.num;
  od_productType : string;
  od_validity : string
}.

(** The object [placeOrder] builds and hands to the SDK. *)
Record Order : Type := mkOrder {
  symbol : string;
  qty : JS.num;
  type : Z;
  side : Z;
  productType : string;
  validity : string;
  limitPrice : option JS.num;
  stopPrice : option JS.num
}.

(** A row of [orders.data.orderBook]. *)
Record BookOrder : Type := mkBookOrder {
  id : string;
  status : string
}.

(** The [Error] objects the code can throw. *)
Inductive Error : Type :=
| ErrMissingFields
| ErrLimitPriceRequired
| ErrStopPriceRequired
| ErrBuyStopRelation
| ErrSellStopRelation
| ErrPlacementFailed (message : string)
| ErrCancellationFailed (message : string)
| ErrGetOrdersFailed (message : string)
| ErrSdk (message : string).

(** The errors thrown by [validateOrderData], before the SDK is reached. *)
Definition isValidationError (e : Error) : bool :=
  match e with
  | ErrMissingFields | ErrLimitPriceRequired | ErrStopPriceRequired
  | ErrBuyStopRelation | ErrSellStopRelation => true
  | _ => false
  end.

(** Console output ([console.log], [printSuccess], [printWarning],
    [printError], [printInfo]); one constructor per group of lines printed
    together. *)
Inductive Message : Type :=
| MsgTakeProfitPlaced
| MsgTakeProfitFailed
| MsgDebugStopLossValues
| MsgStopLossPlaced
| MsgStopLossFailed
| MsgPlaceManualStopLoss
| MsgTryingFallback
| MsgStopLossFallbackPlaced
| MsgStopLossFallbackFailed
| MsgStartingMonitoring
| MsgMonitorCheck
| MsgTakeProfitExecuted
| MsgStopLossCancelled
| MsgCouldNotCancelStopLoss
| MsgTradeProfit
| MsgStopLossExecuted
| MsgTakeProfitCancelled
| MsgCouldNotCancelTakeProfit
| MsgTradeLoss
| MsgStatus
| MsgUnrealizedPnL
| MsgMonitoringStopped
| MsgMonitoringError.

Inductive Level : Type := LInfo | LDebug | LError.

Inductive Event : Type :=
| EvCallPlaceOrder (od : OrderData)   (* orderService.placeOrder(od) entered *)
| EvSdkPlaceOrder (o : Order)         (* fyers.place_order(o) *)
| EvCancelOrder (oid : option string) (* orderService.cancelOrder(oid) *)
| EvGetOrders                         (* orderService.getOrders() *)
| EvGetPositions                      (* orderService.getPositions() *)
| EvSetInterval                       (* setInterval(callback, 60000) *)
| EvClearInterval                     (* clearInterval(monitor) *)
| EvConsole (m : Message)
| EvLogger (l : Level).

(** ** Effects: a trace of events and exceptions *)

Inductive Result (A : Type) : Type :=
| Ok (a : A)
| Throw (e : Error).
Arguments Ok {A} a.
Arguments Throw {A} e.

(** A computation yields the events it performed and either a value or a
    thrown error.  Events performed before a throw stay in the trace. *)
Definition M (A : Type) : Type := (list Event * Result A)%type.

Definition ret {A} (a : A) : M A := ([], Ok a).

Definition bind {A B} (m : M A) (k : A -> M B) : M B :=
  match m with
  | (tr, Ok a) => let (tr', r) := k a in (tr ++ tr', r)
  | (tr, Throw e) => (tr, Throw e)
  end.

Definition emit (e : Event) : M unit := ([e], Ok tt).

Definition throw {A} (e : Error) : M A := ([], Throw e).

(** [try { m } catch (e) { h e }]. *)
Definition tryCatch {A} (m : M A) (h : Error -> M A) : M A :=
  match m with
  | (tr, Ok a) => (tr, Ok a)
  | (tr, Throw e) => let (tr', r) := h e in (tr ++ tr', r)
  end.

Declare Scope js_scope.
Delimit Scope js_scope with js.
Notation "x <- m ;; k" := (bind m (fun x => k))
  (at level 61, m at next level, right associativity) : js_scope.
Notation "m ;; k" := (bind m (fun _ => k))
  (at level 61, right associativity) : js_scope.
Local Open Scope js_scope.

Definition events {A} (m : M A) : list Event := fst m.
Definition outcome {A} (m : M A) : Result A := snd m.

(** ** The SDK: answers of the brokerage *)

(** The answer of [fyers.place_order] / [fyers.cancel_order]: a response
    with [s === 'ok'], a response with another [s] and a message, or a
    rejected promise. *)
Inductive Response : Type :=
| RespOk (oid : string)
| RespNotOk (message : string)
| RespThrows (message : string).

(** The answer of [fyers.get_orders]. [orderBook] is [None] when
    [orders.data] or [orders.data.orderBook] is undefined. *)
Inductive OrdersResponse : Type :=
| OrdersOk (orderBook : option (list BookOrder))
| OrdersNotOk (message : string)
| OrdersThrows (message : string).

(** ** OrderService *)

Module OrderService.

(** [validateOrderData(order)]. *)
Definition validateOrderData (order : Order) : M unit :=
  if JS.falsy_string (symbol order) || JS.falsy (qty order) || (side order =? 0)%Z
  then throw ErrMissingFields
  else
  if ((type order =? 1)%Z || (type order =? 3)%Z)
     && match limitPrice order with
        | None => true
        | Some p => JS.falsy p || JS.leb p (JS.Num 0)
        end
  then throw ErrLimitPriceRequired
  else
  if ((type order =? 3)%Z || (type order =? 4)%Z)
     && match stopPrice order with
        | None => true
        | Some p => JS.falsy p || JS.leb p (JS.Num 0)
        end
  then throw ErrStopPriceRequired
  else
  if (type order =? 3)%Z then
    let ge := match limitPrice order, stopPrice order with
              | Some l, Some s => JS.geb l s
              | _, _ => false
              end in
    if (side order =? 1)%Z && ge then throw ErrBuyStopRelation
    else if (side order =? -1)%Z && ge then throw ErrSellStopRelation
    else ret tt
  else ret tt.

(** The order object built at the top of [placeOrder]
    ([type: orderData.type || 2], [parseFloat] of a number is itself). *)
Definition buildOrder (orderData : OrderData) : Order :=
  {| symbol := od_symbol orderData;
     qty := od_quantity orderData;
     type := if (od_type orderData =? 0)%Z then 2%Z else od_type orderData;
     side := od_side orderData;
     productType := if JS.falsy_string (od_productType orderData)
                    then "CNC" else od_productType orderData;
     validity := if JS.falsy_string (od_validity orderData)
                 then "DAY" else od_validity orderData;
     limitPrice := od_limitPrice orderData;
     stopPrice := od_stopPrice orderData |}.

(** [placeOrder(orderData)], against an SDK answering [place_order]. *)
Definition placeOrder (place_order : Order -> Response) (orderData : OrderData)
  : M string :=
  emit (EvCallPlaceOrder orderData) ;;
  tryCatch
    (let order := buildOrder orderData in
     validateOrderData order ;;
     emit (EvLogger LInfo) ;;
     emit (EvSdkPlaceOrder order) ;;
     match place_order order with
     | RespOk oid => emit (EvLogger LInfo) ;; ret oid
     | RespNotOk message => throw (ErrPlacementFailed message)
     | RespThrows message => throw (ErrSdk message)
     end)
    (fun error => emit (EvLogger LError) ;; throw error).

(** [cancelOrder(orderId)], the SDK answering [resp]. *)
Definition cancelOrder (resp : Response) (orderId : option string) : M unit :=
  emit (EvCancelOrder orderId) ;;
  tryCatch
    (emit (EvLogger LInfo) ;;
     match resp with
     | RespOk _ => emit (EvLogger LInfo) ;; ret tt
     | RespNotOk message => throw (ErrCancellationFailed message)
     | RespThrows message => throw (ErrSdk message)
     end)
    (fun error => emit (EvLogger LError) ;; throw error).

(** [getOrders()], the SDK answering [resp]. *)
Definition getOrders (resp : OrdersResponse) : M (option (list BookOrder)) :=
  emit EvGetOrders ;;
  tryCatch
    (match resp with
     | OrdersOk book => emit (EvLogger LDebug) ;; ret book
     | OrdersNotOk message => throw (ErrGetOrdersFailed message)
     | OrdersThrows message => throw (ErrSdk message)
     end)
    (fun error => emit (EvLogger LError) ;; throw error).

End OrderService.

(** ** The monitor: state, inputs and observations *)

(** The two variables the interval callback closes over. *)
Record MonitorState : Type := mkMonitorState {
  monitoringActive : bool;
  monitorCount : nat
}.

(** [let monitoringActive = true; let monitorCount = 0;] *)
Definition initialState : MonitorState :=
  {| monitoringActive := true; monitorCount := 0 |}.

(** [const maxMonitorTime = 360;] *)
Definition maxMonitorTime : nat := 360.

(** What the brokerage answers during one tick: the order list, the
    answer to a cancel request should one be made, and (short variant)
    whether [getPositions] returned a matching short position ([None] when
    the positions call failed). *)
Record TickInput : Type := mkTickInput {
  orders : OrdersResponse;
  cancel : Response;
  position : option bool
}.

(** The order-list fetch of the tick threw. *)
Definition fetchFailed (inp : TickInput) : bool :=
  match orders inp with
  | OrdersOk _ => false
  | _ => true
  end.

(** The cancel request of the tick, if one is made, throws. *)
Definition cancelFailed (inp : TickInput) : bool :=
  match cancel inp with
  | RespOk _ => false
  | _ => true
  end.

(** [orders.data?.orderBook?.find(o => o.id === orderId)]; the order id is
    [None] while it is still [null]. *)
Definition findOrder (book : option (list BookOrder)) (orderId : option string)
  : option BookOrder :=
  match book, orderId with
  | Some rows, Some oid => find (fun o => String.eqb (id o) oid) rows
  | _, _ => None
  end.

(** [o && (o.status === 'COMPLETE' || o.status === 'FILLED')]. *)
Definition executed (o : option BookOrder) : bool :=
  match o with
  | Some row => String.eqb (status row) "COMPLETE" || String.eqb (status row) "FILLED"
  | None => false
  end.

(** *** Spec-level reading of a trace

    The code keeps no resolution state: the outcome of a bracket is what
    the callback prints when it stops.  The three closing lines are read as
    the spec's terminal states; nothing the code prints stands for
    [RESOLVED_UNKNOWN] or [RESOLVING]. *)
Inductive Resolution : Type :=
| ACTIVE
| RESOLVING
| RESOLVED_PROFIT
| RESOLVED_LOSS
| RESOLVED_UNKNOWN
| EXPIRED.

Definition report (e : Event) : option Resolution :=
  match e with
  | EvConsole MsgTradeProfit => Some RESOLVED_PROFIT
  | EvConsole MsgTradeLoss => Some RESOLVED_LOSS
  | EvConsole MsgMonitoringStopped => Some EXPIRED
  | _ => None
  end.

(** The terminal reports made in a trace, in order. *)
Fixpoint reports (tr : list Event) : list Resolution :=
  match tr with
  | [] => []
  | e :: rest =>
      match report e with
      | Some r => r :: reports rest
      | None => reports rest
      end
  end.

(** The state of the bracket after a trace: the first terminal report,
    [ACTIVE] while there is none. *)
Definition resolution (tr : list Event) : Resolution :=
  match reports tr with
  | [] => ACTIVE
  | r :: _ => r
  end.

(** The targets of the [cancelOrder] calls of a trace, in order. *)
Fixpoint cancelCalls (tr : list Event) : list (option string) :=
  match tr with
  | [] => []
  | EvCancelOrder oid :: rest => oid :: cancelCalls rest
  | _ :: rest => cancelCalls rest
  end.

(** The number of order-list fetches of a trace. *)
Fixpoint fetches (tr : list Event) : nat :=
  match tr with
  | [] => 0
  | EvGetOrders :: rest => S (fetches rest)
  | _ :: rest => fetches rest
  end.

(** The [orderService.placeOrder] calls of a trace, in order. *)
Fixpoint placeCalls (tr : list Event) : list OrderData :=
  match tr with
  | [] => []
  | EvCallPlaceOrder od :: rest => od :: placeCalls rest
  | _ :: rest => placeCalls rest
  end.

(** The orders that reached the SDK. *)
Fixpoint sdkPlacements (tr : list Event) : list Order :=
  match tr with
  | [] => []
  | EvSdkPlaceOrder o :: rest => o :: sdkPlacements rest
  | _ :: rest => sdkPlacements rest
  end.

(** The number of monitors started ([setInterval]). *)
Fixpoint monitorsStarted (tr : list Event) : nat :=
  match tr with
  | [] => 0
  | EvSetInterval :: rest => S (monitorsStarted rest)
  | _ :: rest => monitorsStarted rest
  end.

(** The number of times the timer was cleared ([clearInterval]). *)
Fixpoint timersCleared (tr : list Event) : nat :=
  match tr with
  | [] => 0
  | EvClearInterval :: rest => S (timersCleared rest)
  | _ :: rest => timersCleared rest
  end.

(** The number of "could not cancel" warnings printed. *)
Fixpoint cancelWarnings (tr : list Event) : nat :=
  match tr with
  | [] => 0
  | EvConsole MsgCouldNotCancelStopLoss :: rest => S (cancelWarnings rest)
  | EvConsole MsgCouldNotCancelTakeProfit :: rest => S (cancelWarnings rest)
  | _ :: rest => cancelWarnings rest
  end.


(** ** buyWithTPSLAndMonitor, from "Step 2" on *)

Module Buy.

(** The take-profit order: sell, limit. *)
Definition takeProfitOrder (sym : string) (qty : JS.num) (takeProfitPrice : JS.num)
  : OrderData :=
  {| od_symbol := JS.toUpperCase sym; od_quantity := qty;
     od_side := (-1)%Z; od_type := 1%Z;
     od_limitPrice := Some takeProfitPrice; od_stopPrice := None;
     od_productType := "INTRADAY"; od_validity := "DAY" |}.

(** The stop-loss order: sell, stop-limit, trigger fifty paise above the
    limit. *)
Definition stopLossOrder (sym : string) (qty : JS.num) (stopLossPrice : JS.num)
  : OrderData :=
  let triggerPrice := JS.add stopLossPrice JS.half in
  let limitPrice := stopLossPrice in
  {| od_symbol := JS.toUpperCase sym; od_quantity := qty;
     od_side := (-1)%Z; od_type := 3%Z;
     od_limitPrice := Some limitPrice; od_stopPrice := Some triggerPrice;
     od_productType := "INTRADAY"; od_validity := "DAY" |}.

(** "Step 2" and the start of "Step 3": both placements, each in its own
    [try]/[catch], then [setInterval].  Returns [tpOrderId] and
    [slOrderId]; an id stays [None] ([null]) when its placement threw. *)
Definition placeAndStart (place_order : Order -> Response)
    (sym : string) (qty takeProfitPrice stopLossPrice : JS.num)
  : M (option string * option string) :=
  tpOrderId <-
    tryCatch
      (oid <- OrderService.placeOrder place_order
                (takeProfitOrder sym qty takeProfitPrice) ;;
       emit (EvConsole MsgTakeProfitPlaced) ;;
       ret (Some oid))
      (fun tpError => emit (EvConsole MsgTakeProfitFailed) ;; ret None) ;;
  slOrderId <-
    tryCatch
      (emit (EvConsole MsgDebugStopLossValues) ;;
       oid <- OrderService.placeOrder place_order
                (stopLossOrder sym qty stopLossPrice) ;;
       emit (EvConsole MsgStopLossPlaced) ;;
       ret (Some oid))
      (fun slError =>
         emit (EvConsole MsgStopLossFailed) ;;
         emit (EvConsole MsgPlaceManualStopLoss) ;;
         ret None) ;;
  emit (EvConsole MsgStartingMonitoring) ;;
  emit EvSetInterval ;;
  ret (tpOrderId, slOrderId).

(** The [setInterval] callback. *)
Definition tick (tpOrderId slOrderId : option string)
    (inp : TickInput) (s : MonitorState) : M MonitorState :=
  if negb (monitoringActive s) then ret s
  else
    let count := S (monitorCount s) in
    let running := {| monitoringActive := monitoringActive s; monitorCount := count |} in
    let stopped := {| monitoringActive := false; monitorCount := count |} in
    tryCatch
      (book <- OrderService.getOrders (orders inp) ;;
       let tpOrder := findOrder book tpOrderId in
       let slOrder := findOrder book slOrderId in
       if executed tpOrder then
         emit (EvConsole MsgTakeProfitExecuted) ;;
         tryCatch
           (OrderService.cancelOrder (cancel inp) slOrderId ;;
            emit (EvConsole MsgStopLossCancelled))
           (fun cancelError => emit (EvConsole MsgCouldNotCancelStopLoss)) ;;
         emit EvClearInterval ;;
         emit (EvConsole MsgTradeProfit) ;;
         ret stopped
       else if executed slOrder then
         emit (EvConsole MsgStopLossExecuted) ;;
         tryCatch
           (OrderService.cancelOrder (cancel inp) tpOrderId ;;
            emit (EvConsole MsgTakeProfitCancelled))
           (fun cancelError => emit (EvConsole MsgCouldNotCancelTakeProfit)) ;;
         emit EvClearInterval ;;
         emit (EvConsole MsgTradeLoss) ;;
         ret stopped
       else
         (if (count mod 5 =? 0)%nat then emit (EvConsole MsgStatus) else ret tt) ;;
         if (maxMonitorTime <=? count)%nat then
           emit EvClearInterval ;;
           emit (EvConsole MsgMonitoringStopped) ;;
           ret stopped
         else ret running)
      (fun error => emit (EvConsole MsgMonitoringError) ;; ret running).

End Buy.

(** ** shortSellWithTPSLAndMonitor, from "Step 2" on *)

Module Short.

(** The take-profit order: buy back, limit. *)
Definition takeProfitOrder (sym : string) (qty : JS.num) (takeProfitPrice : JS.num)
  : OrderData :=
  {| od_symbol := JS.toUpperCase sym; od_quantity := qty;
     od_side := 1%Z; od_type := 1%Z;
     od_limitPrice := Some takeProfitPrice; od_stopPrice := None;
     od_productType := "INTRADAY"; od_validity := "DAY" |}.

(** The stop-loss order: buy back, stop-limit, trigger fifty paise below
    the limit. *)
Definition stopLossOrder (sym : string) (qty : JS.num) (stopLossPrice : JS.num)
  : OrderData :=
  let triggerPrice := JS.sub stopLossPrice JS.half in
  let limitPrice := stopLossPrice in
  {| od_symbol := JS.toUpperCase sym; od_quantity := qty;
     od_side := 1%Z; od_type := 3%Z;
     od_limitPrice := Some limitPrice; od_stopPrice := Some triggerPrice;
     od_productType := "INTRADAY"; od_validity := "DAY" |}.

(** The fallback: buy back, stop-market at the stop-loss price. *)
Definition stopLossFallbackOrder (sym : string) (qty : JS.num) (stopLossPrice : JS.num)
  : OrderData :=
  {| od_symbol := JS.toUpperCase sym; od_quantity := qty;
     od_side := 1%Z; od_type := 4%Z;
     od_limitPrice := None; od_stopPrice := Some stopLossPrice;
     od_productType := "INTRADAY"; od_validity := "DAY" |}.

(** The stop-loss [try]/[catch] block with its nested fallback. *)
Definition placeStopLoss (place_order : Order -> Response)
    (sym : string) (qty stopLossPrice : JS.num) : M (option string) :=
  tryCatch
    (emit (EvConsole MsgDebugStopLossValues) ;;
     oid <- OrderService.placeOrder place_order
              (stopLossOrder sym qty stopLossPrice) ;;
     emit (EvConsole MsgStopLossPlaced) ;;
     ret (Some oid))
    (fun slError =>
       emit (EvConsole MsgStopLossFailed) ;;
       tryCatch
         (emit (EvConsole MsgTryingFallback) ;;
          oid <- OrderService.placeOrder place_order
                   (stopLossFallbackOrder sym qty stopLossPrice) ;;
          emit (EvConsole MsgStopLossFallbackPlaced) ;;
          ret (Some oid))
         (fun fallbackError =>
            emit (EvConsole MsgStopLossFallbackFailed) ;;
            ret None)).

(** "Step 2" and the start of "Step 3".  The guard
    [if (!tpOrderId || !slOrderId) return] is commented out in the source
    and so is not part of the function. *)
Definition placeAndStart (place_order : Order -> Response)
    (sym : string) (qty takeProfitPrice stopLossPrice : JS.num)
  : M (option string * option string) :=
  tpOrderId <-
    tryCatch
      (oid <- OrderService.placeOrder place_order
                (takeProfitOrder sym qty takeProfitPrice) ;;
       emit (EvConsole MsgTakeProfitPlaced) ;;
       ret (Some oid))
      (fun tpError => emit (EvConsole MsgTakeProfitFailed) ;; ret None) ;;
  slOrderId <- placeStopLoss place_order sym qty stopLossPrice ;;
  emit (EvConsole MsgStartingMonitoring) ;;
  emit EvSetInterval ;;
  ret (tpOrderId, slOrderId).

(** The position display of a tick: [getPositions] in its own
    [try]/[catch] whose handler is empty.  [getPositions] logs at debug
    level when the call returned and at error level before it rethrows. *)
Definition showPosition (position : option bool) : M unit :=
  emit EvGetPositions ;;
  match position with
  | Some true => emit (EvLogger LDebug) ;; emit (EvConsole MsgUnrealizedPnL)
  | Some false => emit (EvLogger LDebug)
  | None => emit (EvLogger LError)
  end.

(** The [setInterval] callback. *)
Definition tick (tpOrderId slOrderId : option string)
    (inp : TickInput) (s : MonitorState) : M MonitorState :=
  if negb (monitoringActive s) then ret s
  else
    let count := S (monitorCount s) in
    let running := {| monitoringActive := monitoringActive s; monitorCount := count |} in
    let stopped := {| monitoringActive := false; monitorCount := count |} in
    emit (EvConsole MsgMonitorCheck) ;;
    tryCatch
      (book <- OrderService.getOrders (orders inp) ;;
       let tpOrder := findOrder book tpOrderId in
       let slOrder := findOrder book slOrderId in
       if executed tpOrder then
         emit (EvConsole MsgTakeProfitExecuted) ;;
         tryCatch
           (OrderService.cancelOrder (cancel inp) slOrderId ;;
            emit (EvConsole MsgStopLossCancelled))
           (fun cancelError => emit (EvConsole MsgCouldNotCancelStopLoss)) ;;
         emit EvClearInterval ;;
         emit (EvConsole MsgTradeProfit) ;;
         ret stopped
       else if executed slOrder then
         emit (EvConsole MsgStopLossExecuted) ;;
         tryCatch
           (OrderService.cancelOrder (cancel inp) tpOrderId ;;
            emit (EvConsole MsgTakeProfitCancelled))
           (fun cancelError => emit (EvConsole MsgCouldNotCancelTakeProfit)) ;;
         emit EvClearInterval ;;
         emit (EvConsole MsgTradeLoss) ;;
         ret stopped
       else
         emit (EvConsole MsgStatus) ;;
         showPosition (position inp) ;;
         if (maxMonitorTime <=? count)%nat then
           emit EvClearInterval ;;
           emit (EvConsole MsgMonitoringStopped) ;;
           ret stopped
         else ret running)
      (fun error => emit (EvConsole MsgMonitoringError) ;; ret running).

End Short.

(** ** Either variant, and runs of ticks *)

Inductive Strategy : Type := BuySide | ShortSide.

Definition placeAndStart (v : Strategy) :=
  match v with
  | BuySide => Buy.placeAndStart
  | ShortSide => Short.placeAndStart
  end.

Definition takeProfitOrder (v : Strategy) :=
  match v with
  | BuySide => Buy.takeProfitOrder
  | ShortSide => Short.takeProfitOrder
  end.

Definition monitorTick (v : Strategy) :=
  match v with
  | BuySide => Buy.tick
  | ShortSide => Short.tick
  end.

(** The callback fired once per element of [inputs], each tick finishing
    before the next one starts: the firings do not overlap.  Should a tick
    throw, the run ends there.  Firings that overlap are the subject of
    [Async] below. *)
Fixpoint monitorRun (v : Strategy) (tpOrderId slOrderId : option string)
    (inputs : list TickInput) (s : MonitorState) : M MonitorState :=
  match inputs with
  | [] => ret s
  | inp :: rest =>
      s' <- monitorTick v tpOrderId slOrderId inp s ;;
      monitorRun v tpOrderId slOrderId rest s'
  end.

(** ** Firings of the interval callback that overlap

    [setInterval] starts the callback every minute whether or not the
    previous invocation has returned.  The callback is [async]: it gives up
    control at each [await] ([getOrders], [cancelOrder], and
    [getPositions] in the short variant) and goes on when the answer
    arrives, and it writes [monitoringActive = false] only after the
    awaited cancel call has answered.  Between two [await]s a firing runs
    without interruption.  A firing is therefore cut at its [await]s, and
    a schedule lists in which order the timer fires and the answers of the
    brokerage arrive.  [monitorRun] above is the case in which every
    firing has had all its answers before the timer fires again. *)

Module Async.

(** Where a firing is suspended. *)
Inductive Suspended : Type :=
| AwaitOrders                   (* in [await orderService.getOrders()] *)
| AwaitPositions                (* in [await orderService.getPositions()] *)
| AwaitCancel (profit : bool).  (* in [await orderService.cancelOrder(..)] of the
                                   take-profit branch ([true]) or of the stop-loss
                                   branch ([false]) *)

(** What happens next: the timer fires, or the brokerage answers the call
    a firing is suspended in.  Firings are numbered from 0 in the order in
    which they passed the guard. *)
Inductive Action : Type :=
| Fire
| OrdersAnswer (firing : nat) (resp : OrdersResponse)
| PositionsAnswer (firing : nat) (position : option bool)
| CancelAnswer (firing : nat) (resp : Response).

(** The two variables the firings share, the number of firings that
    passed the guard, and the firings that are suspended. *)
Record State : Type := mkState {
  shared : MonitorState;
  started : nat;
  inFlight : list (nat * Suspended)
}.

Definition start (s : MonitorState) : State :=
  {| shared := s; started := 0; inFlight := [] |}.

Fixpoint lookup (firing : nat) (l : list (nat * Suspended)) : option Suspended :=
  match l with
  | [] => None
  | (i, p) :: rest => if (i =? firing)%nat then Some p else lookup firing rest
  end.

(** The firing is suspended again at [next], or has returned ([None]). *)
Fixpoint update (firing : nat) (next : option Suspended) (l : list (nat * Suspended))
  : list (nat * Suspended) :=
  match l with
  | [] => []
  | (i, p) :: rest =>
      if (i =? firing)%nat then
        match next with
        | Some p' => (i, p') :: rest
        | None => rest
        end
      else (i, p) :: update firing next rest
  end.

Definition suspended (st : State) (firing : nat) (at_ : Suspended) : State :=
  {| shared := shared st; started := started st;
     inFlight := update firing (Some at_) (inFlight st) |}.

Definition returned (st : State) (firing : nat) : State :=
  {| shared := shared st; started := started st;
     inFlight := update firing None (inFlight st) |}.

(** [getOrders] after its [await]: the part of [OrderService.getOrders]
    that follows the call. *)
Definition getOrdersAnswered (resp : OrdersResponse) : M (option (list BookOrder)) :=
  tryCatch
    (match resp with
     | OrdersOk book => emit (EvLogger LDebug) ;; ret book
     | OrdersNotOk message => throw (ErrGetOrdersFailed message)
     | OrdersThrows message => throw (ErrSdk message)
     end)
    (fun error => emit (EvLogger LError) ;; throw error).

(** [cancelOrder] up to its [await], and after it. *)
Definition cancelOrderCalled (orderId : option string) : M unit :=
  emit (EvCancelOrder orderId) ;;
  emit (EvLogger LInfo).

Definition cancelOrderAnswered (resp : Response) : M unit :=
  tryCatch
    (match resp with
     | RespOk _ => emit (EvLogger LInfo) ;; ret tt
     | RespNotOk message => throw (ErrCancellationFailed message)
     | RespThrows message => throw (ErrSdk message)
     end)
    (fun error => emit (EvLogger LError) ;; throw error).

(** [monitoringActive = false; clearInterval(monitor);] and the closing
    line. *)
Definition stopMonitor (closing : Message) (st : State) : M State :=
  emit EvClearInterval ;;
  emit (EvConsole closing) ;;
  ret {| shared := {| monitoringActive := false;
                      monitorCount := monitorCount (shared st) |};
         started := started st; inFlight := inFlight st |}.

(** [if (monitorCount >= maxMonitorTime) { ... }], on the counter as it
    stands when the firing gets there. *)
Definition checkExpiry (st : State) : M State :=
  if (maxMonitorTime <=? monitorCount (shared st))%nat
  then stopMonitor MsgMonitoringStopped st
  else ret st.

Section Callback.

Variable v : Strategy.
Variables tpOrderId slOrderId : option string.

(** The timer fires: the guard, the counter, and the callback up to
    [await orderService.getOrders()]. *)
Definition fire (st : State) : M State :=
  if negb (monitoringActive (shared st)) then ret st
  else
    match v with
    | BuySide => ret tt
    | ShortSide => emit (EvConsole MsgMonitorCheck)
    end ;;
    emit EvGetOrders ;;
    ret {| shared := {| monitoringActive := monitoringActive (shared st);
                        monitorCount := S (monitorCount (shared st)) |};
           started := S (started st);
           inFlight := inFlight st ++ [(started st, AwaitOrders)] |}.

(** The order list arrives: the callback from there to its next [await]
    or to its end. *)
Definition ordersAnswer (firing : nat) (resp : OrdersResponse) (st : State) : M State :=
  match lookup firing (inFlight st) with
  | Some AwaitOrders =>
      tryCatch
        (book <- getOrdersAnswered resp ;;
         let tpOrder := findOrder book tpOrderId in
         let slOrder := findOrder book slOrderId in
         if executed tpOrder then
           emit (EvConsole MsgTakeProfitExecuted) ;;
           cancelOrderCalled slOrderId ;;
           ret (suspended st firing (AwaitCancel true))
         else if executed slOrder then
           emit (EvConsole MsgStopLossExecuted) ;;
           cancelOrderCalled tpOrderId ;;
           ret (suspended st firing (AwaitCancel false))
         else
           match v with
           | BuySide =>
               (if (monitorCount (shared st) mod 5 =? 0)%nat
                then emit (EvConsole MsgStatus) else ret tt) ;;
               checkExpiry (returned st firing)
           | ShortSide =>
               emit (EvConsole MsgStatus) ;;
               emit EvGetPositions ;;
               ret (suspended st firing AwaitPositions)
           end)
        (fun error => emit (EvConsole MsgMonitoringError) ;; ret (returned st firing))
  | _ => ret st
  end.

(** The positions arrive (short variant): the display, then the expiry
    check. *)
Definition positionsAnswer (firing : nat) (position : option bool) (st : State)
  : M State :=
  match lookup firing (inFlight st) with
  | Some AwaitPositions =>
      match position with
      | Some true => emit (EvLogger LDebug) ;; emit (EvConsole MsgUnrealizedPnL)
      | Some false => emit (EvLogger LDebug)
      | None => emit (EvLogger LError)
      end ;;
      checkExpiry (returned st firing)
  | _ => ret st
  end.

(** The cancel call is answered: the rest of the branch. *)
Definition cancelAnswer (firing : nat) (resp : Response) (st : State) : M State :=
  match lookup firing (inFlight st) with
  | Some (AwaitCancel profit) =>
      tryCatch
        (cancelOrderAnswered resp ;;
         emit (EvConsole (if profit then MsgStopLossCancelled
                          else MsgTakeProfitCancelled)))
        (fun cancelError =>
           emit (EvConsole (if profit then MsgCouldNotCancelStopLoss
                            else MsgCouldNotCancelTakeProfit))) ;;
      stopMonitor (if profit then MsgTradeProfit else MsgTradeLoss)
                  (returned st firing)
  | _ => ret st
  end.

Definition step (a : Action) (st : State) : M State :=
  match a with
  | Fire => fire st
  | OrdersAnswer firing resp => ordersAnswer firing resp st
  | PositionsAnswer firing position => positionsAnswer firing position st
  | CancelAnswer firing resp => cancelAnswer firing resp st
  end.

Fixpoint run (schedule : list Action) (st : State) : M State :=
  match schedule with
  | [] => ret st
  | a :: rest =>
      st' <- step a st ;;
      run rest st'
  end.

(** The state a step leaves. *)
Definition next (a : Action) (st : State) : State :=
  match outcome (step a st) with
  | Ok st' => st'
  | Throw _ => st
  end.

(** Firings do not overlap: whenever the timer fires, no earlier firing
    is still suspended. *)
Fixpoint apart (schedule : list Action) (st : State) : bool :=
  match schedule with
  | [] => true
  | a :: rest =>
      match a, inFlight st with
      | Fire, _ :: _ => false
      | _, _ => apart rest (next a st)
      end
  end.

End Callback.

(** The cancel calls a monitor can still make while its firings are kept
    apart: one, unless a firing has already made its call or the monitor
    is stopped with no firing in flight. *)
Definition cancelsLeft (st : State) : nat :=
  match inFlight st with
  | [] => if monitoringActive (shared st) then 1%nat else 0%nat
  | (_, AwaitCancel _) :: _ => 0%nat
  | _ :: _ => 1%nat
  end.

(** The schedule of [monitorRun]: each firing is given the answers of its
    tick before the timer fires again. *)
Fixpoint serial (first : nat) (inputs : list TickInput) : list Action :=
  match inputs with
  | [] => []
  | inp :: rest =>
      Fire :: OrdersAnswer first (orders inp)
           :: PositionsAnswer first (position inp)
           :: CancelAnswer first (cancel inp)
           :: serial (S first) rest
  end.

End Async.

(** ** Sample brackets and brokerage answers *)

Module Sample.

Definition tp : option string := Some "TP1".
Definition sl : option string := Some "SL1".

Definition bookOpen : option (list BookOrder) :=
  Some [mkBookOrder "TP1" "PENDING"; mkBookOrder "SL1" "PENDING"].
Definition bookBothFilled : option (list BookOrder) :=
  Some [mkBookOrder "TP1" "COMPLETE"; mkBookOrder "SL1" "COMPLETE"].
Definition bookProfit : option (list BookOrder) :=
  Some [mkBookOrder "TP1" "COMPLETE"; mkBookOrder "SL1" "PENDING"].
Definition bookLoss : option (list BookOrder) :=
  Some [mkBookOrder "TP1" "PENDING"; mkBookOrder "SL1" "FILLED"].

Definition quiet : TickInput :=
  {| orders := OrdersOk bookOpen; cancel := RespOk "ok"; position := None |}.
Definition bothFilled : TickInput :=
  {| orders := OrdersOk bookBothFilled; cancel := RespOk "ok"; position := None |}.
Definition profit : TickInput :=
  {| orders := OrdersOk bookProfit; cancel := RespOk "ok"; position := None |}.
Definition loss : TickInput :=
  {| orders := OrdersOk bookLoss; cancel := RespOk "ok"; position := None |}.
Definition lossCancelFails : TickInput :=
  {| orders := OrdersOk bookLoss; cancel := RespThrows "timeout"; position := None |}.
Definition fetchDown : TickInput :=
  {| orders := OrdersThrows "network"; cancel := RespOk "ok"; position := None |}.


(** The monitor one tick before the maximum session duration. *)
Definition lastMinute : MonitorState :=
  {| monitoringActive := true; monitorCount := 359 |}.

End Sample.

(** Schedules in which two firings overlap: the second passes the guard
    while the first is still waiting for the brokerage.  The first is
    shown the stop-loss order filled; by the time the second is answered
    the take-profit order has filled as well. *)
Module Overlap.

Definition firstResolves : list Async.Action :=
  [Async.Fire; Async.Fire;
   Async.OrdersAnswer 0 (OrdersOk Sample.bookLoss);
   Async.CancelAnswer 0 (RespOk "ok")].

Definition secondGoesOn : list Async.Action :=
  [Async.OrdersAnswer 1 (OrdersOk Sample.bookBothFilled);
   Async.CancelAnswer 1 (RespOk "ok")].

Definition race : list Async.Action := firstResolves ++ secondGoesOn.

(** Firings kept apart: the second starts after the first has returned. *)
Definition inTurn : list Async.Action :=
  Async.serial 0 [Sample.quiet; Sample.loss; Sample.bothFilled].

End Overlap.
(** ** The command-line functions around the monitor

    The rest of [place-order.js] that talks to [OrderService]: the whole
    of the two bracket functions (entry order and wait loop before the
    placements modelled above), the cancel commands, the emergency close,
    the stop-loss command and the plain buy/sell commands.  Their traces
    wrap the events above and add their own console lines, the sleeps of
    the wait loops and the registration of the Ctrl+C handler. *)

Module Cli.

(** Console output of these functions, one constructor per group of lines
    printed together. *)
Inductive Line : Type :=
| LineTradeSetup
| LineEntryPlaced
| LineWaiting
| LineEntryExecuted
| LineRecalculating
| LineEntryCancelled
| LineEntryPending
| LineErrorChecking
| LineProceedingAnyway
| LinePriceUnavailable
| LineSetupFailed
| LineHeader
| LineNoPendingOrders
| LineFoundPending
| LineCancelled
| LineCancelFailed
| LineFinishedCancelling
| LineNoOrdersFound
| LineCancelAllFailed
| LineFetchingPositions
| LinePositionCounts
| LineNoOpenPositions
| LinePositionToClose
| LineClosing
| LineClosed
| LineCloseFailed
| LineCancellingPending
| LineEmergencyCompleted
| LineEmergencyFailed
| LineNoPosition
| LineSettingStopLoss
| LineStopLossPlaced
| LineStopLossSetupFailed
| LinePlacingOrder
| LineOrderPlaced
| LineOrderFailed
| LineSweepExecuted
| LineSweepError.

(** What can be thrown: an [Error] of the order code modelled above,
    another [Error] of [OrderService], or a [TypeError] raised by the
    runtime itself. *)
Inductive Failure : Type :=
| Thrown (e : Error)
| Raised (message : string)
| TypeError (message : string).

Inductive Action : Type :=
| Did (e : Event)      (* an event of the order code *)
| Said (l : Line)      (* console output *)
| Slept (ms : N)       (* await new Promise(r => setTimeout(r, ms)) *)
| OnSigint.            (* process.on('SIGINT', handler) *)

Inductive Outcome (A : Type) : Type :=
| Done (a : A)
| Failed (f : Failure).
Arguments Done {A} a.
Arguments Failed {A} f.

Definition Run (A : Type) : Type := (list Action * Outcome A)%type.

Definition pure {A} (a : A) : Run A := ([], Done a).

Definition andThen {A B} (m : Run A) (k : A -> Run B) : Run B :=
  match m with
  | (tr, Done a) => let (tr', r) := k a in (tr ++ tr', r)
  | (tr, Failed f) => (tr, Failed f)
  end.

Definition act (a : Action) : Run unit := ([a], Done tt).

Definition say (l : Line) : Run unit := act (Said l).

Definition fail {A} (f : Failure) : Run A := ([], Failed f).

(** [try { m } catch (e) { h e }]. *)
Definition attempt {A} (m : Run A) (h : Failure -> Run A) : Run A :=
  match m with
  | (tr, Done a) => (tr, Done a)
  | (tr, Failed f) => let (tr', r) := h f in (tr ++ tr', r)
  end.

(** A call into the order code. *)
Definition lift {A} (m : M A) : Run A :=
  (map Did (fst m),
   match snd m with
   | Ok a => Done a
   | Throw e => Failed (Thrown e)
   end).

Declare Scope cli_scope.
Delimit Scope cli_scope with cli.
Notation "x <- m ;; k" := (andThen m (fun x => k))
  (at level 61, m at next level, right associativity) : cli_scope.
Notation "m ;; k" := (andThen m (fun _ => k))
  (at level 61, right associativity) : cli_scope.
Local Open Scope cli_scope.

Definition actions {A} (m : Run A) : list Action := fst m.
Definition result {A} (m : Run A) : Outcome A := snd m.

(** The events of the order code within a trace. *)
Fixpoint calls (tr : list Action) : list Event :=
  match tr with
  | [] => []
  | Did e :: rest => e :: calls rest
  | _ :: rest => calls rest
  end.

(** The total time slept, in milliseconds. *)
Fixpoint slept (tr : list Action) : N :=
  match tr with
  | [] => 0%N
  | Slept ms :: rest => (ms + slept rest)%N
  | _ :: rest => slept rest
  end.

(** *** Numbers: exact arithmetic

    Multiplication on exact numbers; [NaN] is absorbing. *)

Definition mul (x y : JS.num) : JS.num :=
  match x, y with
  | JS.Num a, JS.Num b => JS.Num (a * b)
  | _, _ => JS.NaN
  end.

(** [Math.abs] of an integer quantity, as a number. *)
Definition absQty (n : Z) : JS.num := JS.Num (inject_Z (Z.abs n)).

(** *** Numbers: binary64

    The exit prices of the two bracket functions are computed and then
    rounded to a whole rupee, so the rounding of the intermediate results
    decides the rupee: the arithmetic is that of IEEE 754 binary64, taken
    from the standard library's [SpecFloat].  A number that is not a
    binary64 value is first rounded to one, as [parseFloat] does with
    decimal text.  [JS.num] has no infinities: a result beyond the finite
    range of binary64 comes out as [NaN]. *)

Module B64.

Definition prec : Z := 53.
Definition emax : Z := 1024.

Definition ofZ (n : Z) : spec_float := binary_normalize prec emax n 0 false.

(** The binary64 value of a number: the quotient, rounded once, of its
    numerator and denominator in lowest terms (both exact for a number
    that is a binary64 value already, and for decimal text of up to
    fifteen digits). *)
Definition ofNum (x : JS.num) : spec_float :=
  match x with
  | JS.NaN => S754_nan
  | JS.Num q => SFdiv prec emax (ofZ (Qnum (Qred q))) (ofZ (Zpos (Qden (Qred q))))
  end.

Definition toNum (x : spec_float) : JS.num :=
  match x with
  | S754_zero _ => JS.Num 0
  | S754_finite s m e =>
      let n := if s then Zneg m else Zpos m in
      JS.Num (Qred (if (0 <=? e)%Z then inject_Z (n * 2 ^ e)
                    else n # Z.to_pos (2 ^ (- e))))
  | _ => JS.NaN
  end.

Definition add : spec_float -> spec_float -> spec_float := SFadd prec emax.
Definition sub : spec_float -> spec_float -> spec_float := SFsub prec emax.
Definition mul : spec_float -> spec_float -> spec_float := SFmul prec emax.
Definition div : spec_float -> spec_float -> spec_float := SFdiv prec emax.

(** [Math.round]: the nearest integer, halves going up; the integer is
    exact, a value without a fractional part is returned as it is. *)
Definition round (x : spec_float) : spec_float :=
  match x with
  | S754_finite s m e =>
      if (0 <=? e)%Z then x
      else
        let n := if s then Zneg m else Zpos m in
        ofZ ((2 * n + 2 ^ (- e)) / 2 ^ (1 - e))
  | _ => x
  end.

End B64.

(** A price in whole rupees, short of [2^52] in magnitude: what
    [Math.round] returns for any price an order can carry.  For such a
    price the exact sums [p + 0.50] and [p - 0.50] of the stop-loss orders
    are binary64 values, so that exact and binary64 arithmetic agree on
    them. *)
Definition rupees (x : JS.num) : bool :=
  match x with
  | JS.NaN => false
  | JS.Num q =>
      Qeq_bool q (inject_Z (Qfloor q))
      && Qle_bool (Qabs q) (inject_Z (2 ^ 52 - 1))
  end.

(** Such a price, or [NaN], which [+ 0.50] and [- 0.50] leave [NaN]. *)
Definition wholeRupees (x : JS.num) : bool :=
  match x with
  | JS.NaN => true
  | JS.Num _ => rupees x
  end.

(** *** buyWithTPSLAndMonitor, the whole function *)

(** [roundToNearestRupee(price + price * tpPercent / 100)] and
    [roundToNearestRupee(price - price * slPercent / 100)]. *)
Definition buyExitPrices (price tpPercent slPercent : JS.num) : JS.num * JS.num :=
  let price := B64.ofNum price in
  let tpPercent := B64.ofNum tpPercent in
  let slPercent := B64.ofNum slPercent in
  let rawTakeProfitPrice :=
    B64.add price (B64.div (B64.mul price tpPercent) (B64.ofZ 100)) in
  let rawStopLossPrice :=
    B64.sub price (B64.div (B64.mul price slPercent) (B64.ofZ 100)) in
  (B64.toNum (B64.round rawTakeProfitPrice), B64.toNum (B64.round rawStopLossPrice)).
Arguments buyExitPrices : simpl never.

(** The entry order: buy, limit at [price]. *)
Definition buyEntryOrder (sym : string) (qty price : JS.num) : OrderData :=
  {| od_symbol := JS.toUpperCase sym; od_quantity := qty;
     od_side := 1%Z; od_type := 1%Z;
     od_limitPrice := Some price; od_stopPrice := None;
     od_productType := "INTRADAY"; od_validity := "DAY" |}.

(** The wait loop [while (!buyExecuted && attempts < maxAttempts)]:
    [remaining] counts the iterations left, [poll n] is the answer to the
    [getOrders] call of attempt [n].  Returns [buyExecuted]. *)
Fixpoint waitForBuy (poll : nat -> OrdersResponse) (buyId : string)
    (attempts remaining : nat) : Run bool :=
  match remaining with
  | O => pure false
  | S remaining' =>
      act (Slept 10000%N) ;;
      let attempts := S attempts in
      buyExecuted <-
        attempt
          (book <- lift (OrderService.getOrders (poll attempts)) ;;
           if executed (findOrder book (Some buyId)) then
             say LineEntryExecuted ;; pure true
           else
             say LineEntryPending ;; pure false)
          (fun error => say LineErrorChecking ;; pure false) ;;
      if buyExecuted then pure true
      else waitForBuy poll buyId attempts remaining'
  end.

(** The function, from the parsed arguments.  Returns the two order ids the
    monitor was started with, or [None] when it ended in its outer
    [catch]. *)
Definition buyWithTPSLAndMonitor (place_order : Order -> Response)
    (poll : nat -> OrdersResponse)
    (sym : string) (qty price tpPercent slPercent : JS.num)
  : Run (option (option string * option string)) :=
  attempt
    (let takeProfitPrice := fst (buyExitPrices price tpPercent slPercent) in
     let stopLossPrice := snd (buyExitPrices price tpPercent slPercent) in
     say LineTradeSetup ;;
     buyId <- lift (OrderService.placeOrder place_order (buyEntryOrder sym qty price)) ;;
     say LineEntryPlaced ;;
     say LineWaiting ;;
     buyExecuted <- waitForBuy poll buyId 0 3 ;;
     (if buyExecuted then pure tt else say LineProceedingAnyway) ;;
     ids <- lift (Buy.placeAndStart place_order sym qty takeProfitPrice stopLossPrice) ;;
     act OnSigint ;;
     pure (Some ids))
    (fun error => say LineSetupFailed ;; pure None).

(** *** shortSellWithTPSLAndMonitor, the whole function *)

(** [roundToNearestRupee(price - price * tpPercent / 100)] and
    [roundToNearestRupee(price + price * slPercent / 100)]. *)
Definition shortExitPrices (price tpPercent slPercent : JS.num) : JS.num * JS.num :=
  let price := B64.ofNum price in
  let tpPercent := B64.ofNum tpPercent in
  let slPercent := B64.ofNum slPercent in
  let rawTakeProfitPrice :=
    B64.sub price (B64.div (B64.mul price tpPercent) (B64.ofZ 100)) in
  let rawStopLossPrice :=
    B64.add price (B64.div (B64.mul price slPercent) (B64.ofZ 100)) in
  (B64.toNum (B64.round rawTakeProfitPrice), B64.toNum (B64.round rawStopLossPrice)).
Arguments shortExitPrices : simpl never.

(** The entry order: sell, at market, whatever price was given. *)
Definition shortEntryOrder (sym : string) (qty : JS.num) : OrderData :=
  {| od_symbol := JS.toUpperCase sym; od_quantity := qty;
     od_side := (-1)%Z; od_type := 2%Z;
     od_limitPrice := None; od_stopPrice := None;
     od_productType := "INTRADAY"; od_validity := "DAY" |}.

(** How the wait loop of the short variant ends. *)
Inductive Waited : Type :=
| EntryExecuted    (* shortExecuted = true *)
| EntryCancelled   (* the function returned from inside the loop *)
| EntryUnclear.    (* maxAttempts reached *)

(** [s && s.status === 'CANCELLED']. *)
Definition cancelled (o : option BookOrder) : bool :=
  match o with
  | Some row => String.eqb (status row) "CANCELLED"
  | None => false
  end.

(** The wait loop.  When the entry is seen executed the body sets
    [shortExecuted], reassigns [price] and then assigns to
    [takeProfitPrice], which is declared [const]: that statement throws a
    [TypeError], the [catch] of the loop body logs it, and the loop ends on
    its condition.  A [TypeError] reaching the handler therefore means
    [shortExecuted] was set. *)
Fixpoint waitForShort (poll : nat -> OrdersResponse) (shortId : string)
    (attempts remaining : nat) : Run Waited :=
  match remaining with
  | O => pure EntryUnclear
  | S remaining' =>
      act (Slept 10000%N) ;;
      let attempts := S attempts in
      step <-
        attempt
          (book <- lift (OrderService.getOrders (poll attempts)) ;;
           let shortOrderStatus := findOrder book (Some shortId) in
           if executed shortOrderStatus then
             say LineEntryExecuted ;;
             say LineRecalculating ;;
             fail (TypeError "Assignment to constant variable.")
           else if cancelled shortOrderStatus then
             say LineEntryCancelled ;; pure (Some EntryCancelled)
           else
             say LineEntryPending ;; pure None)
          (fun error =>
             say LineErrorChecking ;;
             match error with
             | TypeError _ => pure (Some EntryExecuted)
             | _ => pure None
             end) ;;
      match step with
      | Some w => pure w
      | None => waitForShort poll shortId attempts remaining'
      end
  end.

(** The function, from the point where the reference price is known:
    [price] is [None] when no market price was given and none could be
    fetched, in which case the function returns at once. *)
Definition shortSellWithTPSLAndMonitor (place_order : Order -> Response)
    (poll : nat -> OrdersResponse)
    (sym : string) (qty : JS.num) (price : option JS.num)
    (tpPercent slPercent : JS.num)
  : Run (option (option string * option string)) :=
  attempt
    (match price with
     | None => say LinePriceUnavailable ;; pure None
     | Some price =>
         let takeProfitPrice := fst (shortExitPrices price tpPercent slPercent) in
         let stopLossPrice := snd (shortExitPrices price tpPercent slPercent) in
         say LineTradeSetup ;;
         shortId <- lift (OrderService.placeOrder place_order (shortEntryOrder sym qty)) ;;
         say LineEntryPlaced ;;
         say LineWaiting ;;
         waited <- waitForShort poll shortId 0 6 ;;
         match waited with
         | EntryCancelled => pure None
         | _ =>
             (match waited with
              | EntryUnclear => say LineProceedingAnyway
              | _ => pure tt
              end) ;;
             ids <- lift (Short.placeAndStart place_order sym qty
                            takeProfitPrice stopLossPrice) ;;
             act OnSigint ;;
             pure (Some ids)
         end
     end)
    (fun error => say LineSetupFailed ;; pure None).

(** *** The order book and the positions, as the commands read them *)

(** A row of the order book with the product type the cancel commands
    filter on. *)
Record OrderRow : Type := mkOrderRow {
  rowOrder : BookOrder;
  rowProductType : string
}.

Inductive BookResponse : Type :=
| BookOk (rows : option (list OrderRow))
| BookNotOk (message : string)
| BookThrows (message : string).

(** The same answer with the rows cut down to id and status. *)
Definition plainBook (resp : BookResponse) : OrdersResponse :=
  match resp with
  | BookOk rows => OrdersOk (option_map (map rowOrder) rows)
  | BookNotOk message => OrdersNotOk message
  | BookThrows message => OrdersThrows message
  end.

(** [orderService.getOrders()] followed by [orders.data.orderBook]; the
    rows are only reached when the call returned. *)
Definition getOrderRows (resp : BookResponse) : Run (option (list OrderRow)) :=
  lift (OrderService.getOrders (plainBook resp)) ;;
  pure (match resp with
        | BookOk rows => rows
        | _ => None
        end).

(** [order.status === 'PENDING' || order.status === 'OPEN']. *)
Definition isPending (r : OrderRow) : bool :=
  String.eqb (status (rowOrder r)) "PENDING" || String.eqb (status (rowOrder r)) "OPEN".

(** [productType === 'INTRADAY' || productType === 'MIS']. *)
Definition isIntraday (productType : string) : bool :=
  String.eqb productType "INTRADAY" || String.eqb productType "MIS".

(** A row of the positions list.  [pl] is [None] when the property is
    missing. *)
Record Position : Type := mkPosition {
  posSymbol : string;
  netQty : Z;
  posProductType : string;
  pl : option JS.num
}.

(** The answer of [fyers.get_positions]; an ok answer may carry the list
    as [netPositions], as [data.netPositions] or as [data.positions]. *)
Inductive PositionsResponse : Type :=
| PositionsOk (netPositions dataNetPositions dataPositions : option (list Position))
| PositionsNotOk (message : string)
| PositionsThrows (message : string).

(** [OrderService.getPositions()]. *)
Definition getPositions (resp : PositionsResponse) : Run unit :=
  act (Did EvGetPositions) ;;
  attempt
    (match resp with
     | PositionsOk _ _ _ => act (Did (EvLogger LDebug))
     | PositionsNotOk message => fail (Raised message)
     | PositionsThrows message => fail (Thrown (ErrSdk message))
     end)
    (fun error => act (Did (EvLogger LError)) ;; fail error).

(** *** cancelAllOrders and cancelIntradayOrders *)

(** [for (const order of orders) { try { cancelOrder(order.id) ... }
    catch { ... } }]; [cancel_order] is the SDK's answer per order id. *)
Fixpoint cancelEach (cancel_order : string -> Response) (rows : list OrderRow)
  : Run unit :=
  match rows with
  | [] => pure tt
  | order :: rest =>
      attempt
        (lift (OrderService.cancelOrder (cancel_order (id (rowOrder order)))
                 (Some (id (rowOrder order)))) ;;
         say LineCancelled)
        (fun cancelError => say LineCancelFailed) ;;
      cancelEach cancel_order rest
  end.

Definition cancelAllOrders (book : BookResponse) (cancel_order : string -> Response)
  : Run unit :=
  say LineHeader ;;
  attempt
    (rows <- getOrderRows book ;;
     match rows with
     | Some orderBook =>
         let pendingOrders := filter isPending orderBook in
         match pendingOrders with
         | [] => say LineNoPendingOrders
         | _ =>
             say LineFoundPending ;;
             cancelEach cancel_order pendingOrders ;;
             say LineFinishedCancelling
         end
     | None => say LineNoOrdersFound
     end)
    (fun error => say LineCancelAllFailed).

Definition cancelIntradayOrders (book : BookResponse) (cancel_order : string -> Response)
  : Run unit :=
  attempt
    (rows <- getOrderRows book ;;
     match rows with
     | Some orderBook =>
         let intradayPendingOrders :=
           filter (fun order => isPending order && isIntraday (rowProductType order))
                  orderBook in
         match intradayPendingOrders with
         | [] => say LineNoPendingOrders
         | _ =>
             say LineFoundPending ;;
             cancelEach cancel_order intradayPendingOrders ;;
             say LineFinishedCancelling
         end
     | None => say LineNoOrdersFound
     end)
    (fun error => say LineCancelAllFailed).

(** *** emergencyClose *)

(** The list the function works on: the first of [positions.netPositions],
    [positions.data.netPositions], [positions.data.positions] that is
    there. *)
Definition allPositions (resp : PositionsResponse) : list Position :=
  match resp with
  | PositionsOk (Some l) _ _ => l
  | PositionsOk None (Some l) _ => l
  | PositionsOk None None (Some l) => l
  | _ => []
  end.

(** [pos.netQty !== 0 && (INTRADAY || MIS)]. *)
Definition isOpenIntraday (pos : Position) : bool :=
  negb (netQty pos =? 0)%Z && isIntraday (posProductType pos).

(** The market order that closes a position: opposite side, the absolute
    quantity.  No [validity] is given. *)
Definition closeOrder (position : Position) : OrderData :=
  {| od_symbol := posSymbol position;
     od_quantity := absQty (netQty position);
     od_side := if (0 <? netQty position)%Z then (-1)%Z else 1%Z;
     od_type := 2%Z;
     od_limitPrice := None; od_stopPrice := None;
     od_productType := "INTRADAY"; od_validity := "" |}.

(** The listing [intradayPositions.forEach(pos => console.log(...
    pos.pl.toFixed(2) ...))]: [toFixed] of a missing [pl] throws. *)
Fixpoint listPositions (positions : list Position) : Run unit :=
  match positions with
  | [] => pure tt
  | pos :: rest =>
      match pl pos with
      | Some _ => say LinePositionToClose
      | None => fail (TypeError "Cannot read properties of undefined")
      end ;;
      listPositions rest
  end.

Fixpoint closeEach (place_order : Order -> Response) (positions : list Position)
  : Run unit :=
  match positions with
  | [] => pure tt
  | position :: rest =>
      attempt
        (say LineClosing ;;
         lift (OrderService.placeOrder place_order (closeOrder position)) ;;
         say LineClosed)
        (fun closeError => say LineCloseFailed) ;;
      closeEach place_order rest
  end.

Definition emergencyClose (positions : PositionsResponse)
    (place_order : Order -> Response)
    (book : BookResponse) (cancel_order : string -> Response) : Run unit :=
  say LineHeader ;;
  attempt
    (say LineFetchingPositions ;;
     getPositions positions ;;
     let intradayPositions := filter isOpenIntraday (allPositions positions) in
     say LinePositionCounts ;;
     match intradayPositions with
     | [] => say LineNoOpenPositions
     | _ =>
         listPositions intradayPositions ;;
         closeEach place_order intradayPositions
     end ;;
     say LineCancellingPending ;;
     cancelIntradayOrders book cancel_order ;;
     say LineEmergencyCompleted)
    (fun error => say LineEmergencyFailed).

(** *** setStopLoss *)




(** *** buyOrder and sellOrder *)

(** The order of the plain commands: a limit order when a price argument
    was given ([price] is what [parseFloat] made of it), a market order
    otherwise. *)
Definition plainOrder (side : Z) (sym : string) (qty : JS.num) (price : option JS.num)
  : OrderData :=
  {| od_symbol := JS.toUpperCase sym; od_quantity := qty;
     od_side := side;
     od_type := match price with Some _ => 1%Z | None => 2%Z end;
     od_limitPrice := price; od_stopPrice := None;
     od_productType := "INTRADAY"; od_validity := "DAY" |}.

Definition placePlain (side : Z) (place_order : Order -> Response)
    (sym : string) (qty : JS.num) (price : option JS.num) : Run unit :=
  attempt
    (say LinePlacingOrder ;;
     lift (OrderService.placeOrder place_order (plainOrder side sym qty price)) ;;
     say LineOrderPlaced)
    (fun error => say LineOrderFailed).

Definition buyOrder := placePlain 1%Z.
Definition sellOrder := placePlain (-1)%Z.

End Cli.

(** ** Observations on traces, taken together *)

(** What a trace did to the brokerage and to the timers, in one record of
    observations. *)
Record Footprint : Type := mkFootprint {
  fpPlaced : list OrderData;
  fpSdk : list Order;
  fpCancelled : list (option string);
  fpFetches : nat;
  fpMonitors : nat
}.

Definition footprint (tr : list Event) : Footprint :=
  {| fpPlaced := placeCalls tr;
     fpSdk := sdkPlacements tr;
     fpCancelled := cancelCalls tr;
     fpFetches := fetches tr;
     fpMonitors := monitorsStarted tr |}.

Definition fpPlus (a b : Footprint) : Footprint :=
  {| fpPlaced := fpPlaced a ++ fpPlaced b;
     fpSdk := fpSdk a ++ fpSdk b;
     fpCancelled := fpCancelled a ++ fpCancelled b;
     fpFetches := fpFetches a + fpFetches b;
     fpMonitors := fpMonitors a + fpMonitors b |}.


(** ** What a poll of the wait loops shows *)

(** The row of order [orderId] in the answer to one [getOrders] call;
    [None] when the call failed or the order is not listed. *)
Definition shown (resp : OrdersResponse) (orderId : string) : option BookOrder :=
  match resp with
  | OrdersOk book => findOrder book (Some orderId)
  | _ => None
  end.

(** Whether the poll ends the wait loop of the short variant, and how. *)
Definition decides (resp : OrdersResponse) (orderId : string) : option Cli.Waited :=
  if executed (shown resp orderId) then Some Cli.EntryExecuted
  else if Cli.cancelled (shown resp orderId) then Some Cli.EntryCancelled
  else None.

(** ** Sample runs of the command-line functions *)

Module CliSample.

(** A brokerage that accepts every placement under one id. *)
Definition acceptAll (o : Order) : Response := RespOk "E1".

Definition entryBook (entryStatus : string) : OrdersResponse :=
  OrdersOk (Some [mkBookOrder "E1" entryStatus]).

(** The order list is down on the first poll and lists the entry as
    [entryStatus] from the second poll on. *)
Definition secondPoll (entryStatus : string) (attempt : nat) : OrdersResponse :=
  match attempt with
  | 1%nat => OrdersThrows "network"
  | _ => entryBook entryStatus
  end.

(** The entry stays pending on every poll. *)
Definition neverFilled (attempt : nat) : OrdersResponse := entryBook "PENDING".

End CliSample.

(** The cancel targets a list of rows stands for. *)
Definition rowTargets (rows : list Cli.OrderRow) : list (option string) :=
  map (fun r => Some (id (Cli.rowOrder r))) rows.

(** The rows of an order-book answer; none when the call failed or the
    book is missing. *)
Definition bookRows (book : Cli.BookResponse) : list Cli.OrderRow :=
  match book with
  | Cli.BookOk (Some rows) => rows
  | _ => []
  end.

(** Whether a row of the positions list carries its [pl] property. *)
Definition hasPl (pos : Cli.Position) : bool :=
  match Cli.pl pos with
  | Some _ => true
  | None => false
  end.

(** Whether the positions call returned. *)
Definition positionsOk (resp : Cli.PositionsResponse) : bool :=
  match resp with
  | Cli.PositionsOk _ _ _ => true
  | _ => false
  end.

(** Whether [validateOrderData] lets a plain (market or limit) order with
    this symbol, quantity and optional price through, given a side that is
    not zero. *)
Definition plainAccepted (sym : string) (quantity : JS.num) (price : option JS.num)
  : bool :=
  negb (JS.falsy_string sym) && negb (JS.falsy quantity)
  && match price with
     | None => true
     | Some p => negb (JS.falsy p || JS.leb p (JS.Num 0))
     end.

Module CliSample2.

Definition longSbin : Cli.Position :=
  {| Cli.posSymbol := "NSE:SBIN-EQ"; Cli.netQty := 10%Z;
     Cli.posProductType := "INTRADAY"; Cli.pl := Some (JS.Num 25) |}.
Definition shortTcs : Cli.Position :=
  {| Cli.posSymbol := "NSE:TCS-EQ"; Cli.netQty := (-4)%Z;
     Cli.posProductType := "MIS"; Cli.pl := Some (JS.Num (-12)) |}.
Definition heldInfy : Cli.Position :=
  {| Cli.posSymbol := "NSE:INFY-EQ"; Cli.netQty := 7%Z;
     Cli.posProductType := "CNC"; Cli.pl := Some (JS.Num 3) |}.
Definition flatItc : Cli.Position :=
  {| Cli.posSymbol := "NSE:ITC-EQ"; Cli.netQty := 0%Z;
     Cli.posProductType := "INTRADAY"; Cli.pl := Some (JS.Num 0) |}.
Definition noPlWipro : Cli.Position :=
  {| Cli.posSymbol := "NSE:WIPRO-EQ"; Cli.netQty := 5%Z;
     Cli.posProductType := "INTRADAY"; Cli.pl := None |}.

Definition positions : Cli.PositionsResponse :=
  Cli.PositionsOk (Some [longSbin; heldInfy; shortTcs; flatItc]) None None.
Definition positionsWithoutPl : Cli.PositionsResponse :=
  Cli.PositionsOk (Some [longSbin; noPlWipro]) None None.

Definition book : Cli.BookResponse :=
  Cli.BookOk (Some [Cli.mkOrderRow (mkBookOrder "O1" "PENDING") "INTRADAY";
                    Cli.mkOrderRow (mkBookOrder "O2" "COMPLETE") "INTRADAY";
                    Cli.mkOrderRow (mkBookOrder "O3" "OPEN") "CNC";
                    Cli.mkOrderRow (mkBookOrder "O4" "OPEN") "MIS"]).

Definition cancelFailsForO1 (oid : string) : Response :=
  if String.eqb oid "O1" then RespThrows "timeout" else RespOk oid.

End CliSample2.


(** ** isMarketOpen *)

Module Market.

(** [a < b] on strings: by code units, a proper prefix being smaller. *)
Fixpoint ltb (a b : string) : bool :=
  match a, b with
  | _, EmptyString => false
  | EmptyString, String _ _ => true
  | String x a', String y b' =>
      if (nat_of_ascii x <? nat_of_ascii y)%nat then true
      else if (nat_of_ascii y <? nat_of_ascii x)%nat then false
      else ltb a' b'
  end.

Inductive Status : Type :=
| Weekend
| BeforeHours
| AfterHours
| Open.

(** [isMarketOpen()], from the two readings it takes of the clock:
    [now.day()] and [now.format('HHmm')]. *)
Definition isMarketOpen (dayOfWeek : nat) (currentTime : string) : Status :=
  if (dayOfWeek =? 0)%nat || (dayOfWeek =? 6)%nat then Weekend
  else if ltb currentTime "0915" then BeforeHours
  else if ltb "1530" currentTime then AfterHours
  else Open.

(** [open] of the returned object. *)
Definition isOpen (s : Status) : bool :=
  match s with
  | Open => true
  | _ => false
  end.

(** The text [format('HHmm')] gives for hour [h] and minute [m]: two
    digits each, zero padded. *)
Definition digit (n : nat) : ascii := ascii_of_nat (48 + n mod 10).

Definition HHmm (h m : nat) : string :=
  String (digit (h / 10)) (String (digit h)
    (String (digit (m / 10)) (String (digit m) EmptyString))).

(** Every minute of the day, as (hour, minute). *)
Definition minutesOfDay : list (nat * nat) :=
  list_prod (seq 0 24) (seq 0 60).

(** What the clock comparison should give at [h]:[m] on a weekday. *)
Definition expected (h m : nat) : Status :=
  if (h * 60 + m <? 9 * 60 + 15)%nat then BeforeHours
  else if (15 * 60 + 30 <? h * 60 + m)%nat then AfterHours
  else Open.

Definition statusEqb (a b : Status) : bool :=
  match a, b with
  | Weekend, Weekend | BeforeHours, BeforeHours
  | AfterHours, AfterHours | Open, Open => true
  | _, _ => false
  end.

End Market.

(** ** requiredTPpercent: the take-profit solver of [requiredTakeProfit.js]

    The solver [buyWithOptimalTPSL] calls.  Numbers are exact rationals or
    [NaN]; the decimal literals of the source stand for their exact
    values. *)

Module Calc.

(** [x < y]; false when either is [NaN]. *)
Definition ltb (x y : JS.num) : bool :=
  match x, y with
  | JS.Num a, JS.Num b => negb (Qle_bool b a)
  | _, _ => false
  end.

(** [Math.min] and [Math.max] of two numbers; [NaN] when either is. *)
Definition min (x y : JS.num) : JS.num :=
  match x, y with
  | JS.Num a, JS.Num b => JS.Num (if Qle_bool a b then a else b)
  | _, _ => JS.NaN
  end.

Definition max (x y : JS.num) : JS.num :=
  match x, y with
  | JS.Num a, JS.Num b => JS.Num (if Qle_bool a b then b else a)
  | _, _ => JS.NaN
  end.

(** [x / y].  A zero divisor does not give a finite number and is rendered
    as [NaN]; the divisors of the solver are the literal 2 and the price,
    which is checked to be positive first. *)
Definition div (x y : JS.num) : JS.num :=
  match x, y with
  | JS.Num a, JS.Num b => if Qeq_bool b 0 then JS.NaN else JS.Num (a / b)
  | _, _ => JS.NaN
  end.

Definition mul := Cli.mul.
Definition add := JS.add.
Definition sub := JS.sub.

(** The rate parameters, with the defaults of the parameter list. *)
Record Rates : Type := mkRates {
  brokerageRate : Q;
  brokerageCap : Q;
  sttRate : Q;
  exchRate : Q;
  sebiRate : Q;
  gstRate : Q;
  stampDutyBuyRate : Q
}.

Definition defaultRates : Rates :=
  {| brokerageRate := 3 # 10000;
     brokerageCap := 20;
     sttRate := 25 # 100000;
     exchRate := 345 # 10000000;
     sebiRate := 1 # 1000000;
     gstRate := 18 # 100;
     stampDutyBuyRate := 3 # 100000 |}.

Inductive CalcError : Type :=
| PriceNotPositive
| QuantityNotPositive
| AtrNegative
| NoStopGiven.

Record Solution : Type := mkSolution {
  required_g : JS.num;
  netLoss : JS.num;
  chargesSL : JS.num;
  calculatedStopLossPercent : JS.num;
  stopLossPrice : JS.num;
  atrUsed : bool
}.

Section Solver.

Variable rates : Rates.
Variables P Q : JS.num.

(** [brokeragePerSide(turn)]. *)
Definition brokeragePerSide (turn : JS.num) : JS.num :=
  min (mul turn (JS.Num (brokerageRate rates))) (JS.Num (brokerageCap rates)).

Definition turnBuy : JS.num := mul P Q.

(** The charges of a round trip that sells at [sellPrice]. *)
Definition charges (sellPrice : JS.num) : JS.num :=
  let turnSell := mul sellPrice Q in
  let brokerageTotal := add (brokeragePerSide turnBuy) (brokeragePerSide turnSell) in
  let stt := mul (JS.Num (sttRate rates)) turnSell in
  let exchTotal := mul (JS.Num (exchRate rates)) (add turnBuy turnSell) in
  let sebiTotal := mul (JS.Num (sebiRate rates)) (add turnBuy turnSell) in
  let gst := mul (JS.Num (gstRate rates))
                 (add (add brokerageTotal exchTotal) sebiTotal) in
  let stampBuy := mul (JS.Num (stampDutyBuyRate rates)) turnBuy in
  add (add (add (add (add brokerageTotal stt) exchTotal) sebiTotal) gst) stampBuy.

(** [netProfit(g)]. *)
Definition netProfit (g : JS.num) : JS.num :=
  let sellTP := mul P (add (JS.Num 1) g) in
  let profitBefore := mul (mul Q P) g in
  sub profitBefore (charges sellTP).

(** The loop [for (i = 0; i < 60; i++) { mid = (lo+hi)/2; if
    (netProfit(mid) < targetNetProfit) lo = mid; else hi = mid; }]. *)
Fixpoint bisect (target : JS.num) (iterations : nat) (lo hi : JS.num)
  : JS.num * JS.num :=
  match iterations with
  | O => (lo, hi)
  | S n =>
      let mid := div (add lo hi) (JS.Num 2) in
      if ltb (netProfit mid) target then bisect target n mid hi
      else bisect target n lo mid
  end.

(** The stop-loss fraction: from the ATR, clamped to 0.1% .. 5%, or the
    given [l]. *)
Definition stopFraction (ATR l : option JS.num) : option JS.num :=
  match ATR with
  | Some atr =>
      Some (max (JS.Num (1 # 1000))
                (min (JS.Num (5 # 100)) (div (mul (JS.Num (1 # 2)) atr) P)))
  | None => l
  end.

(** [targetNetProfit] for stop fraction [calculatedL]. *)
Definition lossAt (calculatedL : JS.num) : JS.num :=
  let sellSl := mul P (sub (JS.Num 1) calculatedL) in
  add (mul (mul Q P) calculatedL) (charges sellSl).

(** [requiredTPpercent({P, Q, ATR, l, ...rates})]; [ATR] and [l] are
    [None] when undefined or null. *)
Definition requiredTPpercent (ATR l : option JS.num) : CalcError + Solution :=
  if JS.falsy P || JS.leb P (JS.Num 0) then inl PriceNotPositive
  else if JS.falsy Q || JS.leb Q (JS.Num 0) then inl QuantityNotPositive
  else if match ATR with Some atr => ltb atr (JS.Num 0) | None => false end
  then inl AtrNegative
  else
    match stopFraction ATR l with
    | None => inl NoStopGiven
    | Some calculatedL =>
        let sellSl := mul P (sub (JS.Num 1) calculatedL) in
        let chargesSL := charges sellSl in
        let netLoss := lossAt calculatedL in
        let targetNetProfit := mul (JS.Num 2) netLoss in
        let bounds := bisect targetNetProfit 60 (JS.Num 0) (JS.Num (1 # 10)) in
        inr {| required_g := div (add (fst bounds) (snd bounds)) (JS.Num 2);
               netLoss := netLoss;
               chargesSL := chargesSL;
               calculatedStopLossPercent := calculatedL;
               stopLossPrice := mul P (sub (JS.Num 1) calculatedL);
               atrUsed := match ATR with Some _ => true | None => false end |}
    end.

(** [targetNetProfit], twice the net loss at the stop; [NaN] when no stop
    fraction is given. *)
Definition target (ATR l : option JS.num) : JS.num :=
  match stopFraction ATR l with
  | Some calculatedL => mul (JS.Num 2) (lossAt calculatedL)
  | None => JS.NaN
  end.

End Solver.

End Calc.

(** ** OrderService, the earlier revision

    The revision of [orderService.js] whose [validateOrderData] checks the
    quantity, the side and the type but not the stop-limit price
    relation, and whose [placeOrder] fills missing prices with 0. *)

Module OrderServiceV1.

(** [required.filter(field => !order[field])]. *)
Definition missing (order : Order) : list string :=
  (if JS.falsy_string (symbol order) then ["symbol"] else [])
  ++ (if JS.falsy (qty order) then ["qty"] else [])
  ++ (if (side order =? 0)%Z then ["side"] else []).

(** [validateOrderData(order)]: the first failing check throws. *)
Definition validateOrderData (order : Order) : Cli.Run unit :=
  if negb (List.length (missing order) =? 0)%nat
  then Cli.fail (Cli.Raised ("Missing required order fields: "
                             ++ String.concat ", " (missing order)))
  else if JS.leb (qty order) (JS.Num 0)
  then Cli.fail (Cli.Raised "Order quantity must be greater than 0")
  else if negb ((side order =? 1)%Z || (side order =? -1)%Z)
  then Cli.fail (Cli.Raised "Order side must be 1 (Buy) or -1 (Sell)")
  else if negb ((type order =? 1)%Z || (type order =? 2)%Z
                || (type order =? 3)%Z || (type order =? 4)%Z)
  then Cli.fail (Cli.Raised "Invalid order type")
  else
  if (type order =? 1)%Z
     && match limitPrice order with
        | None => true
        | Some p => JS.falsy p || JS.leb p (JS.Num 0)
        end
  then Cli.fail (Cli.Raised "Limit price required for limit orders")
  else
  if ((type order =? 3)%Z || (type order =? 4)%Z)
     && match stopPrice order with
        | None => true
        | Some p => JS.falsy p || JS.leb p (JS.Num 0)
        end
  then Cli.fail (Cli.Thrown ErrStopPriceRequired)
  else Cli.pure tt.

(** [x || 0] on an optional number. *)
Definition orZero (x : option JS.num) : JS.num :=
  match x with
  | Some p => if JS.falsy p then JS.Num 0 else p
  | None => JS.Num 0
  end.

(** The order object built at the top of [placeOrder]:
    [limitPrice: orderData.limitPrice || 0], [stopPrice: orderData.stopPrice
    || 0]. *)
Definition buildOrder (orderData : OrderData) : Order :=
  {| symbol := od_symbol orderData;
     qty := od_quantity orderData;
     type := if (od_type orderData =? 0)%Z then 2%Z else od_type orderData;
     side := od_side orderData;
     productType := if JS.falsy_string (od_productType orderData)
                    then "CNC" else od_productType orderData;
     validity := if JS.falsy_string (od_validity orderData)
                 then "DAY" else od_validity orderData;
     limitPrice := Some (orZero (od_limitPrice orderData));
     stopPrice := Some (orZero (od_stopPrice orderData)) |}.

(** [placeOrder(orderData)], against an SDK answering [place_order]. *)
Definition placeOrder (place_order : Order -> Response) (orderData : OrderData)
  : Cli.Run string :=
  Cli.andThen (Cli.act (Cli.Did (EvCallPlaceOrder orderData))) (fun _ =>
  Cli.attempt
    (let order := buildOrder orderData in
     Cli.andThen (validateOrderData order) (fun _ =>
     Cli.andThen (Cli.act (Cli.Did (EvLogger LInfo))) (fun _ =>
     Cli.andThen (Cli.act (Cli.Did (EvSdkPlaceOrder order))) (fun _ =>
     match place_order order with
     | RespOk oid =>
         Cli.andThen (Cli.act (Cli.Did (EvLogger LInfo))) (fun _ => Cli.pure oid)
     | RespNotOk message => Cli.fail (Cli.Thrown (ErrPlacementFailed message))
     | RespThrows message => Cli.fail (Cli.Thrown (ErrSdk message))
     end))))
    (fun error =>
       Cli.andThen (Cli.act (Cli.Did (EvLogger LError))) (fun _ => Cli.fail error))).

End OrderServiceV1.

(** Whether the earlier revision's checks that the later one dropped hold
    of an order: quantity above zero, side 1 or -1, type 1 to 4. *)
Definition wellFormed (order : Order) : bool :=
  negb (JS.leb (qty order) (JS.Num 0))
  && ((side order =? 1)%Z || (side order =? -1)%Z)
  && ((type order =? 1)%Z || (type order =? 2)%Z
      || (type order =? 3)%Z || (type order =? 4)%Z).

(** Whether the check of a stop-limit order that only the later revision
    makes holds: a limit price above zero and below the stop price. *)
Definition stopLimitSound (order : Order) : bool :=
  negb (type order =? 3)%Z
  || match limitPrice order, stopPrice order with
     | Some l, Some s =>
         negb (JS.falsy l || JS.leb l (JS.Num 0)) && negb (JS.geb l s)
     | _, _ => false
     end.

(** ** The stand-alone order monitor

    The script that sweeps the order book every thirty seconds
    ([monitorAndCancelOrders]): it groups the intraday sell orders by
    symbol and, for every executed order of a group of at least two,
    cancels the group's other pending orders.  The groups are the
    properties of a plain object keyed by symbol: a symbol that names a
    member of [Object.prototype] finds that member in place of a group,
    and [for ... in] visits the keys that are array indices first, in
    ascending order, and the others in the order they were added. *)

Module Sweep.

Record Row : Type := mkRow {
  rowBase : Cli.OrderRow;
  rowSymbol : string;
  rowSide : Z
}.

Definition rowId (r : Row) : string := id (Cli.rowOrder (rowBase r)).

Inductive Answer : Type :=
| AnswerOk (rows : option (list Row))
| AnswerNotOk (message : string)
| AnswerThrows (message : string).

Definition plainBook (resp : Answer) : OrdersResponse :=
  match resp with
  | AnswerOk rows =>
      OrdersOk (option_map (map (fun r => Cli.rowOrder (rowBase r))) rows)
  | AnswerNotOk message => OrdersNotOk message
  | AnswerThrows message => OrdersThrows message
  end.

(** [order.productType === 'INTRADAY' && order.side === -1]. *)
Definition isIntradaySell (r : Row) : bool :=
  String.eqb (Cli.rowProductType (rowBase r)) "INTRADAY" && (rowSide r =? -1)%Z.

(** [order.status === 'COMPLETE' || order.status === 'FILLED']. *)
Definition isExecuted (r : Row) : bool := executed (Some (Cli.rowOrder (rowBase r))).

(** [o.id !== order.id && (o.status === 'PENDING' || o.status === 'OPEN')]. *)
Definition isOtherPending (order o : Row) : bool :=
  negb (String.eqb (rowId o) (rowId order)) && Cli.isPending (rowBase o).

(** The keys of [ordersBySymbol], in insertion order. *)
Fixpoint firstOccurrences (l : list string) : list string :=
  match l with
  | [] => []
  | x :: rest => x :: filter (fun y => negb (String.eqb y x)) (firstOccurrences rest)
  end.

(** The property names every plain object inherits from
    [Object.prototype].  Under such a key [ordersBySymbol[order.symbol]]
    is truthy before anything was stored, so no array is created, and
    [.push] on what is found there throws a [TypeError]. *)
Definition inherited (s : string) : bool :=
  existsb (String.eqb s)
    ["constructor"; "__defineGetter__"; "__defineSetter__"; "hasOwnProperty";
     "__lookupGetter__"; "__lookupSetter__"; "isPrototypeOf";
     "propertyIsEnumerable"; "toString"; "valueOf"; "__proto__"; "toLocaleString"].

(** The number a key stands for when it is an array index: the canonical
    decimal text of an integer from 0 to [2^32 - 2]. *)
Fixpoint decimal (s : string) (acc : N) : option N :=
  match s with
  | EmptyString => Some acc
  | String c rest =>
      let n := N_of_ascii c in
      if ((48 <=? n) && (n <=? 57))%N then decimal rest (acc * 10 + (n - 48))%N
      else None
  end.

Definition arrayIndex (s : string) : option N :=
  match s with
  | EmptyString => None
  | String "0" EmptyString => Some 0%N
  | String "0" _ => None
  | _ =>
      match decimal s 0%N with
      | Some n => if (n <=? 4294967294)%N then Some n else None
      | None => None
      end
  end.

Definition isArrayIndex (s : string) : bool :=
  match arrayIndex s with
  | Some _ => true
  | None => false
  end.

(** [a] comes before [b] among the array-index keys. *)
Definition indexBefore (a b : string) : bool :=
  match arrayIndex a, arrayIndex b with
  | Some m, Some n => (m <=? n)%N
  | _, _ => true
  end.

Fixpoint insertKey (k : string) (sorted : list string) : list string :=
  match sorted with
  | [] => [k]
  | x :: rest => if indexBefore k x then k :: sorted else x :: insertKey k rest
  end.

Fixpoint sortKeys (l : list string) : list string :=
  match l with
  | [] => []
  | k :: rest => insertKey k (sortKeys rest)
  end.

(** The order in which [for (const symbol in ordersBySymbol)] visits the
    keys, given the symbols in the order they were stored. *)
Definition enumerated (symbols : list string) : list string :=
  let keys := firstOccurrences symbols in
  sortKeys (filter isArrayIndex keys) ++ filter (fun k => negb (isArrayIndex k)) keys.

(** [for (const order of symbolOrders) { if (executed) { ...cancel the
    others... } }]. *)
Fixpoint forOrders (cancel_order : string -> Response) (symbolOrders todo : list Row)
  : Cli.Run unit :=
  match todo with
  | [] => Cli.pure tt
  | order :: rest =>
      Cli.andThen
        (if isExecuted order then
           Cli.andThen (Cli.say Cli.LineSweepExecuted) (fun _ =>
           Cli.cancelEach cancel_order
             (map rowBase (filter (isOtherPending order) symbolOrders)))
         else Cli.pure tt)
        (fun _ => forOrders cancel_order symbolOrders rest)
  end.

(** [for (const symbol in ordersBySymbol) { if (symbolOrders.length >= 2)
    { ... } }]. *)
Fixpoint forSymbols (cancel_order : string -> Response) (sells : list Row)
    (symbols : list string) : Cli.Run unit :=
  match symbols with
  | [] => Cli.pure tt
  | sym :: rest =>
      let symbolOrders := filter (fun r => String.eqb (rowSymbol r) sym) sells in
      Cli.andThen
        (if (2 <=? List.length symbolOrders)%nat
         then forOrders cancel_order symbolOrders symbolOrders
         else Cli.pure tt)
        (fun _ => forSymbols cancel_order sells rest)
  end.

(** One run of the interval callback. *)
Definition tick (book : Answer) (cancel_order : string -> Response) : Cli.Run unit :=
  Cli.attempt
    (Cli.andThen (Cli.lift (OrderService.getOrders (plainBook book))) (fun _ =>
     match book with
     | AnswerOk (Some orderBook) =>
         let sells := filter isIntradaySell orderBook in
         if existsb (fun order => inherited (rowSymbol order)) sells
         then Cli.fail (Cli.TypeError "push is not a function")
         else forSymbols cancel_order sells (enumerated (map rowSymbol sells))
     | _ => Cli.pure tt
     end))
    (fun error => Cli.say Cli.LineSweepError).

End Sweep.

(** The rows of a sweep answer; none when the call failed or the book is
    missing. *)
Definition sweepRows (book : Sweep.Answer) : list Sweep.Row :=
  match book with
  | Sweep.AnswerOk (Some rows) => rows
  | _ => []
  end.

(** The orders one pass over a group cancels: for each executed order of
    [todo], the group's other pending orders. *)
Definition sweepTargets (group todo : list Sweep.Row) : list (option string) :=
  flat_map (fun order =>
              if Sweep.isExecuted order
              then rowTargets (map Sweep.rowBase
                                   (filter (Sweep.isOtherPending order) group))
              else [])
           todo.
(** * Properties *)

(** ** Traces *)

Lemma reports_app (a b : list Event) : reports (a ++ b) = reports a ++ reports b.
Proof.
  induction a as [|e a IH]; simpl; [reflexivity|].
  destruct (report e); simpl; rewrite IH; reflexivity.
Qed.

Lemma cancelCalls_app (a b : list Event) :
  cancelCalls (a ++ b) = cancelCalls a ++ cancelCalls b.
Proof.
  induction a as [|e a IH]; simpl; [reflexivity|].
  destruct e; simpl; rewrite IH; reflexivity.
Qed.

Lemma fetches_app (a b : list Event) : fetches (a ++ b) = (fetches a + fetches b)%nat.
Proof.
  induction a as [|e a IH]; simpl; [reflexivity|].
  destruct e; simpl; rewrite IH; reflexivity.
Qed.

Lemma bind_ok {A B} (m : M A) (k : A -> M B) (tr : list Event) (a : A) :
  m = (tr, Ok a) -> bind m k = (tr ++ events (k a), outcome (k a)).
Proof.
  intros ->. unfold bind, events, outcome. destruct (k a); reflexivity.
Qed.

(** ** One tick *)

Ltac unfold_tick :=
  unfold monitorTick, Buy.tick, Short.tick, Short.showPosition,
    OrderService.getOrders, OrderService.cancelOrder,
    tryCatch, bind, emit, ret, throw, events, outcome.

Section Tick.

Variable v : Strategy.
Variables tpOrderId slOrderId : option string.

Local Abbreviation tick := (monitorTick v tpOrderId slOrderId).

Lemma tick_stopped (inp : TickInput) (s : MonitorState) :
  monitoringActive s = false -> tick inp s = ([], Ok s).
Proof.
  intros H. destruct v; unfold_tick; rewrite H; reflexivity.
Qed.

Lemma tick_fetch_failed (inp : TickInput) (s : MonitorState) :
  monitoringActive s = true ->
  fetchFailed inp = true ->
  outcome (tick inp s)
    = Ok {| monitoringActive := true; monitorCount := S (monitorCount s) |}
  /\ events (tick inp s)
      = match v with
        | BuySide => []
        | ShortSide => [EvConsole MsgMonitorCheck]
        end ++ [EvGetOrders; EvLogger LError; EvConsole MsgMonitoringError].
Proof.
  intros Ha Hf. destruct s as [a c]. simpl in Ha. subst a.
  destruct inp as [o cn p]. unfold fetchFailed in Hf. simpl in Hf.
  destruct o as [book| |]; [discriminate| |];
    destruct v; unfold_tick; simpl; auto.
Qed.

Lemma tick_tp_executed (inp : TickInput) (s : MonitorState) book :
  monitoringActive s = true ->
  orders inp = OrdersOk book ->
  executed (findOrder book tpOrderId) = true ->
  outcome (tick inp s)
    = Ok {| monitoringActive := false; monitorCount := S (monitorCount s) |}
  /\ reports (events (tick inp s)) = [RESOLVED_PROFIT]
  /\ cancelCalls (events (tick inp s)) = [slOrderId]
  /\ fetches (events (tick inp s)) = 1%nat.
Proof.
  intros Ha Ho Hx. destruct s as [a c]. simpl in Ha. subst a.
  destruct inp as [o cn p]. simpl in Ho. subst o.
  destruct v; unfold_tick; simpl; rewrite Hx; destruct cn; simpl; auto.
Qed.

Lemma tick_sl_executed (inp : TickInput) (s : MonitorState) book :
  monitoringActive s = true ->
  orders inp = OrdersOk book ->
  executed (findOrder book tpOrderId) = false ->
  executed (findOrder book slOrderId) = true ->
  outcome (tick inp s)
    = Ok {| monitoringActive := false; monitorCount := S (monitorCount s) |}
  /\ reports (events (tick inp s)) = [RESOLVED_LOSS]
  /\ cancelCalls (events (tick inp s)) = [tpOrderId]
  /\ fetches (events (tick inp s)) = 1%nat.
Proof.
  intros Ha Ho Hx Hy. destruct s as [a c]. simpl in Ha. subst a.
  destruct inp as [o cn p]. simpl in Ho. subst o.
  destruct v; unfold_tick; simpl; rewrite Hx, Hy; destruct cn; simpl; auto.
Qed.

Lemma tick_idle (inp : TickInput) (s : MonitorState) book :
  monitoringActive s = true ->
  orders inp = OrdersOk book ->
  executed (findOrder book tpOrderId) = false ->
  executed (findOrder book slOrderId) = false ->
  cancelCalls (events (tick inp s)) = []
  /\ fetches (events (tick inp s)) = 1%nat
  /\ if (maxMonitorTime <=? S (monitorCount s))%nat
     then outcome (tick inp s)
            = Ok {| monitoringActive := false; monitorCount := S (monitorCount s) |}
          /\ reports (events (tick inp s)) = [EXPIRED]
          /\ timersCleared (events (tick inp s)) = 1%nat
     else outcome (tick inp s)
            = Ok {| monitoringActive := true; monitorCount := S (monitorCount s) |}
          /\ reports (events (tick inp s)) = [].
Proof.
  intros Ha Ho Hx Hy. destruct s as [a c]. simpl in Ha. subst a.
  destruct inp as [o cn p]. simpl in Ho. subst o.
  destruct v; unfold_tick; cbn [monitoringActive monitorCount orders cancel position negb];
    rewrite Hx, Hy.
  - destruct (S c mod 5 =? 0)%nat; destruct (maxMonitorTime <=? S c)%nat;
      cbn; auto 10.

  - destruct p as [[|]|]; destruct (maxMonitorTime <=? S c)%nat; cbn; auto 10.
Qed.

End Tick.

(** ** Runs of ticks *)

Section Run.

Variable v : Strategy.
Variables tpOrderId slOrderId : option string.

Local Abbreviation tick := (monitorTick v tpOrderId slOrderId).
Local Abbreviation run := (monitorRun v tpOrderId slOrderId).

(** What one tick of a running monitor can do, whatever the brokerage
    answers: it returns, counts the tick, fetches once, and either keeps
    running silently or stops with one report and at most one cancel. *)
Lemma tick_running (inp : TickInput) (s : MonitorState) :
  monitoringActive s = true ->
  exists s',
    outcome (tick inp s) = Ok s'
    /\ monitorCount s' = S (monitorCount s)
    /\ fetches (events (tick inp s)) = 1%nat
    /\ ((monitoringActive s' = true
         /\ reports (events (tick inp s)) = []
         /\ cancelCalls (events (tick inp s)) = [])
        \/ (monitoringActive s' = false
            /\ (exists r, reports (events (tick inp s)) = [r])
            /\ (List.length (cancelCalls (events (tick inp s))) <= 1)%nat)).
Proof.
  intros Ha.
  destruct (orders inp) as [book| |] eqn:Ho.
  - destruct (executed (findOrder book tpOrderId)) eqn:Hx.
    + destruct (tick_tp_executed v tpOrderId slOrderId inp s book Ha Ho Hx)
        as (E1 & E2 & E3 & E4).
      eexists; split; [exact E1|]. rewrite E2, E3, E4. simpl. eauto 8.
    + destruct (executed (findOrder book slOrderId)) eqn:Hy.
      * destruct (tick_sl_executed v tpOrderId slOrderId inp s book Ha Ho Hx Hy)
          as (E1 & E2 & E3 & E4).
        eexists; split; [exact E1|]. rewrite E2, E3, E4. simpl. eauto 8.
      * destruct (tick_idle v tpOrderId slOrderId inp s book Ha Ho Hx Hy)
          as (E1 & E2 & E3).
        destruct (maxMonitorTime <=? S (monitorCount s))%nat.
        -- destruct E3 as (E3 & E4 & _).
           eexists; split; [exact E3|]. rewrite E1, E2, E4. simpl. eauto 8.
        -- destruct E3 as (E3 & E4).
           eexists; split; [exact E3|]. rewrite E1, E2, E4. simpl. auto 8.
  - destruct (tick_fetch_failed v tpOrderId slOrderId inp s Ha) as (E1 & E2);
      [unfold fetchFailed; rewrite Ho; reflexivity|].
    eexists; split; [exact E1|]. rewrite E2. destruct v; simpl; auto 8.
  - destruct (tick_fetch_failed v tpOrderId slOrderId inp s Ha) as (E1 & E2);
      [unfold fetchFailed; rewrite Ho; reflexivity|].
    eexists; split; [exact E1|]. rewrite E2. destruct v; simpl; auto 8.
Qed.

Lemma run_cons (inp : TickInput) (rest : list TickInput) (s s' : MonitorState) :
  outcome (tick inp s) = Ok s' ->
  run (inp :: rest) s
    = (events (tick inp s) ++ events (run rest s'), outcome (run rest s')).
Proof.
  intros H. simpl. apply bind_ok.
  unfold outcome in H. unfold events.
  destruct (monitorTick v tpOrderId slOrderId inp s); simpl in *; congruence.
Qed.

Lemma run_stopped (inputs : list TickInput) (s : MonitorState) :
  monitoringActive s = false -> run inputs s = ([], Ok s).
Proof.
  intros H. induction inputs as [|inp rest IH]; [reflexivity|].
  rewrite (run_cons inp rest s s).
  - rewrite IH. rewrite (tick_stopped v _ _ inp s H). reflexivity.
  - rewrite (tick_stopped v _ _ inp s H). reflexivity.
Qed.

(** A run of ticks always returns, and what it did is bounded: while the
    monitor is still running nothing was reported or cancelled; at most
    one report and one cancel are ever made. *)
Lemma run_summary (inputs : list TickInput) (s : MonitorState) :
  exists s',
    outcome (run inputs s) = Ok s'
    /\ (monitoringActive s' = true ->
         monitoringActive s = true
         /\ reports (events (run inputs s)) = []
         /\ cancelCalls (events (run inputs s)) = []
         /\ monitorCount s' = (monitorCount s + List.length inputs)%nat
         /\ fetches (events (run inputs s)) = List.length inputs)
    /\ (List.length (reports (events (run inputs s))) <= 1)%nat
    /\ (List.length (cancelCalls (events (run inputs s))) <= 1)%nat.
Proof.
  revert s. induction inputs as [|inp rest IH]; intros s.
  - exists s. simpl. repeat split; auto; lia.
  - destruct (monitoringActive s) eqn:Ha.
    + destruct (tick_running inp s Ha) as (s1 & E1 & Ec & Ef & Hcases).
      destruct (IH s1) as (s2 & R1 & Ract & Rrep & Rcan).
      assert (Ee : events (run (inp :: rest) s)
                   = events (tick inp s) ++ events (run rest s1))
        by (rewrite (run_cons inp rest s s1 E1); reflexivity).
      assert (Eo : outcome (run (inp :: rest) s) = outcome (run rest s1))
        by (rewrite (run_cons inp rest s s1 E1); reflexivity).
      exists s2. rewrite Ee, Eo.
      rewrite !reports_app, !cancelCalls_app, !fetches_app, !length_app.
      split; [exact R1|].
      destruct Hcases as [(A1 & A2 & A3)|(A1 & (r & A2) & A3)].
      * rewrite A2, A3, Ef. simpl.
        split; [|split; assumption].
        intros H. destruct (Ract H) as (_ & B1 & B2 & B3 & B4).
        rewrite B1, B2, B3, B4, Ec. repeat split; auto; lia.
      * rewrite (run_stopped rest s1 A1) in *.
        injection R1 as <-. rewrite A2. simpl.
        split; [intros; congruence|]. split; lia.
    + rewrite (run_stopped (inp :: rest) s Ha). exists s. simpl.
      split; [reflexivity|]. split; [congruence|]. split; lia.
Qed.

End Run.

Lemma findOrder_id (book : option (list BookOrder)) (orderId : option string)
    (row : BookOrder) :
  findOrder book orderId = Some row -> orderId = Some (id row).
Proof.
  unfold findOrder. destruct book as [rows|]; [|discriminate].
  destruct orderId as [oid|]; [|discriminate].
  intros H. apply find_some in H. destruct H as [_ H].
  apply String.eqb_eq in H. congruence.
Qed.


(** ** Placements *)

Lemma validateOrderData_silent (order : Order) :
  events (OrderService.validateOrderData order) = [].
Proof.
  unfold OrderService.validateOrderData.
  repeat match goal with
         | |- context [if ?b then _ else _] => destruct b
         end; reflexivity.
Qed.

(** [placeOrder] either stops at validation, before the SDK is reached, or
    hands the order to the SDK and returns or throws by its answer. *)
Lemma placeOrder_cases (place_order : Order -> Response) (od : OrderData) :
  (exists e,
      isValidationError e = true
      /\ OrderService.placeOrder place_order od
         = ([EvCallPlaceOrder od; EvLogger LError], Throw e))
  \/ (outcome (OrderService.validateOrderData (OrderService.buildOrder od)) = Ok tt
      /\ OrderService.placeOrder place_order od
         = match place_order (OrderService.buildOrder od) with
           | RespOk oid =>
               ([EvCallPlaceOrder od; EvLogger LInfo;
                 EvSdkPlaceOrder (OrderService.buildOrder od); EvLogger LInfo], Ok oid)
           | RespNotOk message =>
               ([EvCallPlaceOrder od; EvLogger LInfo;
                 EvSdkPlaceOrder (OrderService.buildOrder od); EvLogger LError],
                Throw (ErrPlacementFailed message))
           | RespThrows message =>
               ([EvCallPlaceOrder od; EvLogger LInfo;
                 EvSdkPlaceOrder (OrderService.buildOrder od); EvLogger LError],
                Throw (ErrSdk message))
           end).
Proof.
  unfold OrderService.placeOrder.
  pose proof (validateOrderData_silent (OrderService.buildOrder od)) as Hs.
  destruct (OrderService.validateOrderData (OrderService.buildOrder od))
    as [tr [[]|e]] eqn:Hv; unfold events in Hs; simpl in Hs; subst tr.
  - right. split; [reflexivity|].
    destruct (place_order (OrderService.buildOrder od)); reflexivity.
  - left. exists e. split; [|reflexivity].
    revert Hv. unfold OrderService.validateOrderData.
    repeat match goal with
           | |- context [if ?b then _ else _] => destruct b
           end; unfold throw, ret; intros H; inversion H; reflexivity.
Qed.

Lemma placeOrder_starts_no_monitor (place_order : Order -> Response) (od : OrderData) :
  monitorsStarted (events (OrderService.placeOrder place_order od)) = 0%nat.
Proof.
  destruct (placeOrder_cases place_order od) as [(e & _ & ->)|(_ & ->)];
    [reflexivity|].
  destruct (place_order (OrderService.buildOrder od)); reflexivity.
Qed.

Lemma monitorsStarted_app (a b : list Event) :
  monitorsStarted (a ++ b) = (monitorsStarted a + monitorsStarted b)%nat.
Proof.
  induction a as [|e a IH]; simpl; [reflexivity|].
  destruct e; simpl; rewrite IH; reflexivity.
Qed.

Lemma half_below (q : Q) : Qle_bool (q - (1 # 2)) q = true.
Proof. apply Qle_bool_iff. lra. Qed.

(** The stop-limit order of the short variant never passes validation. *)
Lemma short_stop_limit_invalid (sym : string) (quantity stopLossPrice : JS.num) :
  exists e,
    isValidationError e = true
    /\ OrderService.validateOrderData
         (OrderService.buildOrder (Short.stopLossOrder sym quantity stopLossPrice))
       = ([], Throw e).
Proof.
  unfold OrderService.validateOrderData, OrderService.buildOrder, Short.stopLossOrder.
  cbn [symbol qty type side limitPrice stopPrice
       od_symbol od_quantity od_type od_side od_limitPrice od_stopPrice
       Z.eqb Pos.eqb orb andb].
  destruct (JS.falsy_string (JS.toUpperCase sym) || JS.falsy quantity);
    [exists ErrMissingFields; split; reflexivity|].
  destruct (JS.falsy stopLossPrice || JS.leb stopLossPrice (JS.Num 0));
    [exists ErrLimitPriceRequired; split; reflexivity|].
  destruct (JS.falsy (JS.sub stopLossPrice JS.half)
            || JS.leb (JS.sub stopLossPrice JS.half) (JS.Num 0)) eqn:Hstop;
    [exists ErrStopPriceRequired; split; reflexivity|].
  destruct stopLossPrice as [|q]; [discriminate Hstop|].
  unfold JS.geb, JS.sub, JS.half, JS.leb. rewrite half_below.
  exists ErrBuyStopRelation; split; reflexivity.
Qed.

Lemma timersCleared_app (a b : list Event) :
  timersCleared (a ++ b) = (timersCleared a + timersCleared b)%nat.
Proof.
  induction a as [|e a IH]; simpl; [reflexivity|].
  destruct e; simpl; rewrite IH; reflexivity.
Qed.

Lemma run_cons_events (v : Strategy) (tpOrderId slOrderId : option string)
    (inp : TickInput) (rest : list TickInput) (s s' : MonitorState) :
  outcome (monitorTick v tpOrderId slOrderId inp s) = Ok s' ->
  events (monitorRun v tpOrderId slOrderId (inp :: rest) s)
  = events (monitorTick v tpOrderId slOrderId inp s)
      ++ events (monitorRun v tpOrderId slOrderId rest s').
Proof. intros H. rewrite (run_cons v _ _ inp rest s s' H). reflexivity. Qed.

Lemma run_cons_outcome (v : Strategy) (tpOrderId slOrderId : option string)
    (inp : TickInput) (rest : list TickInput) (s s' : MonitorState) :
  outcome (monitorTick v tpOrderId slOrderId inp s) = Ok s' ->
  outcome (monitorRun v tpOrderId slOrderId (inp :: rest) s)
  = outcome (monitorRun v tpOrderId slOrderId rest s').
Proof. intros H. rewrite (run_cons v _ _ inp rest s s' H). reflexivity. Qed.

(** ** Firings that overlap *)

Ltac unfold_async :=
  unfold Async.step, Async.fire, Async.ordersAnswer, Async.positionsAnswer,
    Async.cancelAnswer, Async.getOrdersAnswered, Async.cancelOrderCalled,
    Async.cancelOrderAnswered, Async.stopMonitor, Async.checkExpiry,
    Async.suspended, Async.returned,
    tryCatch, bind, emit, ret, throw, events, outcome.

Ltac serial_crunch :=
  repeat (progress (cbn -[Nat.modulo Nat.leb maxMonitorTime]; rewrite ?Nat.eqb_refl)).

Ltac split_ifs :=
  repeat match goal with
         | |- context [if ?b then _ else _] => destruct b eqn:?; cbn
         end.

(** [getOrders] and [cancelOrder] are cut at their [await]. *)
Lemma getOrders_cut (resp : OrdersResponse) :
  OrderService.getOrders resp = (emit EvGetOrders ;; Async.getOrdersAnswered resp).
Proof. reflexivity. Qed.

Lemma cancelOrder_cut (resp : Response) (orderId : option string) :
  OrderService.cancelOrder resp orderId
  = (Async.cancelOrderCalled orderId ;; Async.cancelOrderAnswered resp).
Proof. destruct resp; reflexivity. Qed.

Section Firings.

Variable v : Strategy.
Variables tpOrderId slOrderId : option string.

Local Abbreviation step := (Async.step v tpOrderId slOrderId).
Local Abbreviation run := (Async.run v tpOrderId slOrderId).

(** Every piece of a firing returns; the monitor never becomes active
    again; and a piece that prints a closing line leaves it stopped. *)
Lemma step_stops (a : Async.Action) (st : Async.State) :
  exists st',
    outcome (step a st) = Ok st'
    /\ (monitoringActive (Async.shared st) = false ->
        monitoringActive (Async.shared st') = false)
    /\ (reports (events (step a st)) <> [] ->
        monitoringActive (Async.shared st') = false).
Proof.
  destruct st as [[active count] n pool].
  destruct a as [|firing resp|firing position|firing resp]; unfold_async;
    cbn [Async.shared Async.inFlight Async.started monitoringActive monitorCount].
  - destruct active; destruct v; cbn; eexists; repeat split; auto; congruence.
  - destruct (Async.lookup firing pool) as [[| |profit]|];
      try (cbn; eexists; repeat split; auto; congruence).
    destruct resp as [book|m|m]; cbn;
      try (eexists; repeat split; auto; congruence).
    destruct (executed (findOrder book tpOrderId)); cbn;
      [eexists; repeat split; auto; congruence|].
    destruct (executed (findOrder book slOrderId)); cbn;
      [eexists; repeat split; auto; congruence|].
    destruct v; cbn; split_ifs; eexists; repeat split; auto; congruence.
  - destruct (Async.lookup firing pool) as [[| |profit]|];
      try (cbn; eexists; repeat split; auto; congruence).
    destruct position as [[|]|]; cbn; split_ifs;
      eexists; repeat split; auto; congruence.
  - destruct (Async.lookup firing pool) as [[| |profit]|];
      try (cbn; eexists; repeat split; auto; congruence).
    destruct resp; destruct profit; cbn; eexists; repeat split; auto.
Qed.

Lemma run_step (a : Async.Action) (rest : list Async.Action) (st st' : Async.State) :
  outcome (step a st) = Ok st' ->
  run (a :: rest) st = (events (step a st) ++ events (run rest st'), outcome (run rest st')).
Proof.
  intros H. cbn [Async.run]. apply bind_ok.
  unfold outcome in H. unfold events.
  destruct (Async.step v tpOrderId slOrderId a st); simpl in *; congruence.
Qed.

(** A schedule always runs to its end, and once a closing line has been
    printed the monitor is stopped. *)
Lemma run_stops (schedule : list Async.Action) :
  forall st,
  exists st',
    outcome (run schedule st) = Ok st'
    /\ (monitoringActive (Async.shared st) = false ->
        monitoringActive (Async.shared st') = false)
    /\ (reports (events (run schedule st)) <> [] ->
        monitoringActive (Async.shared st') = false).
Proof.
  induction schedule as [|a rest IH]; intros st.
  - exists st. cbn. repeat split; auto. congruence.
  - destruct (step_stops a st) as (st1 & E1 & K1 & R1).
    destruct (IH st1) as (st2 & E2 & K2 & R2).
    rewrite (run_step a rest st st1 E1).
    exists st2. cbn [events outcome fst snd]. split; [exact E2|].
    split; [auto|].
    rewrite reports_app. intros H.
    destruct (reports (events (step a st))) eqn:Hr.
    + apply R2. exact H.
    + apply K2. apply R1. congruence.
Qed.

(** A stopped monitor lets no new firing past the guard. *)
Lemma fire_stopped (st : Async.State) :
  monitoringActive (Async.shared st) = false -> step Async.Fire st = ([], Ok st).
Proof.
  intros H. unfold_async. rewrite H. reflexivity.
Qed.

(** With the monitor stopped and no firing in flight nothing happens any
    more. *)
Lemma step_quiet (a : Async.Action) (st : Async.State) :
  monitoringActive (Async.shared st) = false ->
  Async.inFlight st = [] ->
  step a st = ([], Ok st).
Proof.
  intros Ha Hp. destruct a; unfold_async; rewrite ?Ha, ?Hp; reflexivity.
Qed.

Lemma run_quiet (schedule : list Async.Action) (st : Async.State) :
  monitoringActive (Async.shared st) = false ->
  Async.inFlight st = [] ->
  run schedule st = ([], Ok st).
Proof.
  intros Ha Hp. induction schedule as [|a rest IH]; [reflexivity|].
  rewrite (run_step a rest st st).
  - rewrite IH, (step_quiet a st Ha Hp). reflexivity.
  - rewrite (step_quiet a st Ha Hp). reflexivity.
Qed.

(** A step of a schedule whose firings are kept apart: at most one firing
    is in flight afterwards, and the cancel calls the step makes come out
    of what the monitor could still make. *)
Lemma step_apart (a : Async.Action) (st : Async.State) :
  (List.length (Async.inFlight st) <= 1)%nat ->
  (a = Async.Fire -> Async.inFlight st = []) ->
  exists st',
    outcome (step a st) = Ok st'
    /\ (List.length (Async.inFlight st') <= 1)%nat
    /\ (List.length (cancelCalls (events (step a st))) + Async.cancelsLeft st'
        <= Async.cancelsLeft st)%nat.
Proof.
  intros Hlen Hfire.
  destruct st as [[active count] n pool].
  cbn [Async.inFlight] in Hlen, Hfire.
  destruct pool as [|[i p] [|more pool]]; cbn [List.length] in Hlen; [| |lia].
  - destruct a as [|firing resp|firing position|firing resp]; unfold_async;
      unfold Async.cancelsLeft; cbn.
    + destruct active; destruct v; cbn; eexists; repeat split; auto.
    + eexists; repeat split; auto.
    + eexists; repeat split; auto.
    + eexists; repeat split; auto.
  - destruct a as [|firing resp|firing position|firing resp].
    + discriminate (Hfire eq_refl).
    + unfold_async; unfold Async.cancelsLeft; cbn.
      destruct (i =? firing)%nat; [|destruct p; cbn; eexists; repeat split; auto].
      destruct p as [| |profit]; try (cbn; eexists; repeat split; auto; fail).
      destruct resp as [book|m|m]; cbn.
      * destruct (executed (findOrder book tpOrderId)); cbn;
          [eexists; repeat split; auto|].
        destruct (executed (findOrder book slOrderId)); cbn;
          [eexists; repeat split; auto|].
        destruct v; cbn; split_ifs; eexists; repeat split; auto;
          destruct active; cbn; lia.
      * eexists; repeat split; auto. destruct active; cbn; lia.
      * eexists; repeat split; auto. destruct active; cbn; lia.
    + unfold_async; unfold Async.cancelsLeft; cbn.
      destruct (i =? firing)%nat; [|destruct p; cbn; eexists; repeat split; auto].
      destruct p as [| |profit]; try (cbn; eexists; repeat split; auto; fail).
      destruct position as [[|]|]; cbn; split_ifs; eexists; repeat split; auto;
        destruct active; cbn; lia.
    + unfold_async; unfold Async.cancelsLeft; cbn.
      destruct (i =? firing)%nat; [|destruct p; cbn; eexists; repeat split; auto].
      destruct p as [| |profit]; try (cbn; eexists; repeat split; auto; fail).
      destruct resp; destruct profit; cbn; eexists; repeat split; auto.
Qed.

(** Over a schedule whose firings are kept apart the monitor makes no
    more cancel calls than one firing can. *)
Lemma run_apart (schedule : list Async.Action) :
  forall st,
    (List.length (Async.inFlight st) <= 1)%nat ->
    Async.apart v tpOrderId slOrderId schedule st = true ->
    (List.length (cancelCalls (events (run schedule st))) <= Async.cancelsLeft st)%nat.
Proof.
  induction schedule as [|a rest IH]; intros st Hlen Hap.
  - cbn. lia.
  - assert (Hfire : a = Async.Fire -> Async.inFlight st = []).
    { intros ->. cbn [Async.apart] in Hap.
      destruct (Async.inFlight st); [reflexivity|discriminate]. }
    destruct (step_apart a st Hlen Hfire) as (st1 & E1 & L1 & B1).
    assert (Hrest : Async.apart v tpOrderId slOrderId rest st1 = true).
    { cbn [Async.apart] in Hap. unfold Async.next in Hap. rewrite E1 in Hap.
      destruct a; [destruct (Async.inFlight st); [exact Hap|discriminate]| | |];
        exact Hap. }
    rewrite (run_step a rest st st1 E1). cbn [events fst].
    rewrite cancelCalls_app, length_app.
    specialize (IH st1 L1 Hrest). fold (events (run rest st1)) in *. lia.
Qed.

(** [monitorRun] is the run of the schedule that gives each firing the
    answers of its tick before the timer fires again. *)
Lemma serial_tick (inp : TickInput) (s : MonitorState) (first : nat) :
  exists s',
    outcome (monitorTick v tpOrderId slOrderId inp s) = Ok s'
    /\ run [Async.Fire; Async.OrdersAnswer first (orders inp);
            Async.PositionsAnswer first (position inp);
            Async.CancelAnswer first (cancel inp)]
           {| Async.shared := s; Async.started := first; Async.inFlight := [] |}
       = (events (monitorTick v tpOrderId slOrderId inp s),
          Ok {| Async.shared := s';
                Async.started := if monitoringActive s then S first else first;
                Async.inFlight := [] |}).
Proof.
  destruct s as [active count]. destruct inp as [o c p].
  destruct active.
  2:{ exists {| monitoringActive := false; monitorCount := count |}.
      destruct v; split; reflexivity. }
  destruct v; unfold_tick; unfold Async.run; unfold_async;
    cbn [Async.shared Async.inFlight Async.started monitoringActive monitorCount
         orders cancel position negb app Async.lookup Async.update].
  - destruct o as [book|m|m]; serial_crunch;
      try (eexists; split; reflexivity).
    destruct (executed (findOrder book tpOrderId)); serial_crunch;
      [destruct c; serial_crunch; eexists; split; reflexivity|].
    destruct (executed (findOrder book slOrderId)); serial_crunch;
      [destruct c; serial_crunch; eexists; split; reflexivity|].
    destruct (S count mod 5 =? 0)%nat; serial_crunch;
      destruct (maxMonitorTime <=? S count)%nat; serial_crunch;
      eexists; split; reflexivity.
  - destruct o as [book|m|m]; serial_crunch;
      try (eexists; split; reflexivity).
    destruct (executed (findOrder book tpOrderId)); serial_crunch;
      [destruct c; serial_crunch; eexists; split; reflexivity|].
    destruct (executed (findOrder book slOrderId)); serial_crunch;
      [destruct c; serial_crunch; eexists; split; reflexivity|].
    destruct p as [[|]|]; serial_crunch;
      destruct (maxMonitorTime <=? S count)%nat; serial_crunch;
      eexists; split; reflexivity.
Qed.

Lemma run_app (l1 l2 : list Async.Action) (st st1 : Async.State) :
  outcome (run l1 st) = Ok st1 ->
  run (l1 ++ l2) st = (events (run l1 st) ++ events (run l2 st1), outcome (run l2 st1)).
Proof.
  revert st. induction l1 as [|a l1 IH]; intros st H.
  - cbn in H. injection H as <-. cbn. destruct (run l2 st); reflexivity.
  - destruct (step_stops a st) as (st' & E & _).
    rewrite (run_step a l1 st st' E) in H. cbn [outcome snd] in H.
    cbn [app]. rewrite (run_step a (l1 ++ l2) st st' E), (run_step a l1 st st' E).
    rewrite (IH st' H). cbn [events outcome fst snd]. rewrite app_assoc. reflexivity.
Qed.

Lemma serial_run (inputs : list TickInput) :
  forall (s : MonitorState) (first n : nat),
    (monitoringActive s = true -> n = first) ->
    exists s' n',
      outcome (monitorRun v tpOrderId slOrderId inputs s) = Ok s'
      /\ run (Async.serial first inputs)
             {| Async.shared := s; Async.started := n; Async.inFlight := [] |}
         = (events (monitorRun v tpOrderId slOrderId inputs s),
            Ok {| Async.shared := s'; Async.started := n'; Async.inFlight := [] |}).
Proof.
  induction inputs as [|inp rest IH]; intros s first n Hn.
  - exists s, n. split; reflexivity.
  - destruct (monitoringActive s) eqn:Ha.
    + rewrite (Hn eq_refl).
      destruct (serial_tick inp s first) as (s1 & E1 & R1). rewrite Ha in R1.
      destruct (IH s1 (S first) (S first) (fun _ => eq_refl)) as (s2 & n2 & E2 & R2).
      exists s2, n2.
      rewrite (run_cons_outcome v tpOrderId slOrderId inp rest s s1 E1).
      rewrite (run_cons_events v tpOrderId slOrderId inp rest s s1 E1).
      split; [exact E2|].
      change (Async.serial first (inp :: rest))
        with ([Async.Fire; Async.OrdersAnswer first (orders inp);
               Async.PositionsAnswer first (position inp);
               Async.CancelAnswer first (cancel inp)]
                ++ Async.serial (S first) rest).
      rewrite (run_app _ _ _ {| Async.shared := s1; Async.started := S first;
                                Async.inFlight := [] |});
        [|rewrite R1; reflexivity].
      rewrite R1, R2. reflexivity.
    + exists s, n. rewrite (run_stopped v tpOrderId slOrderId (inp :: rest) s Ha).
      split; [reflexivity|]. apply run_quiet; [exact Ha|reflexivity].
Qed.

Lemma run_next (a : Async.Action) (rest : list Async.Action) (st : Async.State) :
  outcome (run (a :: rest) st)
  = outcome (run rest (Async.next v tpOrderId slOrderId a st)).
Proof.
  destruct (step_stops a st) as (st' & E & _).
  rewrite (run_step a rest st st' E). unfold Async.next. rewrite E. reflexivity.
Qed.

Lemma next_quiet (a : Async.Action) (st : Async.State) :
  monitoringActive (Async.shared st) = false ->
  Async.inFlight st = [] ->
  Async.next v tpOrderId slOrderId a st = st.
Proof.
  intros Ha Hp. unfold Async.next. rewrite (step_quiet a st Ha Hp). reflexivity.
Qed.

(** In that schedule no two firings overlap. *)
Lemma serial_apart (inputs : list TickInput) :
  forall (s : MonitorState) (first n : nat),
    (monitoringActive s = true -> n = first) ->
    Async.apart v tpOrderId slOrderId (Async.serial first inputs)
      {| Async.shared := s; Async.started := n; Async.inFlight := [] |} = true.
Proof.
  induction inputs as [|inp rest IH]; intros s first n Hn; [reflexivity|].
  set (st := {| Async.shared := s; Async.started := n; Async.inFlight := [] |}).
  cbn [Async.serial Async.apart]. cbn [Async.inFlight st].
  assert (Hfinal : exists s1 n1,
             Async.next v tpOrderId slOrderId (Async.CancelAnswer first (cancel inp))
               (Async.next v tpOrderId slOrderId
                  (Async.PositionsAnswer first (position inp))
                  (Async.next v tpOrderId slOrderId
                     (Async.OrdersAnswer first (orders inp))
                     (Async.next v tpOrderId slOrderId Async.Fire st)))
             = {| Async.shared := s1; Async.started := n1; Async.inFlight := [] |}
             /\ (monitoringActive s1 = true -> n1 = S first)).
  { destruct (monitoringActive s) eqn:Ha.
    - destruct (serial_tick inp s first) as (s1 & E1 & R1). rewrite Ha in R1.
      exists s1, (S first). split; [|reflexivity].
      apply (f_equal outcome) in R1. rewrite !run_next in R1.
      cbn [Async.run ret outcome snd] in R1.
      subst st. rewrite (Hn eq_refl). congruence.
    - exists s, n. split; [|congruence].
      rewrite (next_quiet Async.Fire st Ha eq_refl).
      rewrite (next_quiet (Async.OrdersAnswer first (orders inp)) st Ha eq_refl).
      rewrite (next_quiet (Async.PositionsAnswer first (position inp)) st Ha eq_refl).
      rewrite (next_quiet (Async.CancelAnswer first (cancel inp)) st Ha eq_refl).
      reflexivity. }
  destruct Hfinal as (s1 & n1 & -> & Hn1).
  apply IH. exact Hn1.
Qed.

End Firings.

(** ** Placement traces *)


Lemma placeCalls_app (a b : list Event) :
  placeCalls (a ++ b) = placeCalls a ++ placeCalls b.
Proof.
  induction a as [|e a IH]; simpl; [reflexivity|].
  destruct e; simpl; rewrite IH; reflexivity.
Qed.



(** ** The claims *)

(** C1 (as stated, refuted).  Both orders are seen filled in one snapshot
    on the first tick of a buy bracket: the outcome printed is the profit
    one, not [RESOLVED_UNKNOWN], and a cancel call is made. *)
Lemma C1_both_filled_counterexample :
  executed (findOrder Sample.bookBothFilled Sample.tp) = true
  /\ executed (findOrder Sample.bookBothFilled Sample.sl) = true
  /\ ~ (resolution (events (monitorTick BuySide Sample.tp Sample.sl
                              Sample.bothFilled initialState)) = RESOLVED_UNKNOWN
        /\ cancelCalls (events (monitorTick BuySide Sample.tp Sample.sl
                                  Sample.bothFilled initialState)) = []).
Proof.
  split; [reflexivity|]. split; [reflexivity|].
  intros [H _]. vm_compute in H. discriminate H.
Qed.

(** C1 (amended).  On every tick of a running monitor whose snapshot shows
    both the take-profit and the stop-loss order filled, the take-profit
    branch wins: the bracket resolves as [RESOLVED_PROFIT], exactly one
    cancel call is made and it targets the stop-loss order id, and the
    monitor stops. *)
Theorem C1_both_filled_resolves_profit
    (v : Strategy) (tpOrderId slOrderId : option string)
    (inp : TickInput) (s : MonitorState) (book : option (list BookOrder)) :
  monitoringActive s = true ->
  orders inp = OrdersOk book ->
  executed (findOrder book tpOrderId) = true ->
  executed (findOrder book slOrderId) = true ->
  resolution (events (monitorTick v tpOrderId slOrderId inp s)) = RESOLVED_PROFIT
  /\ cancelCalls (events (monitorTick v tpOrderId slOrderId inp s)) = [slOrderId]
  /\ outcome (monitorTick v tpOrderId slOrderId inp s)
     = Ok {| monitoringActive := false; monitorCount := S (monitorCount s) |}.
Proof.
  intros Ha Ho Htp _.
  destruct (tick_tp_executed v tpOrderId slOrderId inp s book Ha Ho Htp)
    as (E1 & E2 & E3 & _).
  unfold resolution. rewrite E2. auto.
Qed.

Lemma C1_both_filled_witness :
  resolution (events (monitorTick ShortSide Sample.tp Sample.sl
                        Sample.bothFilled initialState)) = RESOLVED_PROFIT
  /\ cancelCalls (events (monitorTick ShortSide Sample.tp Sample.sl
                            Sample.bothFilled initialState)) = [Sample.sl]
  /\ outcome (monitorTick ShortSide Sample.tp Sample.sl Sample.bothFilled initialState)
     = Ok {| monitoringActive := false; monitorCount := 1 |}.
Proof.
  exact (C1_both_filled_resolves_profit ShortSide Sample.tp Sample.sl
           Sample.bothFilled initialState Sample.bookBothFilled
           eq_refl eq_refl eq_refl eq_refl).
Defined.

(** C2 (as stated, refuted).  Two firings of the buy monitor overlap: the
    second passes the guard before the first has written
    [monitoringActive = false].  The first is shown the stop-loss order
    filled and cancels the take-profit order; the second is shown the
    take-profit order filled and cancels the stop-loss order.  Both cancel
    actions are invoked on the one bracket. *)
Lemma C2_overlapping_firings_counterexample :
  cancelCalls (events (Async.run BuySide Sample.tp Sample.sl Overlap.race
                         (Async.start initialState)))
  = [Sample.tp; Sample.sl]
  /\ Async.apart BuySide Sample.tp Sample.sl Overlap.race (Async.start initialState)
     = false.
Proof. split; vm_compute; reflexivity. Qed.

(** C2 (amended).  Over any schedule of timer firings and brokerage
    answers in which no firing starts while an earlier one is still
    waiting for an answer, from any monitor state and whatever the
    brokerage answers, at most one cancel call is made in total; so the
    take-profit cancel and the stop-loss cancel are never both invoked. *)
Theorem C2_at_most_one_cancel_without_overlap
    (v : Strategy) (tpOrderId slOrderId : option string)
    (schedule : list Async.Action) (s : MonitorState) :
  Async.apart v tpOrderId slOrderId schedule (Async.start s) = true ->
  (List.length (cancelCalls (events (Async.run v tpOrderId slOrderId schedule
                                       (Async.start s)))) <= 1)%nat.
Proof.
  intros Hap.
  pose proof (run_apart v tpOrderId slOrderId schedule (Async.start s)) as H.
  cbn [Async.start Async.inFlight List.length] in H.
  specialize (H (Nat.le_0_l 1) Hap).
  unfold Async.cancelsLeft in H. cbn [Async.inFlight Async.start] in H.
  cbn [Async.start Async.shared] in H. destruct (monitoringActive s); lia.
Qed.

Lemma C2_without_overlap_witness :
  Async.apart ShortSide Sample.tp Sample.sl Overlap.inTurn (Async.start initialState)
  = true
  /\ (List.length (cancelCalls (events (Async.run ShortSide Sample.tp Sample.sl
                                          Overlap.inTurn (Async.start initialState))))
      <= 1)%nat.
Proof.
  split; [reflexivity|].
  apply (C2_at_most_one_cancel_without_overlap ShortSide Sample.tp Sample.sl
           Overlap.inTurn initialState).
  reflexivity.
Defined.

(** C3 (as stated, refuted).  Two firings of the buy monitor overlap.  The
    first resolves the bracket as a loss and stops the monitor; the
    second, which had passed the guard before, then goes on: it calls
    [cancelOrder] on the stop-loss order, clears the timer again and
    prints the profit line. *)
Lemma C3_overlapping_firing_counterexample :
  exists st,
    outcome (Async.run BuySide Sample.tp Sample.sl Overlap.firstResolves
               (Async.start initialState)) = Ok st
    /\ resolution (events (Async.run BuySide Sample.tp Sample.sl Overlap.firstResolves
                             (Async.start initialState))) = RESOLVED_LOSS
    /\ monitoringActive (Async.shared st) = false
    /\ cancelCalls (events (Async.run BuySide Sample.tp Sample.sl
                              Overlap.secondGoesOn st)) = [Sample.sl]
    /\ reports (events (Async.run BuySide Sample.tp Sample.sl
                          Overlap.secondGoesOn st)) = [RESOLVED_PROFIT]
    /\ timersCleared (events (Async.run BuySide Sample.tp Sample.sl
                                Overlap.secondGoesOn st)) = 1%nat.
Proof.
  eexists. split; [vm_compute; reflexivity|].
  repeat split; vm_compute; reflexivity.
Qed.

(** C3 (amended).  Once a terminal report (profit, loss or expiry) has been
    printed, over any schedule of firings and answers, the monitor is
    stopped and every firing that starts from then on returns at the
    guard: no state change, no event.  If moreover no earlier firing is
    still waiting for an answer, nothing at all happens any more, whatever
    the timer and the brokerage do: no fetch, no cancel, no report. *)
Theorem C3_terminal_state_is_final
    (v : Strategy) (tpOrderId slOrderId : option string)
    (before : list Async.Action) (s : MonitorState) (st : Async.State) :
  outcome (Async.run v tpOrderId slOrderId before (Async.start s)) = Ok st ->
  resolution (events (Async.run v tpOrderId slOrderId before (Async.start s)))
    <> ACTIVE ->
  monitoringActive (Async.shared st) = false
  /\ Async.step v tpOrderId slOrderId Async.Fire st = ([], Ok st)
  /\ (Async.inFlight st = [] ->
      forall after, Async.run v tpOrderId slOrderId after st = ([], Ok st)).
Proof.
  intros Hout Hres.
  destruct (run_stops v tpOrderId slOrderId before (Async.start s))
    as (st1 & E & _ & Hrep).
  rewrite Hout in E. injection E as <-.
  assert (Ha : monitoringActive (Async.shared st) = false).
  { apply Hrep. intros Hnil. apply Hres. unfold resolution. rewrite Hnil. reflexivity. }
  split; [exact Ha|]. split; [apply fire_stopped; exact Ha|].
  intros Hp after. apply run_quiet; assumption.
Qed.

Lemma C3_terminal_state_witness :
  monitoringActive
    (Async.shared {| Async.shared := {| monitoringActive := false; monitorCount := 2 |};
                     Async.started := 2; Async.inFlight := [] |}) = false
  /\ Async.step BuySide Sample.tp Sample.sl Async.Fire
       {| Async.shared := {| monitoringActive := false; monitorCount := 2 |};
          Async.started := 2; Async.inFlight := [] |}
     = ([], Ok {| Async.shared := {| monitoringActive := false; monitorCount := 2 |};
                  Async.started := 2; Async.inFlight := [] |})
  /\ (Async.inFlight
        {| Async.shared := {| monitoringActive := false; monitorCount := 2 |};
           Async.started := 2; Async.inFlight := [] |} = [] ->
      forall after,
        Async.run BuySide Sample.tp Sample.sl after
          {| Async.shared := {| monitoringActive := false; monitorCount := 2 |};
             Async.started := 2; Async.inFlight := [] |}
        = ([], Ok {| Async.shared := {| monitoringActive := false; monitorCount := 2 |};
                     Async.started := 2; Async.inFlight := [] |})).
Proof.
  apply (C3_terminal_state_is_final BuySide Sample.tp Sample.sl
           (Async.serial 0 [Sample.quiet; Sample.profit]) initialState).
  - reflexivity.
  - vm_compute. discriminate.
Defined.

(** C4.  On a tick of a running monitor whose snapshot shows the
    take-profit order filled and the stop-loss order present and not
    filled, the bracket resolves as [RESOLVED_PROFIT] and exactly one
    cancel call is made, on the id of that stop-loss order. *)
Theorem C4_take_profit_filled_cancels_stop
    (v : Strategy) (tpOrderId slOrderId : option string)
    (inp : TickInput) (s : MonitorState) (book : option (list BookOrder))
    (stopRow : BookOrder) :
  monitoringActive s = true ->
  orders inp = OrdersOk book ->
  executed (findOrder book tpOrderId) = true ->
  findOrder book slOrderId = Some stopRow ->
  executed (Some stopRow) = false ->
  resolution (events (monitorTick v tpOrderId slOrderId inp s)) = RESOLVED_PROFIT
  /\ cancelCalls (events (monitorTick v tpOrderId slOrderId inp s)) = [Some (id stopRow)]
  /\ slOrderId = Some (id stopRow).
Proof.
  intros Ha Ho Htp Hsl _.
  destruct (tick_tp_executed v tpOrderId slOrderId inp s book Ha Ho Htp)
    as (_ & E2 & E3 & _).
  pose proof (findOrder_id book slOrderId stopRow Hsl) as Hid.
  unfold resolution. rewrite E2, E3, Hid. auto.
Qed.

Lemma C4_take_profit_filled_witness :
  resolution (events (monitorTick BuySide Sample.tp Sample.sl Sample.profit
                        {| monitoringActive := true; monitorCount := 1 |}))
    = RESOLVED_PROFIT
  /\ cancelCalls (events (monitorTick BuySide Sample.tp Sample.sl Sample.profit
                            {| monitoringActive := true; monitorCount := 1 |}))
     = [Some "SL1"]
  /\ Sample.sl = Some "SL1".
Proof.
  exact (C4_take_profit_filled_cancels_stop BuySide Sample.tp Sample.sl Sample.profit
           {| monitoringActive := true; monitorCount := 1 |} Sample.bookProfit
           (mkBookOrder "SL1" "PENDING") eq_refl eq_refl eq_refl eq_refl eq_refl).
Defined.

(** C5 (as stated, refuted).  The stop-loss fills and the cancel of the
    take-profit order fails: the monitor state that results is the very
    state a successful cancel leaves, so nothing in it can serve as a
    cancellation-failed flag. *)
Lemma C5_no_failure_flag_counterexample :
  ~ exists flag : MonitorState -> bool,
      (exists s1, outcome (monitorTick BuySide Sample.tp Sample.sl
                             Sample.lossCancelFails initialState) = Ok s1
                  /\ flag s1 = true)
      /\ (exists s2, outcome (monitorTick BuySide Sample.tp Sample.sl
                                Sample.loss initialState) = Ok s2
                     /\ flag s2 = false).
Proof.
  intros (flag & (s1 & H1 & F1) & (s2 & H2 & F2)).
  vm_compute in H1, H2.
  injection H1 as <-. injection H2 as <-. congruence.
Qed.

(** C5 (amended).  When a tick resolves the bracket and its cancel call
    fails, the call is made once and not retried, one warning is printed,
    the bracket still resolves (profit if the take-profit order was seen
    filled, loss otherwise), the tick returns without throwing, and the
    monitor state it leaves is the one a successful cancel leaves: the
    failure is kept nowhere but on the console. *)
Theorem C5_cancel_failure_is_only_logged
    (v : Strategy) (tpOrderId slOrderId : option string)
    (inp : TickInput) (s : MonitorState) (book : option (list BookOrder)) :
  monitoringActive s = true ->
  orders inp = OrdersOk book ->
  executed (findOrder book tpOrderId) || executed (findOrder book slOrderId) = true ->
  cancelFailed inp = true ->
  List.length (cancelCalls (events (monitorTick v tpOrderId slOrderId inp s))) = 1%nat
  /\ cancelWarnings (events (monitorTick v tpOrderId slOrderId inp s)) = 1%nat
  /\ resolution (events (monitorTick v tpOrderId slOrderId inp s))
     = (if executed (findOrder book tpOrderId) then RESOLVED_PROFIT else RESOLVED_LOSS)
  /\ outcome (monitorTick v tpOrderId slOrderId inp s)
     = Ok {| monitoringActive := false; monitorCount := S (monitorCount s) |}
  /\ (forall oid,
        outcome (monitorTick v tpOrderId slOrderId
                   {| orders := orders inp; cancel := RespOk oid;
                      position := position inp |} s)
        = outcome (monitorTick v tpOrderId slOrderId inp s)).
Proof.
  intros Ha Ho Hx Hc. destruct s as [a c]. simpl in Ha. subst a.
  destruct inp as [o cn p]. simpl in Ho. subst o.
  unfold cancelFailed in Hc. simpl in Hc.
  destruct (executed (findOrder book tpOrderId)) eqn:Htp;
    [|simpl in Hx];
    destruct v; unfold_tick; simpl; rewrite Htp; try rewrite Hx;
    destruct cn; try discriminate Hc; simpl; auto.
Qed.

Lemma C5_cancel_failure_witness :
  List.length (cancelCalls (events (monitorTick BuySide Sample.tp Sample.sl
                                      Sample.lossCancelFails initialState))) = 1%nat
  /\ cancelWarnings (events (monitorTick BuySide Sample.tp Sample.sl
                               Sample.lossCancelFails initialState)) = 1%nat
  /\ resolution (events (monitorTick BuySide Sample.tp Sample.sl
                           Sample.lossCancelFails initialState)) = RESOLVED_LOSS
  /\ outcome (monitorTick BuySide Sample.tp Sample.sl Sample.lossCancelFails initialState)
     = Ok {| monitoringActive := false; monitorCount := 1 |}
  /\ (forall oid,
        outcome (monitorTick BuySide Sample.tp Sample.sl
                   {| orders := OrdersOk Sample.bookLoss; cancel := RespOk oid;
                      position := None |} initialState)
        = outcome (monitorTick BuySide Sample.tp Sample.sl
                     Sample.lossCancelFails initialState)).
Proof.
  exact (C5_cancel_failure_is_only_logged BuySide Sample.tp Sample.sl
           Sample.lossCancelFails initialState Sample.bookLoss
           eq_refl eq_refl eq_refl eq_refl).
Defined.




(** C7.  A tick of a running monitor whose order-list fetch fails does
    nothing but fetch and log: it returns, the monitor is still running,
    the bracket's resolution after any earlier trace is unchanged, no
    cancel is made and the timer is not cleared; the next tick fetches
    again. *)
Theorem C7_failed_fetch_skips_tick
    (v : Strategy) (tpOrderId slOrderId : option string)
    (inp next : TickInput) (s : MonitorState) (earlier : list Event) :
  monitoringActive s = true ->
  fetchFailed inp = true ->
  exists s',
    outcome (monitorTick v tpOrderId slOrderId inp s) = Ok s'
    /\ monitoringActive s' = monitoringActive s
    /\ events (monitorTick v tpOrderId slOrderId inp s)
       = match v with
         | BuySide => []
         | ShortSide => [EvConsole MsgMonitorCheck]
         end ++ [EvGetOrders; EvLogger LError; EvConsole MsgMonitoringError]
    /\ resolution (earlier ++ events (monitorTick v tpOrderId slOrderId inp s))
       = resolution earlier
    /\ cancelCalls (events (monitorTick v tpOrderId slOrderId inp s)) = []
    /\ timersCleared (events (monitorTick v tpOrderId slOrderId inp s)) = 0%nat
    /\ fetches (events (monitorTick v tpOrderId slOrderId next s')) = 1%nat.
Proof.
  intros Ha Hf.
  destruct (tick_fetch_failed v tpOrderId slOrderId inp s Ha Hf) as (E1 & E2).
  eexists. split; [exact E1|]. split; [simpl; congruence|].
  split; [exact E2|].
  unfold resolution. rewrite reports_app, E2.
  split; [destruct v; simpl; rewrite app_nil_r; reflexivity|].
  split; [destruct v; reflexivity|].
  split; [destruct v; reflexivity|].
  destruct (tick_running v tpOrderId slOrderId next
              {| monitoringActive := true; monitorCount := S (monitorCount s) |} eq_refl)
    as (s2 & _ & _ & Hfetch & _).
  exact Hfetch.
Qed.

Lemma C7_failed_fetch_witness :
  exists s',
    outcome (monitorTick BuySide Sample.tp Sample.sl Sample.fetchDown initialState) = Ok s'
    /\ monitoringActive s' = monitoringActive initialState
    /\ events (monitorTick BuySide Sample.tp Sample.sl Sample.fetchDown initialState)
       = [] ++ [EvGetOrders; EvLogger LError; EvConsole MsgMonitoringError]
    /\ resolution ([] ++ events (monitorTick BuySide Sample.tp Sample.sl
                                   Sample.fetchDown initialState))
       = resolution []
    /\ cancelCalls (events (monitorTick BuySide Sample.tp Sample.sl
                              Sample.fetchDown initialState)) = []
    /\ timersCleared (events (monitorTick BuySide Sample.tp Sample.sl
                                Sample.fetchDown initialState)) = 0%nat
    /\ fetches (events (monitorTick BuySide Sample.tp Sample.sl Sample.profit s')) = 1%nat.
Proof.
  exact (C7_failed_fetch_skips_tick BuySide Sample.tp Sample.sl
           Sample.fetchDown Sample.profit initialState [] eq_refl eq_refl).
Defined.




(** C9.  A running monitor counts every tick, also one whose fetch fails;
    and over any run of ticks whose fetches all fail it keeps running
    whatever the counter has reached: the counter grows by the number of
    ticks, every tick fetches again, nothing is reported (no expiry) and
    the timer is never cleared. *)
Theorem C9_failing_fetches_never_expire
    (v : Strategy) (tpOrderId slOrderId : option string) (s : MonitorState) :
  monitoringActive s = true ->
  (forall inp, exists s',
      outcome (monitorTick v tpOrderId slOrderId inp s) = Ok s'
      /\ monitorCount s' = S (monitorCount s))
  /\ (forall inputs,
        forallb fetchFailed inputs = true ->
        outcome (monitorRun v tpOrderId slOrderId inputs s)
          = Ok {| monitoringActive := true;
                  monitorCount := monitorCount s + List.length inputs |}
        /\ reports (events (monitorRun v tpOrderId slOrderId inputs s)) = []
        /\ timersCleared (events (monitorRun v tpOrderId slOrderId inputs s)) = 0%nat
        /\ fetches (events (monitorRun v tpOrderId slOrderId inputs s))
           = List.length inputs).
Proof.
  intros Ha. split.
  - intros inp.
    destruct (tick_running v tpOrderId slOrderId inp s Ha) as (s' & E & Ec & _).
    exists s'. auto.
  - intros inputs. revert s Ha.
    induction inputs as [|inp rest IH]; intros s Ha Hall.
    + destruct s as [a c]. simpl in Ha. subst a. simpl.
      rewrite Nat.add_0_r. auto.
    + simpl in Hall. apply andb_prop in Hall. destruct Hall as [Hf Hrest].
      destruct (tick_fetch_failed v tpOrderId slOrderId inp s Ha Hf) as (E1 & E2).
      rewrite (run_cons_events v tpOrderId slOrderId inp rest s _ E1).
      rewrite (run_cons_outcome v tpOrderId slOrderId inp rest s _ E1).
      destruct (IH {| monitoringActive := true; monitorCount := S (monitorCount s) |}
                  eq_refl Hrest) as (R1 & R2 & R3 & R4).
      rewrite reports_app, timersCleared_app, fetches_app, R1, R2, R3, R4, E2.
      cbn [monitorCount List.length].
      replace (S (monitorCount s) + List.length rest)%nat
        with (monitorCount s + S (List.length rest))%nat by lia.
      destruct v; simpl; auto.
Qed.

Lemma C9_failing_fetches_witness :
  (forall inp, exists s',
      outcome (monitorTick BuySide Sample.tp Sample.sl inp Sample.lastMinute) = Ok s'
      /\ monitorCount s' = S (monitorCount Sample.lastMinute))
  /\ (forall inputs,
        forallb fetchFailed inputs = true ->
        outcome (monitorRun BuySide Sample.tp Sample.sl inputs Sample.lastMinute)
          = Ok {| monitoringActive := true;
                  monitorCount := monitorCount Sample.lastMinute + List.length inputs |}
        /\ reports (events (monitorRun BuySide Sample.tp Sample.sl inputs
                              Sample.lastMinute)) = []
        /\ timersCleared (events (monitorRun BuySide Sample.tp Sample.sl inputs
                                    Sample.lastMinute)) = 0%nat
        /\ fetches (events (monitorRun BuySide Sample.tp Sample.sl inputs
                              Sample.lastMinute))
           = List.length inputs).
Proof.
  exact (C9_failing_fetches_never_expire BuySide Sample.tp Sample.sl
           Sample.lastMinute eq_refl).
Defined.

(** C10.  For every short bracket, the stop-limit order built for the
    stop-loss has its trigger fifty paise below its limit; whatever the
    symbol, quantity and stop-loss price, and whatever the brokerage would
    answer, its placement throws a validation error before the SDK is
    reached, and the stop-market fallback placement is then attempted: the
    placements called are the stop-limit one (buy, type 3, limit at the
    stop-loss price) and the fallback one (buy, type 4, trigger at the
    stop-loss price, no limit), in that order. *)
Theorem C10_short_stop_limit_always_falls_back
    (place_order : Order -> Response)
    (sym : string) (quantity stopLossPrice : JS.num) :
  (forall q : Q,
      od_limitPrice (Short.stopLossOrder sym quantity (JS.Num q)) = Some (JS.Num q)
      /\ od_stopPrice (Short.stopLossOrder sym quantity (JS.Num q))
         = Some (JS.Num (q - (1 # 2)))
      /\ (q - (1 # 2) < q)%Q)
  /\ (exists e,
        isValidationError e = true
        /\ outcome (OrderService.placeOrder place_order
                      (Short.stopLossOrder sym quantity stopLossPrice)) = Throw e)
  /\ sdkPlacements (events (OrderService.placeOrder place_order
                              (Short.stopLossOrder sym quantity stopLossPrice))) = []
  /\ placeCalls (events (Short.placeStopLoss place_order sym quantity stopLossPrice))
     = [Short.stopLossOrder sym quantity stopLossPrice;
        Short.stopLossFallbackOrder sym quantity stopLossPrice]
  /\ Short.stopLossOrder sym quantity stopLossPrice
     = {| od_symbol := JS.toUpperCase sym; od_quantity := quantity;
          od_side := 1%Z; od_type := 3%Z;
          od_limitPrice := Some stopLossPrice;
          od_stopPrice := Some (JS.sub stopLossPrice (JS.Num (1 # 2)));
          od_productType := "INTRADAY"; od_validity := "DAY" |}
  /\ Short.stopLossFallbackOrder sym quantity stopLossPrice
     = {| od_symbol := JS.toUpperCase sym; od_quantity := quantity;
          od_side := 1%Z; od_type := 4%Z;
          od_limitPrice := None;
          od_stopPrice := Some stopLossPrice;
          od_productType := "INTRADAY"; od_validity := "DAY" |}
  /\ sdkPlacements (events (Short.placeStopLoss place_order sym quantity stopLossPrice))
     = match outcome (OrderService.validateOrderData
                        (OrderService.buildOrder
                           (Short.stopLossFallbackOrder sym quantity stopLossPrice))) with
       | Ok _ =>
           [{| symbol := JS.toUpperCase sym; qty := quantity;
               type := 4%Z; side := 1%Z;
               productType := "INTRADAY"; validity := "DAY";
               limitPrice := None; stopPrice := Some stopLossPrice |}]
       | Throw _ => []
       end.
Proof.
  assert (Hplace : exists e,
             isValidationError e = true
             /\ OrderService.placeOrder place_order
                  (Short.stopLossOrder sym quantity stopLossPrice)
                = ([EvCallPlaceOrder (Short.stopLossOrder sym quantity stopLossPrice);
                    EvLogger LError], Throw e)).
  { destruct (short_stop_limit_invalid sym quantity stopLossPrice) as (e & He & Hv).
    exists e. split; [exact He|].
    unfold OrderService.placeOrder. rewrite Hv. reflexivity. }
  destruct Hplace as (e & He & Hp).
  split; [intros q; repeat split; lra|].
  split; [exists e; rewrite Hp; auto|].
  split; [rewrite Hp; reflexivity|].
  assert (Hcalls : placeCalls (events (Short.placeStopLoss place_order sym quantity
                                         stopLossPrice))
                   = [Short.stopLossOrder sym quantity stopLossPrice;
                      Short.stopLossFallbackOrder sym quantity stopLossPrice]
                   /\ sdkPlacements (events (Short.placeStopLoss place_order sym quantity
                                               stopLossPrice))
                      = match outcome (OrderService.validateOrderData
                                         (OrderService.buildOrder
                                            (Short.stopLossFallbackOrder sym quantity
                                               stopLossPrice))) with
                        | Ok _ => [OrderService.buildOrder
                                     (Short.stopLossFallbackOrder sym quantity
                                        stopLossPrice)]
                        | Throw _ => []
                        end).
  { unfold Short.placeStopLoss. rewrite Hp. unfold OrderService.placeOrder.
    pose proof (validateOrderData_silent
                  (OrderService.buildOrder
                     (Short.stopLossFallbackOrder sym quantity stopLossPrice))) as Hsilent.
    destruct (OrderService.validateOrderData
                (OrderService.buildOrder
                   (Short.stopLossFallbackOrder sym quantity stopLossPrice)))
      as [tv [[]|ev]]; unfold events in Hsilent; cbn [fst] in Hsilent; subst tv.
    - destruct (place_order _); split; reflexivity.
    - split; reflexivity. }
  destruct Hcalls as (Hc & Hs).
  split; [exact Hc|]. split; [reflexivity|]. split; [reflexivity|].
  exact Hs.
Qed.

(** * Properties of the command-line functions *)

(** ** Traces of the command-line functions *)

Lemma sdkPlacements_app (a b : list Event) :
  sdkPlacements (a ++ b) = sdkPlacements a ++ sdkPlacements b.
Proof.
  induction a as [|e a IH]; simpl; [reflexivity|].
  destruct e; simpl; rewrite IH; reflexivity.
Qed.

Lemma calls_app (a b : list Cli.Action) :
  Cli.calls (a ++ b) = Cli.calls a ++ Cli.calls b.
Proof.
  induction a as [|x a IH]; simpl; [reflexivity|].
  destruct x; simpl; rewrite IH; reflexivity.
Qed.

Lemma calls_lifted (l : list Event) : Cli.calls (map Cli.Did l) = l.
Proof. induction l as [|e l IH]; simpl; [reflexivity|]. rewrite IH. reflexivity. Qed.

Lemma slept_app (a b : list Cli.Action) :
  Cli.slept (a ++ b) = (Cli.slept a + Cli.slept b)%N.
Proof.
  induction a as [|x a IH]; simpl; [reflexivity|].
  destruct x; simpl; rewrite IH; lia.
Qed.

Lemma slept_lifted (l : list Event) : Cli.slept (map Cli.Did l) = 0%N.
Proof. induction l as [|e l IH]; simpl; auto. Qed.

Lemma footprint_app (a b : list Event) :
  footprint (a ++ b) = fpPlus (footprint a) (footprint b).
Proof.
  unfold footprint, fpPlus.
  rewrite placeCalls_app, sdkPlacements_app, cancelCalls_app, fetches_app,
    monitorsStarted_app.
  reflexivity.
Qed.

Ltac split_footprint H :=
  unfold footprint in H;
  let Hp := fresh "Hplaced" in
  let Hs := fresh "Hsdk" in
  let Hc := fresh "Hcancelled" in
  let Hf := fresh "Hfetches" in
  let Hm := fresh "Hmonitors" in
  injection H as Hp Hs Hc Hf Hm.

Ltac push_footprint :=
  unfold footprint;
  repeat (progress
            (rewrite ?placeCalls_app, ?sdkPlacements_app, ?cancelCalls_app,
               ?fetches_app, ?monitorsStarted_app;
             cbn [placeCalls sdkPlacements cancelCalls fetches monitorsStarted
                  app Nat.add])).

Lemma placeOrder_footprint (place_order : Order -> Response) (od : OrderData) :
  exists sdk,
    footprint (events (OrderService.placeOrder place_order od))
    = {| fpPlaced := [od]; fpSdk := sdk; fpCancelled := [];
         fpFetches := 0; fpMonitors := 0 |}.
Proof.
  destruct (placeOrder_cases place_order od) as [(e & _ & ->)|(_ & ->)].
  - eexists. reflexivity.
  - destruct (place_order (OrderService.buildOrder od)); eexists; reflexivity.
Qed.

(** The placement step of the buy variant: two placement calls, one
    monitor, nothing else. *)
Lemma buy_placeAndStart_footprint (place_order : Order -> Response)
    (sym : string) (quantity takeProfitPrice stopLossPrice : JS.num) :
  exists ids sdk,
    outcome (Buy.placeAndStart place_order sym quantity takeProfitPrice stopLossPrice)
      = Ok ids
    /\ footprint (events (Buy.placeAndStart place_order sym quantity
                            takeProfitPrice stopLossPrice))
       = {| fpPlaced := [Buy.takeProfitOrder sym quantity takeProfitPrice;
                         Buy.stopLossOrder sym quantity stopLossPrice];
            fpSdk := sdk; fpCancelled := []; fpFetches := 0; fpMonitors := 1 |}.
Proof.
  unfold Buy.placeAndStart.
  destruct (placeOrder_footprint place_order
              (Buy.takeProfitOrder sym quantity takeProfitPrice)) as (k1 & H1).
  destruct (placeOrder_footprint place_order
              (Buy.stopLossOrder sym quantity stopLossPrice)) as (k2 & H2).
  destruct (OrderService.placeOrder place_order
              (Buy.takeProfitOrder sym quantity takeProfitPrice)) as [t1 [o1|e1]];
    destruct (OrderService.placeOrder place_order
                (Buy.stopLossOrder sym quantity stopLossPrice)) as [t2 [o2|e2]];
    unfold events in *; simpl in H1, H2; split_footprint H1; split_footprint H2;
    simpl; do 2 eexists; (split; [reflexivity|]); push_footprint;
    rewrite ?Hplaced, ?Hplaced0, ?Hcancelled, ?Hcancelled0, ?Hfetches, ?Hfetches0,
      ?Hmonitors, ?Hmonitors0; simpl; rewrite ?app_nil_r; reflexivity.
Qed.

(** The placement step of the short variant: the stop-limit placement
    always fails validation, so the fallback is always called. *)
Lemma short_placeAndStart_footprint (place_order : Order -> Response)
    (sym : string) (quantity takeProfitPrice stopLossPrice : JS.num) :
  exists ids sdk,
    outcome (Short.placeAndStart place_order sym quantity takeProfitPrice stopLossPrice)
      = Ok ids
    /\ footprint (events (Short.placeAndStart place_order sym quantity
                            takeProfitPrice stopLossPrice))
       = {| fpPlaced := [Short.takeProfitOrder sym quantity takeProfitPrice;
                         Short.stopLossOrder sym quantity stopLossPrice;
                         Short.stopLossFallbackOrder sym quantity stopLossPrice];
            fpSdk := sdk; fpCancelled := []; fpFetches := 0; fpMonitors := 1 |}.
Proof.
  unfold Short.placeAndStart, Short.placeStopLoss.
  destruct (placeOrder_footprint place_order
              (Short.takeProfitOrder sym quantity takeProfitPrice)) as (k1 & H1).
  destruct (placeOrder_footprint place_order
              (Short.stopLossFallbackOrder sym quantity stopLossPrice)) as (k3 & H3).
  assert (H2 : exists e, OrderService.placeOrder place_order
                           (Short.stopLossOrder sym quantity stopLossPrice)
                         = ([EvCallPlaceOrder (Short.stopLossOrder sym quantity stopLossPrice);
                             EvLogger LError], Throw e)).
  { destruct (short_stop_limit_invalid sym quantity stopLossPrice) as (e & _ & Hv).
    exists e. unfold OrderService.placeOrder. rewrite Hv. reflexivity. }
  destruct H2 as (e2 & ->).
  destruct (OrderService.placeOrder place_order
              (Short.takeProfitOrder sym quantity takeProfitPrice)) as [t1 [o1|e1]];
    destruct (OrderService.placeOrder place_order
                (Short.stopLossFallbackOrder sym quantity stopLossPrice))
      as [t3 [o3|e3]];
    unfold events in *; simpl in H1, H3; split_footprint H1; split_footprint H3;
    simpl; do 2 eexists; (split; [reflexivity|]); push_footprint;
    rewrite ?Hplaced, ?Hplaced0, ?Hcancelled, ?Hcancelled0, ?Hfetches, ?Hfetches0,
      ?Hmonitors, ?Hmonitors0; simpl; rewrite ?app_nil_r; reflexivity.
Qed.

Ltac push_calls :=
  unfold Cli.actions, Cli.result;
  cbn [fst snd];
  repeat (progress
            (rewrite ?calls_app, ?slept_app, ?calls_lifted, ?slept_lifted;
             cbn [Cli.calls Cli.slept app])).

Ltac cli_step := cbn -[N.add N.mul N.of_nat].

Ltac push_all :=
  unfold Cli.actions, Cli.result;
  cbn [fst snd];
  repeat (progress
            (rewrite ?calls_app, ?slept_app, ?calls_lifted, ?slept_lifted,
               ?placeCalls_app, ?sdkPlacements_app, ?cancelCalls_app,
               ?fetches_app, ?monitorsStarted_app, ?app_nil_r;
             cbn [Cli.calls Cli.slept placeCalls sdkPlacements cancelCalls
                  fetches monitorsStarted app])).

(** ** The wait loops *)

(** The wait loop of the buy variant only fetches and sleeps: one sleep of
    ten seconds per fetch, at most [remaining] fetches, all of them when
    the entry was never seen executed. *)
Lemma waitForBuy_footprint (poll : nat -> OrdersResponse) (buyId : string)
    (attempts remaining : nat) :
  exists buyExecuted k,
    Cli.result (Cli.waitForBuy poll buyId attempts remaining) = Cli.Done buyExecuted
    /\ footprint (Cli.calls (Cli.actions (Cli.waitForBuy poll buyId attempts remaining)))
       = {| fpPlaced := []; fpSdk := []; fpCancelled := [];
            fpFetches := k; fpMonitors := 0 |}
    /\ (k <= remaining)%nat
    /\ (buyExecuted = false -> k = remaining)
    /\ Cli.slept (Cli.actions (Cli.waitForBuy poll buyId attempts remaining))
       = (10000 * N.of_nat k)%N
    /\ (0 < remaining -> 0 < k)%nat.
Proof.
  revert attempts. induction remaining as [|n IH]; intros attempts.
  - exists false, 0%nat. simpl. repeat split; auto; lia.
  - destruct (IH (S attempts)) as (b & k & Hr & Hf & Hk & Hb & Hs & _).
    cbn [Cli.waitForBuy].
    destruct (Cli.waitForBuy poll buyId (S attempts) n) as [tr r].
    unfold Cli.actions, Cli.result in Hr, Hf, Hs. cbn [fst snd] in Hr, Hf, Hs.
    subst r. split_footprint Hf.
    destruct (poll (S attempts)) as [book|m|m].
    + destruct (executed (findOrder book (Some buyId))) eqn:Hx.
      * exists true, 1%nat. unfold OrderService.getOrders. cli_step. rewrite Hx. cli_step.
        repeat split; auto; try lia; try discriminate.
      * exists b, (S k). unfold OrderService.getOrders. cli_step. rewrite Hx. cli_step.
        split; [reflexivity|]. split.
        { push_footprint. rewrite Hplaced, Hsdk, Hcancelled, Hfetches, Hmonitors.
          reflexivity. }
        split; [lia|]. split; [intros E; rewrite (Hb E); reflexivity|].
        split; [rewrite Hs; lia|lia].
    + exists b, (S k). unfold OrderService.getOrders. cli_step.
      split; [reflexivity|]. split.
      { push_footprint. rewrite Hplaced, Hsdk, Hcancelled, Hfetches, Hmonitors.
        reflexivity. }
      split; [lia|]. split; [intros E; rewrite (Hb E); reflexivity|].
      split; [rewrite Hs; lia|lia].
    + exists b, (S k). unfold OrderService.getOrders. cli_step.
      split; [reflexivity|]. split.
      { push_footprint. rewrite Hplaced, Hsdk, Hcancelled, Hfetches, Hmonitors.
        reflexivity. }
      split; [lia|]. split; [intros E; rewrite (Hb E); reflexivity|].
      split; [rewrite Hs; lia|lia].
Qed.

(** The wait loop of the short variant only fetches and sleeps, and ends in
    one of its three ways. *)
Lemma waitForShort_footprint (poll : nat -> OrdersResponse) (shortId : string)
    (attempts remaining : nat) :
  exists waited k,
    Cli.result (Cli.waitForShort poll shortId attempts remaining) = Cli.Done waited
    /\ footprint (Cli.calls (Cli.actions (Cli.waitForShort poll shortId attempts remaining)))
       = {| fpPlaced := []; fpSdk := []; fpCancelled := [];
            fpFetches := k; fpMonitors := 0 |}
    /\ (k <= remaining)%nat
    /\ (waited = Cli.EntryUnclear -> k = remaining)
    /\ Cli.slept (Cli.actions (Cli.waitForShort poll shortId attempts remaining))
       = (10000 * N.of_nat k)%N
    /\ (0 < remaining -> 0 < k)%nat.
Proof.
  revert attempts. induction remaining as [|n IH]; intros attempts.
  - exists Cli.EntryUnclear, 0%nat. simpl. repeat split; auto; lia.
  - destruct (IH (S attempts)) as (b & k & Hr & Hf & Hk & Hb & Hs & _).
    cbn [Cli.waitForShort].
    destruct (Cli.waitForShort poll shortId (S attempts) n) as [tr r].
    unfold Cli.actions, Cli.result in Hr, Hf, Hs. cbn [fst snd] in Hr, Hf, Hs.
    subst r. split_footprint Hf.
    destruct (poll (S attempts)) as [book|m|m].
    + destruct (executed (findOrder book (Some shortId))) eqn:Hx;
        [|destruct (Cli.cancelled (findOrder book (Some shortId))) eqn:Hc].
      * exists Cli.EntryExecuted, 1%nat. unfold OrderService.getOrders.
        cli_step. rewrite Hx. cli_step.
        repeat split; auto; try lia; try discriminate.
      * exists Cli.EntryCancelled, 1%nat. unfold OrderService.getOrders.
        cli_step. rewrite Hx, Hc. cli_step.
        repeat split; auto; try lia; try discriminate.
      * exists b, (S k). unfold OrderService.getOrders.
        cli_step. rewrite Hx, Hc. cli_step.
        split; [reflexivity|]. split.
        { push_footprint. rewrite Hplaced, Hsdk, Hcancelled, Hfetches, Hmonitors.
          reflexivity. }
        split; [lia|]. split; [intros E; rewrite (Hb E); reflexivity|].
        split; [rewrite Hs; lia|lia].
    + exists b, (S k). unfold OrderService.getOrders. cli_step.
      split; [reflexivity|]. split.
      { push_footprint. rewrite Hplaced, Hsdk, Hcancelled, Hfetches, Hmonitors.
        reflexivity. }
      split; [lia|]. split; [intros E; rewrite (Hb E); reflexivity|].
      split; [rewrite Hs; lia|lia].
    + exists b, (S k). unfold OrderService.getOrders. cli_step.
      split; [reflexivity|]. split.
      { push_footprint. rewrite Hplaced, Hsdk, Hcancelled, Hfetches, Hmonitors.
        reflexivity. }
      split; [lia|]. split; [intros E; rewrite (Hb E); reflexivity|].
      split; [rewrite Hs; lia|lia].
Qed.

(** How the wait loop of the short variant ends: the first poll that shows
    the entry order executed or cancelled decides, and no poll is made
    after it. *)
Lemma waitForShort_decided (poll : nat -> OrdersResponse) (shortId : string)
    (waited : Cli.Waited) (undecided : nat) :
  forall attempts remaining,
    (undecided < remaining)%nat ->
    (forall i, (i < undecided)%nat -> decides (poll (S (attempts + i))) shortId = None) ->
    decides (poll (S (attempts + undecided))) shortId = Some waited ->
    Cli.result (Cli.waitForShort poll shortId attempts remaining) = Cli.Done waited
    /\ fetches (Cli.calls (Cli.actions (Cli.waitForShort poll shortId attempts remaining)))
       = S undecided.
Proof.
  induction undecided as [|j IH]; intros attempts remaining Hlt Hbefore Hnow.
  - destruct remaining as [|n]; [lia|].
    rewrite Nat.add_0_r in Hnow. cbn [Cli.waitForShort].
    destruct (Cli.waitForShort poll shortId (S attempts) n) as [tr r].
    unfold decides, shown in Hnow.
    destruct (poll (S attempts)) as [book|m|m]; [|discriminate|discriminate].
    destruct (executed (findOrder book (Some shortId))) eqn:Hx;
      [|destruct (Cli.cancelled (findOrder book (Some shortId))) eqn:Hc];
      try discriminate; injection Hnow as <-;
      unfold OrderService.getOrders; cli_step; rewrite Hx, ?Hc; cli_step; auto.
  - destruct remaining as [|n]; [lia|].
    assert (H0 : decides (poll (S attempts)) shortId = None).
    { rewrite <- (Nat.add_0_r attempts). apply Hbefore. lia. }
    destruct (IH (S attempts) n) as (Hr & Hf).
    + lia.
    + intros i Hi. replace (S attempts + i)%nat with (attempts + S i)%nat by lia.
      apply Hbefore. lia.
    + replace (S attempts + j)%nat with (attempts + S j)%nat by lia. exact Hnow.
    + cbn [Cli.waitForShort].
      destruct (Cli.waitForShort poll shortId (S attempts) n) as [tr r].
      unfold Cli.actions, Cli.result in Hr, Hf. cbn [fst snd] in Hr, Hf. subst r.
      unfold decides, shown in H0.
      destruct (poll (S attempts)) as [book|m|m].
      * destruct (executed (findOrder book (Some shortId))) eqn:Hx; [discriminate|].
        destruct (Cli.cancelled (findOrder book (Some shortId))) eqn:Hc; [discriminate|].
        unfold OrderService.getOrders. cli_step. rewrite Hx, Hc. cli_step.
        split; [reflexivity|]. push_calls. cbn in Hf |- *. rewrite ?fetches_app; cbn; rewrite Hf.
        reflexivity.
      * unfold OrderService.getOrders. cli_step.
        split; [reflexivity|]. push_calls. cbn in Hf |- *. rewrite ?fetches_app; cbn; rewrite Hf.
        reflexivity.
      * unfold OrderService.getOrders. cli_step.
        split; [reflexivity|]. push_calls. cbn in Hf |- *. rewrite ?fetches_app; cbn; rewrite Hf.
        reflexivity.
Qed.

(** The wait loop of the buy variant stops at the first poll that shows
    the entry order executed. *)
Lemma waitForBuy_decided (poll : nat -> OrdersResponse) (buyId : string)
    (unfilled : nat) :
  forall attempts remaining,
    (unfilled < remaining)%nat ->
    (forall i, (i < unfilled)%nat ->
               executed (shown (poll (S (attempts + i))) buyId) = false) ->
    executed (shown (poll (S (attempts + unfilled))) buyId) = true ->
    Cli.result (Cli.waitForBuy poll buyId attempts remaining) = Cli.Done true
    /\ fetches (Cli.calls (Cli.actions (Cli.waitForBuy poll buyId attempts remaining)))
       = S unfilled.
Proof.
  induction unfilled as [|j IH]; intros attempts remaining Hlt Hbefore Hnow.
  - destruct remaining as [|n]; [lia|].
    rewrite Nat.add_0_r in Hnow. cbn [Cli.waitForBuy].
    destruct (Cli.waitForBuy poll buyId (S attempts) n) as [tr r].
    unfold shown in Hnow.
    destruct (poll (S attempts)) as [book|m|m]; [|discriminate|discriminate].
    unfold OrderService.getOrders; cli_step; rewrite Hnow; cli_step; auto.
  - destruct remaining as [|n]; [lia|].
    assert (H0 : executed (shown (poll (S attempts)) buyId) = false).
    { rewrite <- (Nat.add_0_r attempts). apply Hbefore. lia. }
    destruct (IH (S attempts) n) as (Hr & Hf).
    + lia.
    + intros i Hi. replace (S attempts + i)%nat with (attempts + S i)%nat by lia.
      apply Hbefore. lia.
    + replace (S attempts + j)%nat with (attempts + S j)%nat by lia. exact Hnow.
    + cbn [Cli.waitForBuy].
      destruct (Cli.waitForBuy poll buyId (S attempts) n) as [tr r].
      unfold Cli.actions, Cli.result in Hr, Hf. cbn [fst snd] in Hr, Hf. subst r.
      unfold shown in H0.
      destruct (poll (S attempts)) as [book|m|m].
      * unfold OrderService.getOrders. cli_step. rewrite H0. cli_step.
        split; [reflexivity|]. push_calls. cbn in Hf |- *.
        rewrite ?fetches_app; cbn; rewrite Hf. reflexivity.
      * unfold OrderService.getOrders. cli_step.
        split; [reflexivity|]. push_calls. cbn in Hf |- *.
        rewrite ?fetches_app; cbn; rewrite Hf. reflexivity.
      * unfold OrderService.getOrders. cli_step.
        split; [reflexivity|]. push_calls. cbn in Hf |- *.
        rewrite ?fetches_app; cbn; rewrite Hf. reflexivity.
Qed.

(** ** The two bracket functions, whole *)

(** The course of [buyWithTPSLAndMonitor], by the outcome of the entry
    placement. *)
Lemma buy_bracket_summary
    (place_order : Order -> Response) (poll : nat -> OrdersResponse)
    (sym : string) (quantity price tpPercent slPercent : JS.num) :
  let run := Cli.buyWithTPSLAndMonitor place_order poll sym quantity price
               tpPercent slPercent in
  let entry := Cli.buyEntryOrder sym quantity price in
  let takeProfitPrice := fst (Cli.buyExitPrices price tpPercent slPercent) in
  let stopLossPrice := snd (Cli.buyExitPrices price tpPercent slPercent) in
  cancelCalls (Cli.calls (Cli.actions run)) = []
  /\ match outcome (OrderService.placeOrder place_order entry) with
     | Throw _ =>
         Cli.result run = Cli.Done None
         /\ placeCalls (Cli.calls (Cli.actions run)) = [entry]
         /\ fetches (Cli.calls (Cli.actions run)) = 0%nat
         /\ monitorsStarted (Cli.calls (Cli.actions run)) = 0%nat
     | Ok _ =>
         (exists ids, Cli.result run = Cli.Done (Some ids))
         /\ placeCalls (Cli.calls (Cli.actions run))
            = [entry; Buy.takeProfitOrder sym quantity takeProfitPrice;
               Buy.stopLossOrder sym quantity stopLossPrice]
         /\ (1 <= fetches (Cli.calls (Cli.actions run)) <= 3)%nat
         /\ Cli.slept (Cli.actions run)
            = (10000 * N.of_nat (fetches (Cli.calls (Cli.actions run))))%N
         /\ monitorsStarted (Cli.calls (Cli.actions run)) = 1%nat
     end.
Proof.
  intros run entry takeProfitPrice stopLossPrice.
  subst run entry takeProfitPrice stopLossPrice.
  unfold Cli.buyWithTPSLAndMonitor. cbv zeta.
  set (takeProfitPrice := fst (Cli.buyExitPrices price tpPercent slPercent)).
  set (stopLossPrice := snd (Cli.buyExitPrices price tpPercent slPercent)).
  set (entry := Cli.buyEntryOrder sym quantity price).
  clearbody takeProfitPrice stopLossPrice entry.
  destruct (placeOrder_footprint place_order entry) as (k0 & H0).
  destruct (OrderService.placeOrder place_order entry) as [t0 [buyId|e0]];
    unfold events, outcome in *; cbn [fst snd] in *; split_footprint H0.
  - destruct (waitForBuy_footprint poll buyId 0 3)
      as (b & k & Hr & Hf & Hk & _ & Hs & Hpos).
    destruct (buy_placeAndStart_footprint place_order sym quantity
                takeProfitPrice stopLossPrice) as (ids & k1 & Ho & Hp).
    cbn -[Cli.waitForBuy Buy.placeAndStart N.mul N.of_nat].
    destruct (Cli.waitForBuy poll buyId 0 3) as [tw rw].
    unfold Cli.actions, Cli.result in Hr, Hf, Hs. cbn [fst snd] in Hr, Hf, Hs.
    subst rw. split_footprint Hf.
    destruct (Buy.placeAndStart place_order sym quantity takeProfitPrice stopLossPrice)
      as [tp rp].
    unfold events, outcome in Ho, Hp. cbn [fst snd] in Ho, Hp. subst rp.
    split_footprint Hp.
    destruct b; cli_step; push_all;
      rewrite ?Hplaced, ?Hplaced0, ?Hplaced1, ?Hcancelled, ?Hcancelled0, ?Hcancelled1,
        ?Hfetches, ?Hfetches0, ?Hfetches1, ?Hmonitors, ?Hmonitors0, ?Hmonitors1, ?Hs;
      cbn -[N.mul N.of_nat];
      (split; [reflexivity|]); (split; [eexists; reflexivity|]);
      (split; [reflexivity|]); (split; [lia|]); (split; [lia|reflexivity]).
  - cli_step. push_all. rewrite Hplaced, Hcancelled, Hfetches, Hmonitors. auto.
Qed.

(** The exit prices are rounded as binary64 rounds them: 6.25 % off 532.8
    is a hair under 499.5 and gives 499 rupees, 0.05 % off 1000 is a hair
    above 999.5 and gives 1000. *)
Lemma exit_prices_follow_binary64 :
  fst (Cli.shortExitPrices (JS.Num (5328 # 10)) (JS.Num (625 # 100)) (JS.Num (35 # 100)))
  = JS.Num 499
  /\ snd (Cli.buyExitPrices (JS.Num 1000) (JS.Num (75 # 100)) (JS.Num (5 # 100)))
     = JS.Num 1000
  /\ Cli.buyExitPrices (JS.Num 500) (JS.Num (3 # 4)) (JS.Num (7 # 20))
     = (JS.Num 504, JS.Num 498).
Proof. repeat split; vm_compute; reflexivity. Qed.

(** X1.  With the exit prices rounded as binary64 rounds them, and coming
    out as numbers short of [2^52] rupees, [buyWithTPSLAndMonitor] never
    throws and never cancels.  If the entry placement (buy, limit at the
    given price) throws, that call is all it does: no poll, no exit order,
    no monitor.  If the entry is placed, it polls between one and three
    times, ten seconds apart, and then - whether or not the entry was seen
    executed - calls [placeOrder] for the take-profit order (sell, limit at
    the take-profit price) and for the stop-loss order (sell, stop-limit at
    the stop-loss price, trigger fifty paise above it) and starts one
    monitor. *)
Theorem X1_buy_bracket_all_or_nothing
    (place_order : Order -> Response) (poll : nat -> OrdersResponse)
    (sym : string) (quantity price tpPercent slPercent : JS.num) :
  let takeProfitPrice := fst (Cli.buyExitPrices price tpPercent slPercent) in
  let stopLossPrice := snd (Cli.buyExitPrices price tpPercent slPercent) in
  Cli.rupees takeProfitPrice && Cli.rupees stopLossPrice = true ->
  let run := Cli.buyWithTPSLAndMonitor place_order poll sym quantity price
               tpPercent slPercent in
  let entry :=
    {| od_symbol := JS.toUpperCase sym; od_quantity := quantity;
       od_side := 1%Z; od_type := 1%Z;
       od_limitPrice := Some price; od_stopPrice := None;
       od_productType := "INTRADAY"; od_validity := "DAY" |} in
  cancelCalls (Cli.calls (Cli.actions run)) = []
  /\ match outcome (OrderService.placeOrder place_order entry) with
     | Throw _ =>
         Cli.result run = Cli.Done None
         /\ placeCalls (Cli.calls (Cli.actions run)) = [entry]
         /\ fetches (Cli.calls (Cli.actions run)) = 0%nat
         /\ monitorsStarted (Cli.calls (Cli.actions run)) = 0%nat
     | Ok _ =>
         (exists ids, Cli.result run = Cli.Done (Some ids))
         /\ placeCalls (Cli.calls (Cli.actions run))
            = [entry;
               {| od_symbol := JS.toUpperCase sym; od_quantity := quantity;
                  od_side := (-1)%Z; od_type := 1%Z;
                  od_limitPrice := Some takeProfitPrice; od_stopPrice := None;
                  od_productType := "INTRADAY"; od_validity := "DAY" |};
               {| od_symbol := JS.toUpperCase sym; od_quantity := quantity;
                  od_side := (-1)%Z; od_type := 3%Z;
                  od_limitPrice := Some stopLossPrice;
                  od_stopPrice := Some (JS.add stopLossPrice (JS.Num (1 # 2)));
                  od_productType := "INTRADAY"; od_validity := "DAY" |}]
         /\ (1 <= fetches (Cli.calls (Cli.actions run)) <= 3)%nat
         /\ Cli.slept (Cli.actions run)
            = (10000 * N.of_nat (fetches (Cli.calls (Cli.actions run))))%N
         /\ monitorsStarted (Cli.calls (Cli.actions run)) = 1%nat
     end.
Proof.
  intros takeProfitPrice stopLossPrice _ run entry.
  exact (buy_bracket_summary place_order poll sym quantity price tpPercent slPercent).
Qed.

Lemma X1_buy_bracket_witness :
  Cli.rupees (fst (Cli.buyExitPrices (JS.Num 500) (JS.Num (3 # 4)) (JS.Num (7 # 20))))
  && Cli.rupees (snd (Cli.buyExitPrices (JS.Num 500) (JS.Num (3 # 4)) (JS.Num (7 # 20))))
  = true
  /\ placeCalls (Cli.calls (Cli.actions
                   (Cli.buyWithTPSLAndMonitor CliSample.acceptAll
                      (CliSample.secondPoll "COMPLETE") "NSE:SBIN-EQ" (JS.Num 10)
                      (JS.Num 500) (JS.Num (3 # 4)) (JS.Num (7 # 20)))))
     = [{| od_symbol := "NSE:SBIN-EQ"; od_quantity := JS.Num 10;
           od_side := 1%Z; od_type := 1%Z;
           od_limitPrice := Some (JS.Num 500); od_stopPrice := None;
           od_productType := "INTRADAY"; od_validity := "DAY" |};
        {| od_symbol := "NSE:SBIN-EQ"; od_quantity := JS.Num 10;
           od_side := (-1)%Z; od_type := 1%Z;
           od_limitPrice := Some (JS.Num 504); od_stopPrice := None;
           od_productType := "INTRADAY"; od_validity := "DAY" |};
        {| od_symbol := "NSE:SBIN-EQ"; od_quantity := JS.Num 10;
           od_side := (-1)%Z; od_type := 3%Z;
           od_limitPrice := Some (JS.Num 498);
           od_stopPrice := Some (JS.Num (997 # 2));
           od_productType := "INTRADAY"; od_validity := "DAY" |}].
Proof.
  split; [vm_compute; reflexivity|].
  pose proof (X1_buy_bracket_all_or_nothing CliSample.acceptAll
                (CliSample.secondPoll "COMPLETE") "NSE:SBIN-EQ" (JS.Num 10)
                (JS.Num 500) (JS.Num (3 # 4)) (JS.Num (7 # 20))) as H.
  cbv zeta in H. specialize (H ltac:(vm_compute; reflexivity)).
  destruct H as [_ H].
  change (outcome (OrderService.placeOrder CliSample.acceptAll
                     {| od_symbol := JS.toUpperCase "NSE:SBIN-EQ";
                        od_quantity := JS.Num 10; od_side := 1%Z; od_type := 1%Z;
                        od_limitPrice := Some (JS.Num 500); od_stopPrice := None;
                        od_productType := "INTRADAY"; od_validity := "DAY" |}))
    with (@Ok string "E1") in H.
  destruct H as (_ & H & _). rewrite H. vm_compute. reflexivity.
Defined.

(** What [shortSellWithTPSLAndMonitor] does once the entry order is placed
    and the wait loop has ended: nothing more if the entry was seen
    cancelled, the placement step otherwise. *)
Lemma short_bracket_after_entry
    (place_order : Order -> Response) (poll : nat -> OrdersResponse)
    (sym : string) (quantity price tpPercent slPercent : JS.num)
    (t0 : list Event) (shortId : string) (tw : list Cli.Action) (waited : Cli.Waited) :
  OrderService.placeOrder place_order (Cli.shortEntryOrder sym quantity)
    = (t0, Ok shortId) ->
  Cli.waitForShort poll shortId 0 6 = (tw, Cli.Done waited) ->
  let run := Cli.shortSellWithTPSLAndMonitor place_order poll sym quantity
               (Some price) tpPercent slPercent in
  let exits := Short.placeAndStart place_order sym quantity
                 (fst (Cli.shortExitPrices price tpPercent slPercent))
                 (snd (Cli.shortExitPrices price tpPercent slPercent)) in
  Cli.calls (Cli.actions run)
    = t0 ++ Cli.calls tw ++ match waited with
                            | Cli.EntryCancelled => []
                            | _ => events exits
                            end
  /\ Cli.slept (Cli.actions run) = Cli.slept tw
  /\ Cli.result run
     = match waited with
       | Cli.EntryCancelled => Cli.Done None
       | _ => match outcome exits with
              | Ok ids => Cli.Done (Some ids)
              | Throw _ => Cli.Done None
              end
       end.
Proof.
  intros He Hw run exits. subst run exits.
  unfold Cli.shortSellWithTPSLAndMonitor. cbv zeta.
  set (takeProfitPrice := fst (Cli.shortExitPrices price tpPercent slPercent)).
  set (stopLossPrice := snd (Cli.shortExitPrices price tpPercent slPercent)).
  clearbody takeProfitPrice stopLossPrice.
  rewrite He.
  cbn -[Cli.waitForShort Short.placeAndStart N.add].
  rewrite Hw.
  destruct (Short.placeAndStart place_order sym quantity takeProfitPrice stopLossPrice)
    as [tp [ids|e]];
    destruct waited; cbn -[N.add]; push_all; unfold events; cbn [fst];
    rewrite ?app_nil_r, ?N.add_0_r; auto.
Qed.

Lemma buy_bracket_after_entry
    (place_order : Order -> Response) (poll : nat -> OrdersResponse)
    (sym : string) (quantity price tpPercent slPercent : JS.num)
    (t0 : list Event) (buyId : string) (tw : list Cli.Action) (buyExecuted : bool) :
  OrderService.placeOrder place_order (Cli.buyEntryOrder sym quantity price)
    = (t0, Ok buyId) ->
  Cli.waitForBuy poll buyId 0 3 = (tw, Cli.Done buyExecuted) ->
  let run := Cli.buyWithTPSLAndMonitor place_order poll sym quantity price
               tpPercent slPercent in
  let exits := Buy.placeAndStart place_order sym quantity
                 (fst (Cli.buyExitPrices price tpPercent slPercent))
                 (snd (Cli.buyExitPrices price tpPercent slPercent)) in
  Cli.calls (Cli.actions run) = t0 ++ Cli.calls tw ++ events exits
  /\ Cli.slept (Cli.actions run) = Cli.slept tw.
Proof.
  intros He Hw run exits. subst run exits.
  unfold Cli.buyWithTPSLAndMonitor. cbv zeta.
  set (takeProfitPrice := fst (Cli.buyExitPrices price tpPercent slPercent)).
  set (stopLossPrice := snd (Cli.buyExitPrices price tpPercent slPercent)).
  clearbody takeProfitPrice stopLossPrice.
  rewrite He.
  cbn -[Cli.waitForBuy Buy.placeAndStart N.add].
  rewrite Hw.
  destruct (Buy.placeAndStart place_order sym quantity takeProfitPrice stopLossPrice)
    as [tp [ids|e]];
    destruct buyExecuted; cbn -[N.add]; push_all; unfold events; cbn [fst];
    rewrite ?app_nil_r, ?N.add_0_r; auto.
Qed.

Lemma waitForShort_undecided (poll : nat -> OrdersResponse) (shortId : string)
    (remaining : nat) :
  forall attempts,
    (forall i, (i < remaining)%nat -> decides (poll (S (attempts + i))) shortId = None) ->
    Cli.result (Cli.waitForShort poll shortId attempts remaining)
      = Cli.Done Cli.EntryUnclear
    /\ fetches (Cli.calls (Cli.actions (Cli.waitForShort poll shortId attempts remaining)))
       = remaining.
Proof.
  induction remaining as [|n IH]; intros attempts Hall; [split; reflexivity|].
  assert (H0 : decides (poll (S attempts)) shortId = None).
  { rewrite <- (Nat.add_0_r attempts). apply Hall. lia. }
  destruct (IH (S attempts)) as (Hr & Hf).
  { intros i Hi. replace (S attempts + i)%nat with (attempts + S i)%nat by lia.
    apply Hall. lia. }
  cbn [Cli.waitForShort].
  destruct (Cli.waitForShort poll shortId (S attempts) n) as [tr r].
  unfold Cli.actions, Cli.result in Hr, Hf. cbn [fst snd] in Hr, Hf. subst r.
  unfold decides, shown in H0.
  destruct (poll (S attempts)) as [book|m|m].
  - destruct (executed (findOrder book (Some shortId))) eqn:Hx; [discriminate|].
    destruct (Cli.cancelled (findOrder book (Some shortId))) eqn:Hc; [discriminate|].
    unfold OrderService.getOrders. cli_step. rewrite Hx, Hc. cli_step.
    split; [reflexivity|]. push_all. cbn in Hf |- *. rewrite Hf. reflexivity.
  - unfold OrderService.getOrders. cli_step.
    split; [reflexivity|]. push_all. cbn in Hf |- *. rewrite Hf. reflexivity.
  - unfold OrderService.getOrders. cli_step.
    split; [reflexivity|]. push_all. cbn in Hf |- *. rewrite Hf. reflexivity.
Qed.

(** The course of [shortSellWithTPSLAndMonitor]. *)
Lemma short_bracket_summary
    (place_order : Order -> Response) (poll : nat -> OrdersResponse)
    (sym : string) (quantity : JS.num) (price : option JS.num)
    (tpPercent slPercent : JS.num) :
  let run := Cli.shortSellWithTPSLAndMonitor place_order poll sym quantity price
               tpPercent slPercent in
  let entry := Cli.shortEntryOrder sym quantity in
  cancelCalls (Cli.calls (Cli.actions run)) = []
  /\ (fetches (Cli.calls (Cli.actions run)) <= 6)%nat
  /\ Cli.slept (Cli.actions run)
     = (10000 * N.of_nat (fetches (Cli.calls (Cli.actions run))))%N
  /\ ((Cli.result run = Cli.Done None
       /\ monitorsStarted (Cli.calls (Cli.actions run)) = 0%nat
       /\ (placeCalls (Cli.calls (Cli.actions run)) = []
           \/ placeCalls (Cli.calls (Cli.actions run)) = [entry]))
      \/ (exists p ids,
             price = Some p
             /\ Cli.result run = Cli.Done (Some ids)
             /\ monitorsStarted (Cli.calls (Cli.actions run)) = 1%nat
             /\ placeCalls (Cli.calls (Cli.actions run))
                = [entry;
                   Short.takeProfitOrder sym quantity
                     (fst (Cli.shortExitPrices p tpPercent slPercent));
                   Short.stopLossOrder sym quantity
                     (snd (Cli.shortExitPrices p tpPercent slPercent));
                   Short.stopLossFallbackOrder sym quantity
                     (snd (Cli.shortExitPrices p tpPercent slPercent))])).
Proof.
  intros run entry. subst run entry.
  destruct price as [p|].
  2:{ cbn. repeat split; auto; try lia. }
  destruct (placeOrder_footprint place_order (Cli.shortEntryOrder sym quantity))
    as (k0 & H0).
  destruct (OrderService.placeOrder place_order (Cli.shortEntryOrder sym quantity))
    as [t0 [shortId|e0]] eqn:He;
    unfold events in H0; cbn [fst] in H0; split_footprint H0.
  - destruct (waitForShort_footprint poll shortId 0 6)
      as (w & k & Hr & Hf & Hk & _ & Hs & _).
    destruct (Cli.waitForShort poll shortId 0 6) as [tw rw] eqn:Hw.
    unfold Cli.actions, Cli.result in Hr, Hf, Hs. cbn [fst snd] in Hr, Hf, Hs.
    subst rw. split_footprint Hf.
    destruct (short_bracket_after_entry place_order poll sym quantity p
                tpPercent slPercent t0 shortId tw w He Hw) as (Ec & Esl & Er).
    cbv zeta in Ec, Esl, Er. rewrite Ec, Esl, Er.
    remember (fst (Cli.shortExitPrices p tpPercent slPercent)) as takeProfitPrice
      eqn:Etp.
    remember (snd (Cli.shortExitPrices p tpPercent slPercent)) as stopLossPrice
      eqn:Esp.
    destruct (short_placeAndStart_footprint place_order sym quantity
                takeProfitPrice stopLossPrice)
      as (ids & k1 & Ho & Hp).
    rewrite Ho. split_footprint Hp.
    rewrite !cancelCalls_app, !fetches_app, !monitorsStarted_app, !placeCalls_app.
    rewrite Hplaced, Hcancelled, Hfetches, Hmonitors, Hplaced0, Hcancelled0,
      Hfetches0, Hmonitors0, Hs.
    destruct w; cbn -[N.mul N.of_nat];
      rewrite ?Hplaced1, ?Hcancelled1, ?Hfetches1, ?Hmonitors1, ?Nat.add_0_r;
      (split; [reflexivity|]); (split; [lia|]); (split; [reflexivity|]);
      solve [ left; auto | right; exists p, ids; subst takeProfitPrice stopLossPrice;
                           auto ].
  - unfold Cli.shortSellWithTPSLAndMonitor. cbv zeta. rewrite He.
    cli_step. push_all. rewrite Hplaced, Hcancelled, Hfetches, Hmonitors.
    repeat split; auto; try lia.
Qed.

(** X2.  With the exit prices rounded as binary64 rounds them, and coming
    out as numbers short of [2^52] rupees, [shortSellWithTPSLAndMonitor]
    never throws and never cancels, and polls at most six times, ten
    seconds apart.  Either it starts no monitor and has called
    [placeOrder] not at all or only for the entry order (a market sell,
    whatever price was given), or it starts exactly one monitor after four
    placement calls: the entry, the take-profit order (buy, limit), the
    stop-limit order (buy, trigger fifty paise below its limit) and the
    stop-market fallback (buy, trigger at the stop-loss price), the exit
    orders at the prices computed from the reference price. *)
Theorem X2_short_bracket_all_or_nothing
    (place_order : Order -> Response) (poll : nat -> OrdersResponse)
    (sym : string) (quantity : JS.num) (price : option JS.num)
    (tpPercent slPercent : JS.num) :
  match price with
  | Some p =>
      Cli.rupees (fst (Cli.shortExitPrices p tpPercent slPercent))
      && Cli.rupees (snd (Cli.shortExitPrices p tpPercent slPercent)) = true
  | None => True
  end ->
  let run := Cli.shortSellWithTPSLAndMonitor place_order poll sym quantity price
               tpPercent slPercent in
  let entry :=
    {| od_symbol := JS.toUpperCase sym; od_quantity := quantity;
       od_side := (-1)%Z; od_type := 2%Z;
       od_limitPrice := None; od_stopPrice := None;
       od_productType := "INTRADAY"; od_validity := "DAY" |} in
  cancelCalls (Cli.calls (Cli.actions run)) = []
  /\ (fetches (Cli.calls (Cli.actions run)) <= 6)%nat
  /\ Cli.slept (Cli.actions run)
     = (10000 * N.of_nat (fetches (Cli.calls (Cli.actions run))))%N
  /\ ((Cli.result run = Cli.Done None
       /\ monitorsStarted (Cli.calls (Cli.actions run)) = 0%nat
       /\ (placeCalls (Cli.calls (Cli.actions run)) = []
           \/ placeCalls (Cli.calls (Cli.actions run)) = [entry]))
      \/ (exists p ids,
             price = Some p
             /\ Cli.result run = Cli.Done (Some ids)
             /\ monitorsStarted (Cli.calls (Cli.actions run)) = 1%nat
             /\ placeCalls (Cli.calls (Cli.actions run))
                = [entry;
                   {| od_symbol := JS.toUpperCase sym; od_quantity := quantity;
                      od_side := 1%Z; od_type := 1%Z;
                      od_limitPrice :=
                        Some (fst (Cli.shortExitPrices p tpPercent slPercent));
                      od_stopPrice := None;
                      od_productType := "INTRADAY"; od_validity := "DAY" |};
                   {| od_symbol := JS.toUpperCase sym; od_quantity := quantity;
                      od_side := 1%Z; od_type := 3%Z;
                      od_limitPrice :=
                        Some (snd (Cli.shortExitPrices p tpPercent slPercent));
                      od_stopPrice :=
                        Some (JS.sub (snd (Cli.shortExitPrices p tpPercent slPercent))
                                     (JS.Num (1 # 2)));
                      od_productType := "INTRADAY"; od_validity := "DAY" |};
                   {| od_symbol := JS.toUpperCase sym; od_quantity := quantity;
                      od_side := 1%Z; od_type := 4%Z;
                      od_limitPrice := None;
                      od_stopPrice :=
                        Some (snd (Cli.shortExitPrices p tpPercent slPercent));
                      od_productType := "INTRADAY"; od_validity := "DAY" |}])).
Proof.
  intros _ run entry.
  exact (short_bracket_summary place_order poll sym quantity price tpPercent slPercent).
Qed.

Lemma X2_short_bracket_witness :
  Cli.rupees (fst (Cli.shortExitPrices (JS.Num (5328 # 10)) (JS.Num (625 # 100))
                     (JS.Num (35 # 100))))
  && Cli.rupees (snd (Cli.shortExitPrices (JS.Num (5328 # 10)) (JS.Num (625 # 100))
                        (JS.Num (35 # 100)))) = true
  /\ placeCalls (Cli.calls (Cli.actions
                   (Cli.shortSellWithTPSLAndMonitor CliSample.acceptAll
                      CliSample.neverFilled "NSE:SBIN-EQ" (JS.Num 10)
                      (Some (JS.Num (5328 # 10))) (JS.Num (625 # 100))
                      (JS.Num (35 # 100)))))
     = [{| od_symbol := "NSE:SBIN-EQ"; od_quantity := JS.Num 10;
           od_side := (-1)%Z; od_type := 2%Z;
           od_limitPrice := None; od_stopPrice := None;
           od_productType := "INTRADAY"; od_validity := "DAY" |};
        {| od_symbol := "NSE:SBIN-EQ"; od_quantity := JS.Num 10;
           od_side := 1%Z; od_type := 1%Z;
           od_limitPrice := Some (JS.Num 499); od_stopPrice := None;
           od_productType := "INTRADAY"; od_validity := "DAY" |};
        {| od_symbol := "NSE:SBIN-EQ"; od_quantity := JS.Num 10;
           od_side := 1%Z; od_type := 3%Z;
           od_limitPrice := Some (JS.Num 535);
           od_stopPrice := Some (JS.Num (1069 # 2));
           od_productType := "INTRADAY"; od_validity := "DAY" |};
        {| od_symbol := "NSE:SBIN-EQ"; od_quantity := JS.Num 10;
           od_side := 1%Z; od_type := 4%Z;
           od_limitPrice := None; od_stopPrice := Some (JS.Num 535);
           od_productType := "INTRADAY"; od_validity := "DAY" |}].
Proof.
  split; [vm_compute; reflexivity|].
  pose proof (X2_short_bracket_all_or_nothing CliSample.acceptAll
                CliSample.neverFilled "NSE:SBIN-EQ" (JS.Num 10)
                (Some (JS.Num (5328 # 10))) (JS.Num (625 # 100)) (JS.Num (35 # 100)))
    as H.
  cbv zeta in H. specialize (H ltac:(vm_compute; reflexivity)).
  destruct H as (_ & _ & _ & [(H & _)|(p & ids & Hp & _ & _ & H)]).
  - vm_compute in H. discriminate H.
  - injection Hp as <-. rewrite H. vm_compute. reflexivity.
Defined.

(** X3.  When the entry of a short bracket is placed and the first poll
    that shows it executed or cancelled is poll number [undecided + 1] of
    the six, no poll is made after that one.  If it shows the entry
    cancelled the function stops there: only the entry was ever placed and
    no monitor runs.  If it shows it executed, the exit orders are placed
    and the monitor is started. *)
Theorem X3_short_first_decisive_poll
    (place_order : Order -> Response) (poll : nat -> OrdersResponse)
    (sym : string) (quantity price tpPercent slPercent : JS.num)
    (shortId : string) (undecided : nat) (waited : Cli.Waited) :
  outcome (OrderService.placeOrder place_order (Cli.shortEntryOrder sym quantity))
    = Ok shortId ->
  (undecided < 6)%nat ->
  (forall i, (i < undecided)%nat -> decides (poll (S i)) shortId = None) ->
  decides (poll (S undecided)) shortId = Some waited ->
  let run := Cli.shortSellWithTPSLAndMonitor place_order poll sym quantity
               (Some price) tpPercent slPercent in
  fetches (Cli.calls (Cli.actions run)) = S undecided
  /\ match waited with
     | Cli.EntryCancelled =>
         Cli.result run = Cli.Done None
         /\ placeCalls (Cli.calls (Cli.actions run)) = [Cli.shortEntryOrder sym quantity]
         /\ monitorsStarted (Cli.calls (Cli.actions run)) = 0%nat
     | _ =>
         (exists ids, Cli.result run = Cli.Done (Some ids))
         /\ List.length (placeCalls (Cli.calls (Cli.actions run))) = 4%nat
         /\ monitorsStarted (Cli.calls (Cli.actions run)) = 1%nat
     end.
Proof.
  intros He Hlt Hbefore Hnow run. subst run.
  destruct (placeOrder_footprint place_order (Cli.shortEntryOrder sym quantity))
    as (k0 & H0).
  destruct (OrderService.placeOrder place_order (Cli.shortEntryOrder sym quantity))
    as [t0 r0] eqn:Hp0.
  unfold outcome in He. unfold events in H0. cbn [fst snd] in He, H0. subst r0.
  split_footprint H0.
  destruct (waitForShort_decided poll shortId waited undecided 0 6 Hlt Hbefore Hnow)
    as (Hr & Hfe).
  destruct (waitForShort_footprint poll shortId 0 6)
    as (w & k & Hr' & Hf & _).
  destruct (Cli.waitForShort poll shortId 0 6) as [tw rw] eqn:Hw.
  unfold Cli.actions, Cli.result in Hr, Hfe, Hr', Hf. cbn [fst snd] in Hr, Hfe, Hr', Hf.
  subst rw. injection Hr' as <-. split_footprint Hf.
  destruct (short_bracket_after_entry place_order poll sym quantity price
              tpPercent slPercent t0 shortId tw waited Hp0 Hw) as (Ec & _ & Er).
  cbv zeta in Ec, Er. rewrite Ec, Er.
  remember (fst (Cli.shortExitPrices price tpPercent slPercent)) as takeProfitPrice
    eqn:Etp.
  remember (snd (Cli.shortExitPrices price tpPercent slPercent)) as stopLossPrice
    eqn:Esp.
  destruct (short_placeAndStart_footprint place_order sym quantity
              takeProfitPrice stopLossPrice)
    as (ids & k1 & Ho & Hp).
  rewrite Ho. split_footprint Hp.
  rewrite !fetches_app, !monitorsStarted_app, !placeCalls_app.
  rewrite Hplaced, Hfetches, Hmonitors, Hplaced0, Hfe, Hmonitors0.
  destruct waited; cbn;
    rewrite ?Hplaced1, ?Hfetches1, ?Hmonitors1, ?Nat.add_0_r; eauto.
Qed.

Lemma X3_short_first_decisive_poll_witness :
  fetches (Cli.calls (Cli.actions
             (Cli.shortSellWithTPSLAndMonitor CliSample.acceptAll
                (CliSample.secondPoll "CANCELLED") "NSE:SBIN-EQ" (JS.Num 10)
                (Some (JS.Num 500)) (JS.Num (3 # 4)) (JS.Num (7 # 20))))) = 2%nat
  /\ (Cli.result (Cli.shortSellWithTPSLAndMonitor CliSample.acceptAll
                    (CliSample.secondPoll "CANCELLED") "NSE:SBIN-EQ" (JS.Num 10)
                    (Some (JS.Num 500)) (JS.Num (3 # 4)) (JS.Num (7 # 20)))
      = Cli.Done None
      /\ placeCalls (Cli.calls (Cli.actions
                       (Cli.shortSellWithTPSLAndMonitor CliSample.acceptAll
                          (CliSample.secondPoll "CANCELLED") "NSE:SBIN-EQ" (JS.Num 10)
                          (Some (JS.Num 500)) (JS.Num (3 # 4)) (JS.Num (7 # 20)))))
         = [Cli.shortEntryOrder "NSE:SBIN-EQ" (JS.Num 10)]
      /\ monitorsStarted (Cli.calls (Cli.actions
                            (Cli.shortSellWithTPSLAndMonitor CliSample.acceptAll
                               (CliSample.secondPoll "CANCELLED") "NSE:SBIN-EQ"
                               (JS.Num 10) (Some (JS.Num 500)) (JS.Num (3 # 4))
                               (JS.Num (7 # 20))))) = 0%nat).
Proof.
  apply (X3_short_first_decisive_poll CliSample.acceptAll
           (CliSample.secondPoll "CANCELLED") "NSE:SBIN-EQ" (JS.Num 10) (JS.Num 500)
           (JS.Num (3 # 4)) (JS.Num (7 # 20)) "E1" 1 Cli.EntryCancelled).
  - reflexivity.
  - lia.
  - intros i Hi. destruct i as [|i]; [reflexivity|lia].
  - reflexivity.
Defined.

(** X4.  When the entry of a short bracket is placed and none of the six
    polls shows it executed or cancelled (failed polls included), the
    function sleeps the full minute and then goes on regardless: the exit
    orders are placed and the monitor is started. *)
Theorem X4_short_unclear_entry_proceeds
    (place_order : Order -> Response) (poll : nat -> OrdersResponse)
    (sym : string) (quantity price tpPercent slPercent : JS.num)
    (shortId : string) :
  outcome (OrderService.placeOrder place_order (Cli.shortEntryOrder sym quantity))
    = Ok shortId ->
  (forall i, (i < 6)%nat -> decides (poll (S i)) shortId = None) ->
  let run := Cli.shortSellWithTPSLAndMonitor place_order poll sym quantity
               (Some price) tpPercent slPercent in
  fetches (Cli.calls (Cli.actions run)) = 6%nat
  /\ Cli.slept (Cli.actions run) = 60000%N
  /\ (exists ids, Cli.result run = Cli.Done (Some ids))
  /\ List.length (placeCalls (Cli.calls (Cli.actions run))) = 4%nat
  /\ monitorsStarted (Cli.calls (Cli.actions run)) = 1%nat.
Proof.
  intros He Hall run. subst run.
  destruct (placeOrder_footprint place_order (Cli.shortEntryOrder sym quantity))
    as (k0 & H0).
  destruct (OrderService.placeOrder place_order (Cli.shortEntryOrder sym quantity))
    as [t0 r0] eqn:Hp0.
  unfold outcome in He. unfold events in H0. cbn [fst snd] in He, H0. subst r0.
  split_footprint H0.
  destruct (waitForShort_undecided poll shortId 6 0 Hall) as (Hr & Hfe).
  destruct (waitForShort_footprint poll shortId 0 6)
    as (w & k & Hr' & Hf & _ & _ & Hs & _).
  destruct (Cli.waitForShort poll shortId 0 6) as [tw rw] eqn:Hw.
  unfold Cli.actions, Cli.result in Hr, Hfe, Hr', Hf, Hs.
  cbn [fst snd] in Hr, Hfe, Hr', Hf, Hs.
  subst rw. injection Hr' as <-. split_footprint Hf.
  destruct (short_bracket_after_entry place_order poll sym quantity price
              tpPercent slPercent t0 shortId tw Cli.EntryUnclear Hp0 Hw)
    as (Ec & Esl & Er).
  cbv zeta in Ec, Esl, Er. rewrite Ec, Esl, Er.
  remember (fst (Cli.shortExitPrices price tpPercent slPercent)) as takeProfitPrice
    eqn:Etp.
  remember (snd (Cli.shortExitPrices price tpPercent slPercent)) as stopLossPrice
    eqn:Esp.
  destruct (short_placeAndStart_footprint place_order sym quantity
              takeProfitPrice stopLossPrice)
    as (ids & k1 & Ho & Hp).
  rewrite Ho. split_footprint Hp.
  rewrite !fetches_app, !monitorsStarted_app, !placeCalls_app.
  rewrite Hplaced, Hfetches, Hmonitors, Hplaced0, Hfe, Hmonitors0, Hs.
  rewrite <- Hfetches0, Hfe. cbn.
  rewrite Hplaced1, Hfetches1, Hmonitors1. cbn. eauto 6.
Qed.

Lemma X4_short_unclear_entry_witness :
  fetches (Cli.calls (Cli.actions
             (Cli.shortSellWithTPSLAndMonitor CliSample.acceptAll CliSample.neverFilled
                "NSE:SBIN-EQ" (JS.Num 10) (Some (JS.Num 500))
                (JS.Num (3 # 4)) (JS.Num (7 # 20))))) = 6%nat
  /\ Cli.slept (Cli.actions
                  (Cli.shortSellWithTPSLAndMonitor CliSample.acceptAll
                     CliSample.neverFilled "NSE:SBIN-EQ" (JS.Num 10)
                     (Some (JS.Num 500)) (JS.Num (3 # 4)) (JS.Num (7 # 20))))
     = 60000%N
  /\ (exists ids,
         Cli.result (Cli.shortSellWithTPSLAndMonitor CliSample.acceptAll
                       CliSample.neverFilled "NSE:SBIN-EQ" (JS.Num 10)
                       (Some (JS.Num 500)) (JS.Num (3 # 4)) (JS.Num (7 # 20)))
         = Cli.Done (Some ids))
  /\ List.length (placeCalls (Cli.calls (Cli.actions
                    (Cli.shortSellWithTPSLAndMonitor CliSample.acceptAll
                       CliSample.neverFilled "NSE:SBIN-EQ" (JS.Num 10)
                       (Some (JS.Num 500)) (JS.Num (3 # 4)) (JS.Num (7 # 20))))))
     = 4%nat
  /\ monitorsStarted (Cli.calls (Cli.actions
                        (Cli.shortSellWithTPSLAndMonitor CliSample.acceptAll
                           CliSample.neverFilled "NSE:SBIN-EQ" (JS.Num 10)
                           (Some (JS.Num 500)) (JS.Num (3 # 4)) (JS.Num (7 # 20)))))
     = 1%nat.
Proof.
  apply (X4_short_unclear_entry_proceeds CliSample.acceptAll CliSample.neverFilled
           "NSE:SBIN-EQ" (JS.Num 10) (JS.Num 500) (JS.Num (3 # 4)) (JS.Num (7 # 20))
           "E1").
  - reflexivity.
  - intros i Hi. reflexivity.
Defined.

(** X5.  When the entry of a buy bracket is placed and the first poll that
    shows it executed is poll number [unfilled + 1] of the three, the wait
    ends with that poll: no poll is made after it, ten seconds were slept
    per poll, and the exit orders and the monitor follow. *)
Theorem X5_buy_first_executed_poll
    (place_order : Order -> Response) (poll : nat -> OrdersResponse)
    (sym : string) (quantity price tpPercent slPercent : JS.num)
    (buyId : string) (unfilled : nat) :
  outcome (OrderService.placeOrder place_order (Cli.buyEntryOrder sym quantity price))
    = Ok buyId ->
  (unfilled < 3)%nat ->
  (forall i, (i < unfilled)%nat -> executed (shown (poll (S i)) buyId) = false) ->
  executed (shown (poll (S unfilled)) buyId) = true ->
  let run := Cli.buyWithTPSLAndMonitor place_order poll sym quantity price
               tpPercent slPercent in
  fetches (Cli.calls (Cli.actions run)) = S unfilled
  /\ Cli.slept (Cli.actions run) = (10000 * N.of_nat (S unfilled))%N
  /\ List.length (placeCalls (Cli.calls (Cli.actions run))) = 3%nat
  /\ monitorsStarted (Cli.calls (Cli.actions run)) = 1%nat.
Proof.
  intros He Hlt Hbefore Hnow run. subst run.
  destruct (placeOrder_footprint place_order (Cli.buyEntryOrder sym quantity price))
    as (k0 & H0).
  destruct (OrderService.placeOrder place_order (Cli.buyEntryOrder sym quantity price))
    as [t0 r0] eqn:Hp0.
  unfold outcome in He. unfold events in H0. cbn [fst snd] in He, H0. subst r0.
  split_footprint H0.
  destruct (waitForBuy_decided poll buyId unfilled 0 3 Hlt Hbefore Hnow) as (Hr & Hfe).
  destruct (waitForBuy_footprint poll buyId 0 3)
    as (b & k & Hr' & Hf & _ & _ & Hs & _).
  destruct (Cli.waitForBuy poll buyId 0 3) as [tw rw] eqn:Hw.
  unfold Cli.actions, Cli.result in Hr, Hfe, Hr', Hf, Hs.
  cbn [fst snd] in Hr, Hfe, Hr', Hf, Hs.
  subst rw. injection Hr' as <-. split_footprint Hf.
  destruct (buy_bracket_after_entry place_order poll sym quantity price
              tpPercent slPercent t0 buyId tw true Hp0 Hw) as (Ec & Esl).
  cbv zeta in Ec, Esl. rewrite Ec, Esl.
  remember (fst (Cli.buyExitPrices price tpPercent slPercent)) as takeProfitPrice
    eqn:Etp.
  remember (snd (Cli.buyExitPrices price tpPercent slPercent)) as stopLossPrice
    eqn:Esp.
  destruct (buy_placeAndStart_footprint place_order sym quantity
              takeProfitPrice stopLossPrice)
    as (ids & k1 & Ho & Hp).
  split_footprint Hp.
  rewrite !fetches_app, !monitorsStarted_app, !placeCalls_app.
  rewrite Hplaced, Hfetches, Hmonitors, Hplaced0, Hfe, Hmonitors0, Hs.
  rewrite <- Hfetches0, Hfe. cbn -[N.mul N.of_nat].
  rewrite Hplaced1, Hfetches1, Hmonitors1. cbn -[N.mul N.of_nat].
  rewrite Nat.add_0_r. auto.
Qed.

Lemma X5_buy_first_executed_poll_witness :
  fetches (Cli.calls (Cli.actions
             (Cli.buyWithTPSLAndMonitor CliSample.acceptAll
                (CliSample.secondPoll "COMPLETE") "NSE:SBIN-EQ" (JS.Num 10)
                (JS.Num 500) (JS.Num (3 # 4)) (JS.Num (7 # 20))))) = 2%nat
  /\ Cli.slept (Cli.actions
                  (Cli.buyWithTPSLAndMonitor CliSample.acceptAll
                     (CliSample.secondPoll "COMPLETE") "NSE:SBIN-EQ" (JS.Num 10)
                     (JS.Num 500) (JS.Num (3 # 4)) (JS.Num (7 # 20))))
     = (10000 * N.of_nat 2)%N
  /\ List.length (placeCalls (Cli.calls (Cli.actions
                    (Cli.buyWithTPSLAndMonitor CliSample.acceptAll
                       (CliSample.secondPoll "COMPLETE") "NSE:SBIN-EQ" (JS.Num 10)
                       (JS.Num 500) (JS.Num (3 # 4)) (JS.Num (7 # 20)))))) = 3%nat
  /\ monitorsStarted (Cli.calls (Cli.actions
                        (Cli.buyWithTPSLAndMonitor CliSample.acceptAll
                           (CliSample.secondPoll "COMPLETE") "NSE:SBIN-EQ" (JS.Num 10)
                           (JS.Num 500) (JS.Num (3 # 4)) (JS.Num (7 # 20))))) = 1%nat.
Proof.
  apply (X5_buy_first_executed_poll CliSample.acceptAll
           (CliSample.secondPoll "COMPLETE") "NSE:SBIN-EQ" (JS.Num 10) (JS.Num 500)
           (JS.Num (3 # 4)) (JS.Num (7 # 20)) "E1" 1).
  - reflexivity.
  - lia.
  - intros i Hi. destruct i as [|i]; [reflexivity|lia].
  - reflexivity.
Defined.

(** ** The cancel commands *)

Lemma cancelEach_footprint (cancel_order : string -> Response)
    (rows : list Cli.OrderRow) :
  Cli.result (Cli.cancelEach cancel_order rows) = Cli.Done tt
  /\ footprint (Cli.calls (Cli.actions (Cli.cancelEach cancel_order rows)))
     = {| fpPlaced := []; fpSdk := []; fpCancelled := rowTargets rows;
          fpFetches := 0; fpMonitors := 0 |}.
Proof.
  induction rows as [|r rest IH]; [split; reflexivity|].
  destruct IH as (Hr & Hf). cbn [Cli.cancelEach].
  destruct (Cli.cancelEach cancel_order rest) as [tr res].
  unfold Cli.actions, Cli.result in Hr, Hf. cbn [fst snd] in Hr, Hf. subst res.
  split_footprint Hf.
  unfold OrderService.cancelOrder.
  destruct (cancel_order (id (Cli.rowOrder r))); cli_step;
    (split; [reflexivity|]); unfold footprint; push_all;
    rewrite Hplaced, Hsdk, Hcancelled, Hfetches, Hmonitors; reflexivity.
Qed.

Lemma getOrderRows_cases (book : Cli.BookResponse) :
  match book with
  | Cli.BookOk rows =>
      Cli.getOrderRows book
      = ([Cli.Did EvGetOrders; Cli.Did (EvLogger LDebug)], Cli.Done rows)
  | _ =>
      exists f, Cli.getOrderRows book
                = ([Cli.Did EvGetOrders; Cli.Did (EvLogger LError)], Cli.Failed f)
  end.
Proof. destruct book; cbn; eauto. Qed.

Ltac cancel_loop cancel_order rows :=
  destruct (cancelEach_footprint cancel_order rows) as (?Hr & ?Hf);
  cbn -[Cli.cancelEach Cli.listPositions Cli.closeEach N.add];
  let tr := fresh "tr" in
  let res := fresh "res" in
  destruct (Cli.cancelEach cancel_order rows) as [tr res];
  unfold Cli.actions, Cli.result in Hr, Hf; cbn [fst snd] in Hr, Hf; subst res;
  split_footprint Hf; cli_step; push_all.

Lemma cancelAllOrders_summary
    (book : Cli.BookResponse) (cancel_order : string -> Response) :
  Cli.result (Cli.cancelAllOrders book cancel_order) = Cli.Done tt
  /\ cancelCalls (Cli.calls (Cli.actions (Cli.cancelAllOrders book cancel_order)))
     = rowTargets (filter Cli.isPending (bookRows book))
  /\ fetches (Cli.calls (Cli.actions (Cli.cancelAllOrders book cancel_order))) = 1%nat
  /\ placeCalls (Cli.calls (Cli.actions (Cli.cancelAllOrders book cancel_order))) = [].
Proof.
  unfold Cli.cancelAllOrders.
  pose proof (getOrderRows_cases book) as Hg.
  destruct book as [[rows|]|m|m]; cbn [bookRows].
  - rewrite Hg. cbn -[filter Cli.cancelEach].
    destruct (filter Cli.isPending rows) as [|r rest]; [cbn; auto|].
    cancel_loop cancel_order (r :: rest).
    rewrite Hplaced, Hcancelled, Hfetches. auto.
  - rewrite Hg. cbn. auto.
  - destruct Hg as (f & ->). cbn. auto.
  - destruct Hg as (f & ->). cbn. auto.
Qed.

(** X6.  [cancelAllOrders] never throws and places nothing.  It fetches the
    order book once and then calls [cancelOrder] on exactly the rows whose
    status is PENDING or OPEN, once each and in book order, whatever the
    brokerage answers to the individual cancels; when the fetch fails or
    the book is missing it cancels nothing. *)
Theorem X6_cancelAllOrders_cancels_exactly_pending
    (book : Cli.BookResponse) (cancel_order : string -> Response) :
  Cli.result (Cli.cancelAllOrders book cancel_order) = Cli.Done tt
  /\ cancelCalls (Cli.calls (Cli.actions (Cli.cancelAllOrders book cancel_order)))
     = rowTargets (filter Cli.isPending (bookRows book))
  /\ fetches (Cli.calls (Cli.actions (Cli.cancelAllOrders book cancel_order))) = 1%nat
  /\ placeCalls (Cli.calls (Cli.actions (Cli.cancelAllOrders book cancel_order))) = [].
Proof. exact (cancelAllOrders_summary book cancel_order). Qed.

Lemma cancelIntradayOrders_summary
    (book : Cli.BookResponse) (cancel_order : string -> Response) :
  Cli.result (Cli.cancelIntradayOrders book cancel_order) = Cli.Done tt
  /\ footprint (Cli.calls (Cli.actions (Cli.cancelIntradayOrders book cancel_order)))
     = {| fpPlaced := []; fpSdk := [];
          fpCancelled :=
            rowTargets
              (filter (fun r => Cli.isPending r && Cli.isIntraday (Cli.rowProductType r))
                      (bookRows book));
          fpFetches := 1; fpMonitors := 0 |}.
Proof.
  unfold Cli.cancelIntradayOrders.
  pose proof (getOrderRows_cases book) as Hg.
  destruct book as [[rows|]|m|m]; cbn [bookRows].
  - rewrite Hg. cbn -[filter Cli.cancelEach].
    destruct (filter (fun r => Cli.isPending r && Cli.isIntraday (Cli.rowProductType r))
                rows) as [|r rest]; [cbn; auto|].
    cancel_loop cancel_order (r :: rest). unfold footprint. push_all.
    rewrite Hplaced, Hsdk, Hcancelled, Hfetches, Hmonitors. auto.
  - rewrite Hg. cbn. auto.
  - destruct Hg as (f & ->). cbn. auto.
  - destruct Hg as (f & ->). cbn. auto.
Qed.

(** X7.  [cancelIntradayOrders] never throws; it calls [cancelOrder] on
    exactly the rows that are PENDING or OPEN and whose product type is
    INTRADAY or MIS, in book order.  Every order it cancels is one that
    [cancelAllOrders] would cancel on the same book. *)
Theorem X7_cancelIntradayOrders_cancels_intraday_pending
    (book : Cli.BookResponse) (cancel_order : string -> Response) :
  Cli.result (Cli.cancelIntradayOrders book cancel_order) = Cli.Done tt
  /\ cancelCalls (Cli.calls (Cli.actions (Cli.cancelIntradayOrders book cancel_order)))
     = rowTargets
         (filter (fun r => Cli.isPending r && Cli.isIntraday (Cli.rowProductType r))
                 (bookRows book))
  /\ incl (cancelCalls (Cli.calls (Cli.actions
                                     (Cli.cancelIntradayOrders book cancel_order))))
          (cancelCalls (Cli.calls (Cli.actions
                                     (Cli.cancelAllOrders book cancel_order))))
  /\ placeCalls (Cli.calls (Cli.actions (Cli.cancelIntradayOrders book cancel_order)))
     = [].
Proof.
  destruct (cancelIntradayOrders_summary book cancel_order) as (H1 & Hf).
  split_footprint Hf.
  destruct (cancelAllOrders_summary book cancel_order) as (_ & H4 & _).
  repeat split; auto.
  rewrite Hcancelled, H4. unfold rowTargets. apply incl_map.
  intros r Hin. apply filter_In in Hin. destruct Hin as [Hin Hp].
  apply andb_prop in Hp. destruct Hp as [Hp _].
  apply filter_In. auto.
Qed.

(** ** emergencyClose *)

Lemma closeEach_footprint (place_order : Order -> Response)
    (positions : list Cli.Position) :
  exists sdk,
    Cli.result (Cli.closeEach place_order positions) = Cli.Done tt
    /\ footprint (Cli.calls (Cli.actions (Cli.closeEach place_order positions)))
       = {| fpPlaced := map Cli.closeOrder positions; fpSdk := sdk;
            fpCancelled := []; fpFetches := 0; fpMonitors := 0 |}.
Proof.
  induction positions as [|p rest IH]; [exists []; split; reflexivity|].
  destruct IH as (sdk & Hr & Hf). cbn [Cli.closeEach].
  destruct (Cli.closeEach place_order rest) as [tr res].
  unfold Cli.actions, Cli.result in Hr, Hf. cbn [fst snd] in Hr, Hf. subst res.
  split_footprint Hf.
  destruct (placeOrder_footprint place_order (Cli.closeOrder p)) as (k0 & H0).
  destruct (OrderService.placeOrder place_order (Cli.closeOrder p)) as [t0 [oid|e]];
    unfold events in H0; cbn [fst] in H0; split_footprint H0;
    eexists; cli_step; (split; [reflexivity|]); unfold footprint; push_all;
    rewrite Hplaced, Hcancelled, Hfetches, Hmonitors,
      Hplaced0, Hcancelled0, Hfetches0, Hmonitors0; reflexivity.
Qed.

Lemma listPositions_cases (positions : list Cli.Position) :
  if forallb hasPl positions
  then exists tr, Cli.listPositions positions = (tr, Cli.Done tt) /\ Cli.calls tr = []
  else exists tr f, Cli.listPositions positions = (tr, Cli.Failed f) /\ Cli.calls tr = [].
Proof.
  induction positions as [|p rest IH]; [cbn; eexists; split; reflexivity|].
  cbn [forallb Cli.listPositions].
  assert (Hp : hasPl p = match Cli.pl p with Some _ => true | None => false end)
    by reflexivity.
  rewrite Hp. clear Hp.
  destruct (Cli.pl p) as [v|]; cbn [andb].
  - destruct (forallb hasPl rest).
    + destruct IH as (tr & -> & Hc). cbn. eexists; split; [reflexivity|exact Hc].
    + destruct IH as (tr & f & -> & Hc). cbn.
      do 2 eexists; split; [reflexivity|exact Hc].
  - cbn. do 2 eexists; split; reflexivity.
Qed.

(** X8.  When the positions call returns and every open intraday position
    carries its [pl], [emergencyClose] calls [placeOrder] once for each
    position whose [netQty] is not zero and whose product type is INTRADAY
    or MIS, in list order and with that position's closing order - a
    failed close does not stop the others - and then cancels the pending
    intraday orders of the book.  Positions of other product types are
    left alone, and nothing is thrown. *)
Theorem X8_emergencyClose_closes_open_intraday
    (positions : Cli.PositionsResponse) (place_order : Order -> Response)
    (book : Cli.BookResponse) (cancel_order : string -> Response) :
  positionsOk positions = true ->
  forallb hasPl (filter Cli.isOpenIntraday (Cli.allPositions positions)) = true ->
  let run := Cli.emergencyClose positions place_order book cancel_order in
  Cli.result run = Cli.Done tt
  /\ placeCalls (Cli.calls (Cli.actions run))
     = map Cli.closeOrder (filter Cli.isOpenIntraday (Cli.allPositions positions))
  /\ cancelCalls (Cli.calls (Cli.actions run))
     = rowTargets
         (filter (fun r => Cli.isPending r && Cli.isIntraday (Cli.rowProductType r))
                 (bookRows book))
  /\ fetches (Cli.calls (Cli.actions run)) = 1%nat.
Proof.
  intros Hok Hpl run. subst run. unfold Cli.emergencyClose.
  destruct (cancelIntradayOrders_summary book cancel_order) as (Hcr & Hcf).
  destruct (closeEach_footprint place_order
              (filter Cli.isOpenIntraday (Cli.allPositions positions)))
    as (sdk & Her & Hef).
  pose proof (listPositions_cases
                (filter Cli.isOpenIntraday (Cli.allPositions positions))) as Hl.
  rewrite Hpl in Hl. destruct Hl as (tl & Hl & Hlc).
  destruct positions as [a b c|m|m]; [|discriminate Hok|discriminate Hok].
  set (ps := filter Cli.isOpenIntraday (Cli.allPositions (Cli.PositionsOk a b c))) in *.
  clearbody ps.
  cbn -[Cli.listPositions Cli.closeEach Cli.cancelIntradayOrders].
  destruct (Cli.cancelIntradayOrders book cancel_order) as [tc rc].
  unfold Cli.actions, Cli.result in Hcr, Hcf. cbn [fst snd] in Hcr, Hcf. subst rc.
  split_footprint Hcf.
  destruct ps as [|p rest].
  - cli_step. push_all. rewrite Hplaced, Hcancelled, Hfetches. auto.
  - rewrite Hl.
    destruct (Cli.closeEach place_order (p :: rest)) as [te re].
    unfold Cli.actions, Cli.result in Her, Hef. cbn [fst snd] in Her, Hef. subst re.
    split_footprint Hef.
    cli_step. push_all.
    rewrite Hlc, Hplaced, Hcancelled, Hfetches, Hplaced0, Hcancelled0, Hfetches0.
    cbn. rewrite app_nil_r. auto.
Qed.

Lemma X8_emergencyClose_witness :
  Cli.result (Cli.emergencyClose CliSample2.positions CliSample.acceptAll
                CliSample2.book CliSample2.cancelFailsForO1) = Cli.Done tt
  /\ placeCalls (Cli.calls (Cli.actions
                   (Cli.emergencyClose CliSample2.positions CliSample.acceptAll
                      CliSample2.book CliSample2.cancelFailsForO1)))
     = map Cli.closeOrder
         (filter Cli.isOpenIntraday (Cli.allPositions CliSample2.positions))
  /\ cancelCalls (Cli.calls (Cli.actions
                    (Cli.emergencyClose CliSample2.positions CliSample.acceptAll
                       CliSample2.book CliSample2.cancelFailsForO1)))
     = rowTargets
         (filter (fun r => Cli.isPending r && Cli.isIntraday (Cli.rowProductType r))
                 (bookRows CliSample2.book))
  /\ fetches (Cli.calls (Cli.actions
                (Cli.emergencyClose CliSample2.positions CliSample.acceptAll
                   CliSample2.book CliSample2.cancelFailsForO1))) = 1%nat.
Proof.
  exact (X8_emergencyClose_closes_open_intraday CliSample2.positions
           CliSample.acceptAll CliSample2.book CliSample2.cancelFailsForO1
           eq_refl eq_refl).
Defined.

(** X9.  When the positions call fails, or when an open intraday position
    comes without its [pl], [emergencyClose] ends in its outer [catch]
    before any position is closed: no order is placed, the order book is
    not fetched and no pending order is cancelled. *)
Theorem X9_emergencyClose_aborts_before_closing
    (positions : Cli.PositionsResponse) (place_order : Order -> Response)
    (book : Cli.BookResponse) (cancel_order : string -> Response) :
  positionsOk positions
  && forallb hasPl (filter Cli.isOpenIntraday (Cli.allPositions positions)) = false ->
  let run := Cli.emergencyClose positions place_order book cancel_order in
  Cli.result run = Cli.Done tt
  /\ placeCalls (Cli.calls (Cli.actions run)) = []
  /\ cancelCalls (Cli.calls (Cli.actions run)) = []
  /\ fetches (Cli.calls (Cli.actions run)) = 0%nat.
Proof.
  intros Hbad run. subst run. unfold Cli.emergencyClose.
  pose proof (listPositions_cases
                (filter Cli.isOpenIntraday (Cli.allPositions positions))) as Hl.
  destruct positions as [a b c|m|m]; [|cbn; auto|cbn; auto].
  cbn [positionsOk andb] in Hbad. rewrite Hbad in Hl.
  destruct Hl as (tl & f & Hl & Hlc).
  set (ps := filter Cli.isOpenIntraday (Cli.allPositions (Cli.PositionsOk a b c))) in *.
  clearbody ps.
  cbn -[Cli.listPositions Cli.closeEach Cli.cancelIntradayOrders].
  destruct ps as [|p rest]; [discriminate Hbad|].
  rewrite Hl. cli_step. push_all. rewrite Hlc. auto.
Qed.

Lemma X9_emergencyClose_aborts_witness :
  Cli.result (Cli.emergencyClose CliSample2.positionsWithoutPl CliSample.acceptAll
                CliSample2.book CliSample2.cancelFailsForO1) = Cli.Done tt
  /\ placeCalls (Cli.calls (Cli.actions
                   (Cli.emergencyClose CliSample2.positionsWithoutPl
                      CliSample.acceptAll CliSample2.book
                      CliSample2.cancelFailsForO1))) = []
  /\ cancelCalls (Cli.calls (Cli.actions
                    (Cli.emergencyClose CliSample2.positionsWithoutPl
                       CliSample.acceptAll CliSample2.book
                       CliSample2.cancelFailsForO1))) = []
  /\ fetches (Cli.calls (Cli.actions
                (Cli.emergencyClose CliSample2.positionsWithoutPl
                   CliSample.acceptAll CliSample2.book
                   CliSample2.cancelFailsForO1))) = 0%nat.
Proof.
  exact (X9_emergencyClose_aborts_before_closing CliSample2.positionsWithoutPl
           CliSample.acceptAll CliSample2.book CliSample2.cancelFailsForO1 eq_refl).
Defined.

Lemma falsy_string_upper (s : string) :
  JS.falsy_string (JS.toUpperCase s) = JS.falsy_string s.
Proof. destruct s; reflexivity. Qed.

Lemma absQty_truthy (n : Z) : n <> 0%Z -> JS.falsy (Cli.absQty n) = false.
Proof.
  intros Hn. unfold Cli.absQty, JS.falsy.
  destruct (Qeq_bool (inject_Z (Z.abs n)) 0) eqn:E; [|reflexivity].
  apply Qeq_bool_iff in E. unfold Qeq, inject_Z in E. simpl in E. lia.
Qed.

(** X10.  The order [emergencyClose] builds against an open position has
    the opposite sign: its side times its quantity is minus the position's
    [netQty], so filling it brings the position to zero.  The closing
    order of a position with a symbol passes validation and is handed to
    the SDK as a market order valid for the day. *)
Theorem X10_closeOrder_flattens_position
    (place_order : Order -> Response) (pos : Cli.Position) :
  Cli.netQty pos <> 0%Z ->
  JS.falsy_string (Cli.posSymbol pos) = false ->
  od_quantity (Cli.closeOrder pos) = JS.Num (inject_Z (Z.abs (Cli.netQty pos)))
  /\ (od_side (Cli.closeOrder pos) * Z.abs (Cli.netQty pos) = - Cli.netQty pos)%Z
  /\ sdkPlacements (events (OrderService.placeOrder place_order (Cli.closeOrder pos)))
     = [OrderService.buildOrder (Cli.closeOrder pos)]
  /\ type (OrderService.buildOrder (Cli.closeOrder pos)) = 2%Z
  /\ validity (OrderService.buildOrder (Cli.closeOrder pos)) = "DAY".
Proof.
  intros Hn Hs.
  split; [reflexivity|]. split.
  { cbn [Cli.closeOrder od_side]. destruct (Z.ltb_spec 0 (Cli.netQty pos)); lia. }
  split; [|split; reflexivity].
  destruct (placeOrder_cases place_order (Cli.closeOrder pos))
    as [(e & _ & Hp)|(_ & ->)].
  - exfalso. revert Hp. unfold OrderService.placeOrder, OrderService.validateOrderData.
    cbn [OrderService.buildOrder Cli.closeOrder symbol qty side type od_symbol
         od_quantity od_side od_type od_limitPrice od_stopPrice limitPrice stopPrice].
    rewrite Hs, (absQty_truthy _ Hn).
    destruct (0 <? Cli.netQty pos)%Z; cbn; destruct (place_order _); cbn; discriminate.
  - destruct (place_order (OrderService.buildOrder (Cli.closeOrder pos))); reflexivity.
Qed.

Lemma X10_closeOrder_flattens_witness :
  od_quantity (Cli.closeOrder CliSample2.shortTcs)
    = JS.Num (inject_Z (Z.abs (Cli.netQty CliSample2.shortTcs)))
  /\ (od_side (Cli.closeOrder CliSample2.shortTcs)
      * Z.abs (Cli.netQty CliSample2.shortTcs)
      = - Cli.netQty CliSample2.shortTcs)%Z
  /\ sdkPlacements (events (OrderService.placeOrder CliSample.acceptAll
                              (Cli.closeOrder CliSample2.shortTcs)))
     = [OrderService.buildOrder (Cli.closeOrder CliSample2.shortTcs)]
  /\ type (OrderService.buildOrder (Cli.closeOrder CliSample2.shortTcs)) = 2%Z
  /\ validity (OrderService.buildOrder (Cli.closeOrder CliSample2.shortTcs)) = "DAY".
Proof.
  apply (X10_closeOrder_flattens_position CliSample.acceptAll CliSample2.shortTcs).
  - discriminate.
  - reflexivity.
Defined.

(** ** setStopLoss, buyOrder, sellOrder *)



(** X12.  [buyOrder] and [sellOrder] never throw and call [placeOrder]
    exactly once.  The order reaches the SDK exactly when the symbol is not
    empty, the quantity is a number other than zero and - if a price
    argument was given - the price parses to a number above zero; a
    negative quantity is let through. *)
Theorem X12_plain_orders_reach_sdk_when_accepted
    (place_order : Order -> Response) (sym : string) (quantity : JS.num)
    (price : option JS.num) :
  (Cli.result (Cli.buyOrder place_order sym quantity price) = Cli.Done tt
   /\ placeCalls (Cli.calls (Cli.actions (Cli.buyOrder place_order sym quantity price)))
      = [Cli.plainOrder 1 sym quantity price]
   /\ sdkPlacements (Cli.calls (Cli.actions
                       (Cli.buyOrder place_order sym quantity price)))
      = if plainAccepted sym quantity price
        then [OrderService.buildOrder (Cli.plainOrder 1 sym quantity price)]
        else [])
  /\ (Cli.result (Cli.sellOrder place_order sym quantity price) = Cli.Done tt
      /\ placeCalls (Cli.calls (Cli.actions
                       (Cli.sellOrder place_order sym quantity price)))
         = [Cli.plainOrder (-1) sym quantity price]
      /\ sdkPlacements (Cli.calls (Cli.actions
                          (Cli.sellOrder place_order sym quantity price)))
         = if plainAccepted sym quantity price
           then [OrderService.buildOrder (Cli.plainOrder (-1) sym quantity price)]
           else []).
Proof.
  assert (Hside : forall sd, (sd = 1 \/ sd = -1)%Z ->
    Cli.result (Cli.placePlain sd place_order sym quantity price) = Cli.Done tt
    /\ placeCalls (Cli.calls (Cli.actions
                     (Cli.placePlain sd place_order sym quantity price)))
       = [Cli.plainOrder sd sym quantity price]
    /\ sdkPlacements (Cli.calls (Cli.actions
                        (Cli.placePlain sd place_order sym quantity price)))
       = if plainAccepted sym quantity price
         then [OrderService.buildOrder (Cli.plainOrder sd sym quantity price)]
         else []).
  { intros sd Hside. unfold Cli.placePlain, OrderService.placeOrder,
      OrderService.validateOrderData, plainAccepted.
    cbn [OrderService.buildOrder Cli.plainOrder symbol qty side type od_symbol
         od_quantity od_side od_type od_limitPrice od_stopPrice limitPrice stopPrice].
    rewrite falsy_string_upper.
    assert (Hz : (sd =? 0)%Z = false) by (destruct Hside; subst; reflexivity).
    rewrite Hz.
    destruct (JS.falsy_string sym); [cbn; auto|].
    destruct (JS.falsy quantity); [cbn; auto|].
    destruct price as [p|]; cbn [orb andb negb Z.eqb Pos.eqb].
    - destruct (JS.falsy p || JS.leb p (JS.Num 0)); cbn [negb];
        [cbn; auto|].
      cbn -[OrderService.buildOrder]. destruct (place_order _); cbn; auto.
    - cbn -[OrderService.buildOrder]. destruct (place_order _); cbn; auto. }
  split; [apply (Hside 1%Z)|apply (Hside (-1)%Z)]; auto.
Qed.

(** ** validateOrderData and the stop-limit orders *)

(** X13.  A stop-limit order (type 3) on either side that passes
    [validateOrderData] carries both prices as numbers, with the limit
    price above zero and strictly below the stop price. *)
Theorem X13_validated_stop_limit_prices (order : Order) :
  type order = 3%Z ->
  side order = 1%Z \/ side order = (-1)%Z ->
  outcome (OrderService.validateOrderData order) = Ok tt ->
  exists l s,
    limitPrice order = Some (JS.Num l)
    /\ stopPrice order = Some (JS.Num s)
    /\ (0 < l)%Q /\ (l < s)%Q.
Proof.
  intros Ht Hside. unfold OrderService.validateOrderData. rewrite Ht.
  cbn [Z.eqb Pos.eqb orb andb].
  destruct (JS.falsy_string (symbol order) || JS.falsy (qty order)
            || (side order =? 0)%Z); [discriminate|].
  destruct (limitPrice order) as [[|l]|]; cbn [JS.falsy JS.leb orb]; try discriminate.
  destruct (Qeq_bool l 0 || Qle_bool l 0) eqn:Hl; [discriminate|].
  destruct (stopPrice order) as [[|s]|]; cbn [JS.falsy JS.leb orb]; try discriminate.
  destruct (Qeq_bool s 0 || Qle_bool s 0) eqn:Hs; [discriminate|].
  unfold JS.geb, JS.leb.
  destruct (Qle_bool s l) eqn:Hrel.
  - destruct Hside as [-> | ->]; cbn; discriminate.
  - intros _. exists l, s. repeat split.
    + apply orb_false_elim in Hl. destruct Hl as [_ Hl].
      apply Qnot_le_lt. intros H. apply Qle_bool_iff in H. congruence.
    + apply Qnot_le_lt. intros H. apply Qle_bool_iff in H. congruence.
Qed.

Lemma X13_validated_stop_limit_witness :
  exists l s,
    limitPrice (OrderService.buildOrder
                  (Buy.stopLossOrder "NSE:SBIN-EQ" (JS.Num 10) (JS.Num 495)))
      = Some (JS.Num l)
    /\ stopPrice (OrderService.buildOrder
                    (Buy.stopLossOrder "NSE:SBIN-EQ" (JS.Num 10) (JS.Num 495)))
       = Some (JS.Num s)
    /\ (0 < l)%Q /\ (l < s)%Q.
Proof.
  apply (X13_validated_stop_limit_prices
           (OrderService.buildOrder
              (Buy.stopLossOrder "NSE:SBIN-EQ" (JS.Num 10) (JS.Num 495)))).
  - reflexivity.
  - right. reflexivity.
  - reflexivity.
Defined.

Lemma half_above (q : Q) : Qle_bool (q + (1 # 2)) q = false.
Proof.
  destruct (Qle_bool (q + (1 # 2)) q) eqn:E; [|reflexivity].
  apply Qle_bool_iff in E. lra.
Qed.

Lemma half_above_positive (q : Q) :
  Qeq_bool q 0 || Qle_bool q 0 = false ->
  Qeq_bool (q + (1 # 2)) 0 || Qle_bool (q + (1 # 2)) 0 = false.
Proof.
  intros H. apply orb_false_elim in H. destruct H as [_ H].
  assert (Hq : (0 < q)%Q).
  { apply Qnot_le_lt. intros C. apply Qle_bool_iff in C. congruence. }
  apply orb_false_intro.
  - destruct (Qeq_bool (q + (1 # 2)) 0) eqn:E; [|reflexivity].
    apply Qeq_bool_iff in E. lra.
  - destruct (Qle_bool (q + (1 # 2)) 0) eqn:E; [|reflexivity].
    apply Qle_bool_iff in E. lra.
Qed.

(** In exact arithmetic the stop-limit order of the buy variant passes
    the price check whenever its prices pass the others. *)
Lemma buy_stop_limit_sdk
    (place_order : Order -> Response)
    (sym : string) (quantity stopLossPrice : JS.num) :
  sdkPlacements (events (OrderService.placeOrder place_order
                           (Buy.stopLossOrder sym quantity stopLossPrice)))
  = if plainAccepted sym quantity (Some stopLossPrice)
    then [OrderService.buildOrder (Buy.stopLossOrder sym quantity stopLossPrice)]
    else [].
Proof.
  unfold OrderService.placeOrder, OrderService.validateOrderData, plainAccepted.
  cbn [OrderService.buildOrder Buy.stopLossOrder symbol qty side type od_symbol
       od_quantity od_side od_type od_limitPrice od_stopPrice limitPrice stopPrice
       Z.eqb Pos.eqb orb andb].
  rewrite falsy_string_upper.
  destruct (JS.falsy_string sym); [reflexivity|].
  destruct (JS.falsy quantity); [reflexivity|].
  cbn [negb andb orb].
  destruct stopLossPrice as [|q]; [reflexivity|].
  cbn [JS.falsy JS.leb JS.add JS.half JS.geb].
  destruct (Qeq_bool q 0 || Qle_bool q 0) eqn:Hq; [reflexivity|].
  rewrite (half_above_positive q Hq), half_above.
  cbn -[OrderService.buildOrder]. destruct (place_order _); reflexivity.
Qed.

(** X14.  For a stop-loss price in whole rupees short of [2^52] - what
    [Math.round] returns for any price an order can carry, and where the
    sum with fifty paise is exact in binary64 too - the stop-limit order of
    the buy variant (sell, limit at the stop-loss price, trigger fifty
    paise above it) reaches the SDK exactly when the symbol is not empty,
    the quantity is a number other than zero and the stop-loss price is
    above zero: unlike its short counterpart, its price relation passes
    validation. *)
Theorem X14_buy_stop_limit_reaches_sdk
    (place_order : Order -> Response)
    (sym : string) (quantity stopLossPrice : JS.num) :
  Cli.wholeRupees stopLossPrice = true ->
  Buy.stopLossOrder sym quantity stopLossPrice
  = {| od_symbol := JS.toUpperCase sym; od_quantity := quantity;
       od_side := (-1)%Z; od_type := 3%Z;
       od_limitPrice := Some stopLossPrice;
       od_stopPrice := Some (JS.add stopLossPrice (JS.Num (1 # 2)));
       od_productType := "INTRADAY"; od_validity := "DAY" |}
  /\ sdkPlacements (events (OrderService.placeOrder place_order
                              (Buy.stopLossOrder sym quantity stopLossPrice)))
     = if plainAccepted sym quantity (Some stopLossPrice)
       then [{| symbol := JS.toUpperCase sym; qty := quantity;
                type := 3%Z; side := (-1)%Z;
                productType := "INTRADAY"; validity := "DAY";
                limitPrice := Some stopLossPrice;
                stopPrice := Some (JS.add stopLossPrice (JS.Num (1 # 2))) |}]
       else [].
Proof.
  intros _. split; [reflexivity|].
  exact (buy_stop_limit_sdk place_order sym quantity stopLossPrice).
Qed.

Lemma X14_buy_stop_limit_witness :
  Cli.wholeRupees (JS.Num 498) = true
  /\ sdkPlacements (events (OrderService.placeOrder CliSample.acceptAll
                              (Buy.stopLossOrder "NSE:SBIN-EQ" (JS.Num 10) (JS.Num 498))))
     = [{| symbol := "NSE:SBIN-EQ"; qty := JS.Num 10;
           type := 3%Z; side := (-1)%Z;
           productType := "INTRADAY"; validity := "DAY";
           limitPrice := Some (JS.Num 498);
           stopPrice := Some (JS.Num (997 # 2)) |}].
Proof.
  split; [reflexivity|].
  exact (proj2 (X14_buy_stop_limit_reaches_sdk CliSample.acceptAll "NSE:SBIN-EQ"
                  (JS.Num 10) (JS.Num 498) eq_refl)).
Defined.

(** ** More on the monitor *)

Lemma findOrder_null (book : option (list BookOrder)) :
  executed (findOrder book None) = false.
Proof. unfold findOrder. destruct book; reflexivity. Qed.

(** The reports one tick can make, by the ids the monitor was given. *)
Lemma tick_reports_by_ids (v : Strategy) (tpOrderId slOrderId : option string)
    (inp : TickInput) (s : MonitorState) :
  (tpOrderId = None ->
   ~ In RESOLVED_PROFIT (reports (events (monitorTick v tpOrderId slOrderId inp s))))
  /\ (slOrderId = None ->
      ~ In RESOLVED_LOSS (reports (events (monitorTick v tpOrderId slOrderId inp s)))).
Proof.
  destruct (monitoringActive s) eqn:Ha.
  2:{ rewrite (tick_stopped v _ _ inp s Ha). cbn. tauto. }
  destruct (orders inp) as [book| |] eqn:Ho.
  - destruct (executed (findOrder book tpOrderId)) eqn:Hx.
    + destruct (tick_tp_executed v tpOrderId slOrderId inp s book Ha Ho Hx)
        as (_ & -> & _).
      split; intros E; [subst; rewrite findOrder_null in Hx; discriminate|].
      cbn. intros [C|[]]. discriminate.
    + destruct (executed (findOrder book slOrderId)) eqn:Hy.
      * destruct (tick_sl_executed v tpOrderId slOrderId inp s book Ha Ho Hx Hy)
          as (_ & -> & _).
        split; intros E; [|subst; rewrite findOrder_null in Hy; discriminate].
        cbn. intros [C|[]]. discriminate.
      * destruct (tick_idle v tpOrderId slOrderId inp s book Ha Ho Hx Hy)
          as (_ & _ & E3).
        destruct (maxMonitorTime <=? S (monitorCount s))%nat.
        -- destruct E3 as (_ & -> & _). cbn. split; intros _ [C|[]]; discriminate.
        -- destruct E3 as (_ & ->). cbn. tauto.
  - destruct (tick_fetch_failed v tpOrderId slOrderId inp s Ha) as (_ & ->);
      [unfold fetchFailed; rewrite Ho; reflexivity|].
    destruct v; cbn; tauto.
  - destruct (tick_fetch_failed v tpOrderId slOrderId inp s Ha) as (_ & ->);
      [unfold fetchFailed; rewrite Ho; reflexivity|].
    destruct v; cbn; tauto.
Qed.

Lemma run_reports_by_ids (v : Strategy) (tpOrderId slOrderId : option string)
    (inputs : list TickInput) :
  forall s,
    (tpOrderId = None ->
     ~ In RESOLVED_PROFIT
          (reports (events (monitorRun v tpOrderId slOrderId inputs s))))
    /\ (slOrderId = None ->
        ~ In RESOLVED_LOSS
             (reports (events (monitorRun v tpOrderId slOrderId inputs s)))).
Proof.
  induction inputs as [|inp rest IH]; intros s; [cbn; tauto|].
  destruct (monitoringActive s) eqn:Ha.
  - destruct (tick_running v tpOrderId slOrderId inp s Ha) as (s1 & E1 & _).
    rewrite (run_cons_events v tpOrderId slOrderId inp rest s s1 E1), reports_app.
    destruct (tick_reports_by_ids v tpOrderId slOrderId inp s) as (T1 & T2).
    destruct (IH s1) as (R1 & R2).
    split; intros E C; apply in_app_or in C; destruct C as [C|C];
      [exact (T1 E C)|exact (R1 E C)|exact (T2 E C)|exact (R2 E C)].
  - rewrite (run_stopped v _ _ (inp :: rest) s Ha). cbn. tauto.
Qed.

(** X15.  A monitor started with a null take-profit id - the take-profit
    placement had failed - can never report a profit, whatever the order
    lists show; when it sees the stop-loss order filled it still calls
    [cancelOrder], on the null id. *)
Theorem X15_null_take_profit_id
    (v : Strategy) (slOrderId : option string) (inputs : list TickInput)
    (inp : TickInput) (s : MonitorState) (book : option (list BookOrder)) :
  monitoringActive s = true ->
  orders inp = OrdersOk book ->
  executed (findOrder book slOrderId) = true ->
  ~ In RESOLVED_PROFIT (reports (events (monitorRun v None slOrderId inputs s)))
  /\ cancelCalls (events (monitorTick v None slOrderId inp s)) = [None]
  /\ resolution (events (monitorTick v None slOrderId inp s)) = RESOLVED_LOSS.
Proof.
  intros Ha Ho Hx. split.
  - apply (run_reports_by_ids v None slOrderId inputs s). reflexivity.
  - destruct (tick_sl_executed v None slOrderId inp s book Ha Ho
                (findOrder_null book) Hx) as (_ & E2 & E3 & _).
    unfold resolution. rewrite E2, E3. auto.
Qed.

Lemma X15_null_take_profit_id_witness :
  ~ In RESOLVED_PROFIT
       (reports (events (monitorRun BuySide None Sample.sl
                           [Sample.profit; Sample.bothFilled] initialState)))
  /\ cancelCalls (events (monitorTick BuySide None Sample.sl Sample.loss initialState))
     = [None]
  /\ resolution (events (monitorTick BuySide None Sample.sl Sample.loss initialState))
     = RESOLVED_LOSS.
Proof.
  exact (X15_null_take_profit_id BuySide Sample.sl [Sample.profit; Sample.bothFilled]
           Sample.loss initialState Sample.bookLoss eq_refl eq_refl eq_refl).
Defined.




(** ** isMarketOpen *)

Lemma statusEqb_eq (a b : Market.Status) : Market.statusEqb a b = true -> a = b.
Proof. destruct a, b; cbn; congruence. Qed.

Lemma weekday_minutes_checked :
  forallb (fun hm => Market.statusEqb
                       (Market.isMarketOpen 1 (Market.HHmm (fst hm) (snd hm)))
                       (Market.expected (fst hm) (snd hm)))
          Market.minutesOfDay = true.
Proof. vm_compute. reflexivity. Qed.

(** X17.  On Saturday and Sunday [isMarketOpen] answers "weekend" whatever
    the time.  On the other days, comparing the zero-padded "HHmm" text of
    the clock as strings agrees with comparing the times: the market is
    open from 09:15 to 15:30, both minutes included, "before hours" earlier
    and "after hours" later. *)
Theorem X17_isMarketOpen_hours (dayOfWeek h m : nat) :
  (h < 24)%nat ->
  (m < 60)%nat ->
  Market.isMarketOpen dayOfWeek (Market.HHmm h m)
  = if (dayOfWeek =? 0)%nat || (dayOfWeek =? 6)%nat then Market.Weekend
    else if (h * 60 + m <? 9 * 60 + 15)%nat then Market.BeforeHours
    else if (15 * 60 + 30 <? h * 60 + m)%nat then Market.AfterHours
    else Market.Open.
Proof.
  intros Hh Hm. unfold Market.isMarketOpen.
  destruct ((dayOfWeek =? 0)%nat || (dayOfWeek =? 6)%nat); [reflexivity|].
  pose proof weekday_minutes_checked as Hall.
  rewrite forallb_forall in Hall.
  assert (Hin : In (h, m) Market.minutesOfDay).
  { unfold Market.minutesOfDay. apply in_prod; apply in_seq; lia. }
  specialize (Hall (h, m) Hin). cbn [fst snd] in Hall.
  apply statusEqb_eq in Hall. unfold Market.isMarketOpen in Hall.
  cbn [Nat.eqb orb] in Hall. exact Hall.
Qed.

Lemma X17_isMarketOpen_witness :
  Market.isMarketOpen 3 (Market.HHmm 15 30)
  = if (3 =? 0)%nat || (3 =? 6)%nat then Market.Weekend
    else if (15 * 60 + 30 <? 9 * 60 + 15)%nat then Market.BeforeHours
    else if (15 * 60 + 30 <? 15 * 60 + 30)%nat then Market.AfterHours
    else Market.Open.
Proof.
  apply (X17_isMarketOpen_hours 3 15 30); lia.
Defined.

(** ** requiredTPpercent *)

Lemma pow2_pos (n : nat) : (0 < inject_Z (2 ^ Z.of_nat n))%Q.
Proof.
  change 0%Q with (inject_Z 0). rewrite <- Zlt_Qlt.
  apply Z.pow_pos_nonneg; lia.
Qed.

Lemma pow2_succ (n : nat) :
  (inject_Z (2 ^ Z.of_nat (S n)) == 2 * inject_Z (2 ^ Z.of_nat n))%Q.
Proof.
  rewrite Nat2Z.inj_succ, Z.pow_succ_r by lia.
  rewrite inject_Z_mult. reflexivity.
Qed.

Lemma midpoint (lo hi : Q) : ((lo + hi) / 2 == (lo + hi) * (1 # 2))%Q.
Proof. unfold Qdiv. reflexivity. Qed.

Section Bisection.

Variable rates : Calc.Rates.
Variables p q : Q.
Variable target : JS.num.

Local Abbreviation below x :=
  (Calc.ltb (Calc.netProfit rates (JS.Num p) (JS.Num q) (JS.Num x)) target).

(** The bisection keeps its interval inside the one it started from,
    halves its width at every step, and keeps the end points on their
    sides of the target. *)
Lemma bisect_invariant (n : nat) :
  forall lo hi : Q,
    (lo <= hi)%Q ->
    exists lo' hi' : Q,
      Calc.bisect rates (JS.Num p) (JS.Num q) target n (JS.Num lo) (JS.Num hi)
        = (JS.Num lo', JS.Num hi')
      /\ (lo <= lo')%Q /\ (lo' <= hi')%Q /\ (hi' <= hi)%Q
      /\ ((hi' - lo') * inject_Z (2 ^ Z.of_nat n) == hi - lo)%Q
      /\ (below lo = true -> below lo' = true)
      /\ (below hi = false -> below hi' = false).
Proof.
  induction n as [|n IH]; intros lo hi Hle.
  - exists lo, hi. cbn. repeat split; auto; try lra.
    change (inject_Z 1) with 1%Q. ring.
  - cbn [Calc.bisect].
    assert (Hmid : Calc.div (Calc.add (JS.Num lo) (JS.Num hi)) (JS.Num 2)
                   = JS.Num ((lo + hi) / 2)) by reflexivity.
    rewrite Hmid.
    pose proof (midpoint lo hi) as Hm.
    assert (H1 : (lo <= (lo + hi) / 2)%Q) by lra.
    assert (H2 : ((lo + hi) / 2 <= hi)%Q) by lra.
    destruct (below ((lo + hi) / 2)) eqn:Hb.
    + destruct (IH ((lo + hi) / 2) hi H2) as (lo' & hi' & E & A & B & C & W & L & U).
      exists lo', hi'. split; [exact E|].
      repeat split; auto; try lra.
      rewrite pow2_succ.
      setoid_replace ((hi' - lo') * (2 * inject_Z (2 ^ Z.of_nat n)))%Q
        with (2 * ((hi' - lo') * inject_Z (2 ^ Z.of_nat n)))%Q by ring.
      rewrite W. lra.
    + destruct (IH lo ((lo + hi) / 2) H1) as (lo' & hi' & E & A & B & C & W & L & U).
      exists lo', hi'. split; [exact E|].
      repeat split; auto; try lra.
      rewrite pow2_succ.
      setoid_replace ((hi' - lo') * (2 * inject_Z (2 ^ Z.of_nat n)))%Q
        with (2 * ((hi' - lo') * inject_Z (2 ^ Z.of_nat n)))%Q by ring.
      rewrite W. lra.
Qed.

End Bisection.

Lemma positive_passes (x : Q) :
  (0 < x)%Q -> JS.falsy (JS.Num x) || JS.leb (JS.Num x) (JS.Num 0) = false.
Proof.
  intros Hx. cbn [JS.falsy JS.leb]. apply orb_false_intro.
  - destruct (Qeq_bool x 0) eqn:E; [|reflexivity]. apply Qeq_bool_iff in E. lra.
  - destruct (Qle_bool x 0) eqn:E; [|reflexivity]. apply Qle_bool_iff in E. lra.
Qed.

Lemma nonnegative_atr (a : Q) : (0 <= a)%Q -> Calc.ltb (JS.Num a) (JS.Num 0) = false.
Proof.
  intros Ha. cbn [Calc.ltb]. apply negb_false_iff. apply Qle_bool_iff. exact Ha.
Qed.

(** The stop fraction computed from an ATR: the clamp of [0.5 * ATR / P]. *)
Lemma stopFraction_clamped (p a : Q) (l : option JS.num) :
  (0 < p)%Q -> (0 <= a)%Q ->
  exists L : Q,
    Calc.stopFraction (JS.Num p) (Some (JS.Num a)) l = Some (JS.Num L)
    /\ (1 # 1000 <= L)%Q /\ (L <= 5 # 100)%Q
    /\ ((1 # 1000 <= (1 # 2) * a / p)%Q -> ((1 # 2) * a / p <= 5 # 100)%Q ->
        (L == (1 # 2) * a / p)%Q).
Proof.
  intros Hp Ha. unfold Calc.stopFraction, Calc.div, Calc.mul, Cli.mul.
  assert (Hz : Qeq_bool p 0 = false).
  { destruct (Qeq_bool p 0) eqn:E; [|reflexivity]. apply Qeq_bool_iff in E. lra. }
  rewrite Hz. cbn [Calc.min Calc.max].
  set (x := ((1 # 2) * a / p)%Q).
  destruct (Qle_bool (5 # 100) x) eqn:E1.
  - apply Qle_bool_iff in E1.
    change (Qle_bool (1 # 1000) (5 # 100)) with true. cbn iota.
    exists (5 # 100). split; [reflexivity|]. repeat split; try lra.
  - assert (Hx : (x < 5 # 100)%Q).
    { apply Qnot_le_lt. intros C. apply Qle_bool_iff in C. congruence. }
    destruct (Qle_bool (1 # 1000) x) eqn:E2.
    + apply Qle_bool_iff in E2. exists x. split; [reflexivity|].
      repeat split; try lra.
    + assert (Hy : (x < 1 # 1000)%Q).
      { apply Qnot_le_lt. intros C. apply Qle_bool_iff in C. congruence. }
      exists (1 # 1000). split; [reflexivity|]. repeat split; try lra.
Qed.

(** X18.  For a positive price and quantity and a non-negative ATR,
    [requiredTPpercent] returns a solution whose stop-loss fraction is
    [0.5 * ATR / P] clamped to the range 0.1% .. 5%, and whose stop-loss
    price [P * (1 - fraction)] therefore lies strictly below the price and
    not more than 5% below it. *)
Theorem X18_stop_fraction_clamped
    (rates : Calc.Rates) (p q a : Q) (l : option JS.num) :
  (0 < p)%Q -> (0 < q)%Q -> (0 <= a)%Q ->
  exists sol L,
    Calc.requiredTPpercent rates (JS.Num p) (JS.Num q) (Some (JS.Num a)) l = inr sol
    /\ Calc.calculatedStopLossPercent sol = JS.Num L
    /\ Calc.atrUsed sol = true
    /\ (1 # 1000 <= L)%Q /\ (L <= 5 # 100)%Q
    /\ ((1 # 1000 <= (1 # 2) * a / p)%Q -> ((1 # 2) * a / p <= 5 # 100)%Q ->
        (L == (1 # 2) * a / p)%Q)
    /\ Calc.stopLossPrice sol = JS.Num (p * (1 - L))
    /\ ((95 # 100) * p <= p * (1 - L))%Q /\ (p * (1 - L) < p)%Q.
Proof.
  intros Hp Hq Ha.
  destruct (stopFraction_clamped p a l Hp Ha) as (L & HL & H1 & H2 & H3).
  unfold Calc.requiredTPpercent.
  rewrite (positive_passes p Hp), (positive_passes q Hq), (nonnegative_atr a Ha), HL.
  eexists. exists L. split; [reflexivity|].
  cbn [Calc.calculatedStopLossPercent Calc.atrUsed Calc.stopLossPrice].
  repeat split; auto.
  - nra.
  - nra.
Qed.

Lemma X18_stop_fraction_clamped_witness :
  exists sol L,
    Calc.requiredTPpercent Calc.defaultRates (JS.Num 376) (JS.Num 1000)
      (Some (JS.Num (9 # 4))) None = inr sol
    /\ Calc.calculatedStopLossPercent sol = JS.Num L
    /\ Calc.atrUsed sol = true
    /\ (1 # 1000 <= L)%Q /\ (L <= 5 # 100)%Q
    /\ ((1 # 1000 <= (1 # 2) * (9 # 4) / 376)%Q -> ((1 # 2) * (9 # 4) / 376 <= 5 # 100)%Q ->
        (L == (1 # 2) * (9 # 4) / 376)%Q)
    /\ Calc.stopLossPrice sol = JS.Num (376 * (1 - L))
    /\ ((95 # 100) * 376 <= 376 * (1 - L))%Q /\ (376 * (1 - L) < 376)%Q.
Proof.
  apply (X18_stop_fraction_clamped Calc.defaultRates 376 1000 (9 # 4) None); lra.
Defined.

(** What the solver returns for a positive price and quantity and a
    non-negative ATR, with the end points of its last interval. *)
Lemma solver_result (rates : Calc.Rates) (p q a : Q) (l : option JS.num) :
  (0 < p)%Q -> (0 < q)%Q -> (0 <= a)%Q ->
  let target := Calc.target rates (JS.Num p) (JS.Num q) (Some (JS.Num a)) l in
  exists sol lo hi,
    Calc.requiredTPpercent rates (JS.Num p) (JS.Num q) (Some (JS.Num a)) l = inr sol
    /\ Calc.mul (JS.Num 2) (Calc.netLoss sol) = target
    /\ Calc.required_g sol = JS.Num ((lo + hi) / 2)
    /\ (0 <= lo)%Q /\ (lo <= hi)%Q /\ (hi <= 1 # 10)%Q
    /\ ((hi - lo) * inject_Z (2 ^ 60) == 1 # 10)%Q
    /\ (Calc.ltb (Calc.netProfit rates (JS.Num p) (JS.Num q) (JS.Num 0)) target = true ->
        Calc.ltb (Calc.netProfit rates (JS.Num p) (JS.Num q) (JS.Num lo)) target = true)
    /\ (Calc.ltb (Calc.netProfit rates (JS.Num p) (JS.Num q) (JS.Num (1 # 10))) target
        = false ->
        Calc.ltb (Calc.netProfit rates (JS.Num p) (JS.Num q) (JS.Num hi)) target = false).
Proof.
  intros Hp Hq Ha target. subst target.
  destruct (stopFraction_clamped p a l Hp Ha) as (L & HL & _).
  unfold Calc.requiredTPpercent, Calc.target.
  rewrite (positive_passes p Hp), (positive_passes q Hq), (nonnegative_atr a Ha), HL.
  set (target := Calc.mul (JS.Num 2) (Calc.lossAt rates (JS.Num p) (JS.Num q) (JS.Num L))).
  destruct (bisect_invariant rates p q target 60 0 (1 # 10)) as
    (lo & hi & E & A & B & C & W & Hlo & Hhi); [lra|].
  cbv zeta. rewrite E. cbn [fst snd].
  eexists. exists lo, hi. split; [reflexivity|].
  cbn [Calc.netLoss Calc.required_g].
  split; [reflexivity|]. split; [reflexivity|].
  repeat split; auto.
Qed.

(** X19.  Whatever the rates, for a positive price and quantity and a
    non-negative ATR the take-profit fraction [requiredTPpercent] returns
    is above 0 and at most 10%: the solver never looks outside that
    range. *)
Theorem X19_required_g_within_ten_percent
    (rates : Calc.Rates) (p q a : Q) (l : option JS.num) :
  (0 < p)%Q -> (0 < q)%Q -> (0 <= a)%Q ->
  exists sol g,
    Calc.requiredTPpercent rates (JS.Num p) (JS.Num q) (Some (JS.Num a)) l = inr sol
    /\ Calc.required_g sol = JS.Num g
    /\ (0 < g)%Q /\ (g <= 1 # 10)%Q.
Proof.
  intros Hp Hq Ha.
  destruct (solver_result rates p q a l Hp Hq Ha)
    as (sol & lo & hi & E & _ & G & A & B & C & W & _).
  exists sol, ((lo + hi) / 2)%Q. split; [exact E|]. split; [exact G|].
  pose proof (midpoint lo hi) as Hm.
  assert (Hw : (lo < hi)%Q).
  { destruct (Qlt_le_dec lo hi) as [H|H]; [exact H|].
    assert (Heq : (hi - lo == 0)%Q) by lra.
    rewrite Heq in W. lra. }
  split; lra.
Qed.

Lemma X19_required_g_witness :
  exists sol g,
    Calc.requiredTPpercent Calc.defaultRates (JS.Num 376) (JS.Num 1000)
      (Some (JS.Num (9 # 4))) None = inr sol
    /\ Calc.required_g sol = JS.Num g
    /\ (0 < g)%Q /\ (g <= 1 # 10)%Q.
Proof.
  apply (X19_required_g_within_ten_percent Calc.defaultRates 376 1000 (9 # 4) None); lra.
Defined.

(** X20.  When the net profit at 0% is below the target (twice the net
    loss at the stop) and the net profit at 10% is not, the returned
    take-profit fraction is the middle of an interval narrower than
    [10^-16] inside 0 .. 10% at whose lower end the net profit is still
    below the target and at whose upper end it is not: the solver has
    located a crossing of the target. *)
Theorem X20_required_g_brackets_target
    (rates : Calc.Rates) (p q a : Q) (l : option JS.num) :
  (0 < p)%Q -> (0 < q)%Q -> (0 <= a)%Q ->
  Calc.ltb (Calc.netProfit rates (JS.Num p) (JS.Num q) (JS.Num 0))
           (Calc.target rates (JS.Num p) (JS.Num q) (Some (JS.Num a)) l) = true ->
  Calc.ltb (Calc.netProfit rates (JS.Num p) (JS.Num q) (JS.Num (1 # 10)))
           (Calc.target rates (JS.Num p) (JS.Num q) (Some (JS.Num a)) l) = false ->
  exists sol lo hi,
    Calc.requiredTPpercent rates (JS.Num p) (JS.Num q) (Some (JS.Num a)) l = inr sol
    /\ Calc.mul (JS.Num 2) (Calc.netLoss sol)
       = Calc.target rates (JS.Num p) (JS.Num q) (Some (JS.Num a)) l
    /\ Calc.required_g sol = JS.Num ((lo + hi) / 2)
    /\ (0 <= lo)%Q /\ (lo <= hi)%Q /\ (hi <= 1 # 10)%Q
    /\ (hi - lo < 1 # 10000000000000000)%Q
    /\ Calc.ltb (Calc.netProfit rates (JS.Num p) (JS.Num q) (JS.Num lo))
                (Calc.target rates (JS.Num p) (JS.Num q) (Some (JS.Num a)) l) = true
    /\ Calc.ltb (Calc.netProfit rates (JS.Num p) (JS.Num q) (JS.Num hi))
                (Calc.target rates (JS.Num p) (JS.Num q) (Some (JS.Num a)) l) = false.
Proof.
  intros Hp Hq Ha H0 H1.
  destruct (solver_result rates p q a l Hp Hq Ha)
    as (sol & lo & hi & E & T & G & A & B & C & W & Hlo & Hhi).
  exists sol, lo, hi. repeat split; auto.
  assert (Hpow : (inject_Z (2 ^ 60) == 1152921504606846976)%Q) by reflexivity.
  rewrite Hpow in W. lra.
Qed.

Lemma X20_required_g_brackets_witness :
  exists sol lo hi,
    Calc.requiredTPpercent Calc.defaultRates (JS.Num 376) (JS.Num 1000)
      (Some (JS.Num (9 # 4))) None = inr sol
    /\ Calc.mul (JS.Num 2) (Calc.netLoss sol)
       = Calc.target Calc.defaultRates (JS.Num 376) (JS.Num 1000)
           (Some (JS.Num (9 # 4))) None
    /\ Calc.required_g sol = JS.Num ((lo + hi) / 2)
    /\ (0 <= lo)%Q /\ (lo <= hi)%Q /\ (hi <= 1 # 10)%Q
    /\ (hi - lo < 1 # 10000000000000000)%Q
    /\ Calc.ltb (Calc.netProfit Calc.defaultRates (JS.Num 376) (JS.Num 1000) (JS.Num lo))
                (Calc.target Calc.defaultRates (JS.Num 376) (JS.Num 1000)
                   (Some (JS.Num (9 # 4))) None) = true
    /\ Calc.ltb (Calc.netProfit Calc.defaultRates (JS.Num 376) (JS.Num 1000) (JS.Num hi))
                (Calc.target Calc.defaultRates (JS.Num 376) (JS.Num 1000)
                   (Some (JS.Num (9 # 4))) None) = false.
Proof.
  apply (X20_required_g_brackets_target Calc.defaultRates 376 1000 (9 # 4) None).
  - lra.
  - lra.
  - lra.
  - vm_compute. reflexivity.
  - vm_compute. reflexivity.
Defined.

Ltac calc_unfold :=
  unfold Calc.netProfit, Calc.lossAt, Calc.charges, Calc.brokeragePerSide,
    Calc.turnBuy, Calc.mul, Calc.add, Calc.sub, Calc.min;
  cbn [Cli.mul JS.add JS.sub Calc.brokerageRate Calc.brokerageCap Calc.sttRate
       Calc.exchRate Calc.sebiRate Calc.gstRate Calc.stampDutyBuyRate
       Calc.defaultRates].

(** With the default rates the charges of a round trip are positive. *)
Lemma charges_positive (p q s : Q) :
  (0 < p)%Q -> (0 < q)%Q -> (0 <= s)%Q ->
  exists c, Calc.charges Calc.defaultRates (JS.Num p) (JS.Num q) (JS.Num s) = JS.Num c
            /\ (0 < c)%Q.
Proof.
  intros Hp Hq Hs.
  assert (Ht : (0 < p * q)%Q) by nra.
  assert (Hu : (0 <= s * q)%Q) by nra.
  calc_unfold.
  eexists. split; [reflexivity|].
  set (t := (p * q)%Q) in *. set (u := (s * q)%Q) in *.
  destruct (Qle_bool (t * (3 # 10000)) 20); destruct (Qle_bool (u * (3 # 10000)) 20); lra.
Qed.

(** With the default rates and the stop fraction at its cap of 5%, no
    take-profit fraction up to 10% earns twice the net loss. *)
Lemma capped_stop_out_of_reach (p q g : Q) :
  (0 < p)%Q -> (0 < q)%Q -> (0 <= g)%Q -> (g <= 1 # 10)%Q ->
  Calc.ltb (Calc.netProfit Calc.defaultRates (JS.Num p) (JS.Num q) (JS.Num g))
           (Calc.mul (JS.Num 2)
              (Calc.lossAt Calc.defaultRates (JS.Num p) (JS.Num q) (JS.Num (5 # 100))))
  = true.
Proof.
  intros Hp Hq Hg0 Hg1.
  destruct (charges_positive p q (p * (1 + g)) Hp Hq) as (c1 & E1 & H1); [nra|].
  destruct (charges_positive p q (p * (1 - (5 # 100))) Hp Hq) as (c2 & E2 & H2); [nra|].
  unfold Calc.netProfit, Calc.lossAt.
  change (Calc.mul (JS.Num p) (Calc.add (JS.Num 1) (JS.Num g)))
    with (JS.Num (p * (1 + g))).
  change (Calc.mul (JS.Num p) (Calc.sub (JS.Num 1) (JS.Num (5 # 100))))
    with (JS.Num (p * (1 - (5 # 100)))).
  rewrite E1, E2.
  cbn [Calc.mul Cli.mul Calc.add JS.add Calc.sub JS.sub Calc.ltb].
  apply negb_true_iff.
  destruct (Qle_bool (2 * (q * p * (5 # 100) + c2)) (q * p * g - c1)) eqn:E; [|reflexivity].
  apply Qle_bool_iff in E.
  assert (Ht : (0 < q * p)%Q) by nra.
  assert (Hg : (q * p * g <= q * p * (1 # 10))%Q).
  { apply Qmult_le_l; [exact Ht|exact Hg1]. }
  lra.
Qed.

Lemma bisect_all_below (rates : Calc.Rates) (p q : Q) (target : JS.num) (n : nat) :
  forall lo hi : Q,
    (lo <= hi)%Q ->
    (forall x, (lo <= x)%Q -> (x <= hi)%Q ->
               Calc.ltb (Calc.netProfit rates (JS.Num p) (JS.Num q) (JS.Num x)) target
               = true) ->
    exists lo' : Q,
      Calc.bisect rates (JS.Num p) (JS.Num q) target n (JS.Num lo) (JS.Num hi)
        = (JS.Num lo', JS.Num hi)
      /\ (lo <= lo')%Q /\ (lo' <= hi)%Q
      /\ ((hi - lo') * inject_Z (2 ^ Z.of_nat n) == hi - lo)%Q.
Proof.
  induction n as [|n IH]; intros lo hi Hle Hall.
  - exists lo. cbn. repeat split; auto; try lra.
    change (inject_Z 1) with 1%Q. ring.
  - cbn [Calc.bisect].
    assert (Hmid : Calc.div (Calc.add (JS.Num lo) (JS.Num hi)) (JS.Num 2)
                   = JS.Num ((lo + hi) / 2)) by reflexivity.
    rewrite Hmid. pose proof (midpoint lo hi) as Hm.
    rewrite (Hall ((lo + hi) / 2)%Q) by lra.
    destruct (IH ((lo + hi) / 2)%Q hi) as (lo' & E & A & B & W); [lra| |].
    + intros x Hx1 Hx2. apply Hall; lra.
    + exists lo'. split; [exact E|]. repeat split; try lra.
      rewrite pow2_succ.
      setoid_replace ((hi - lo') * (2 * inject_Z (2 ^ Z.of_nat n)))%Q
        with (2 * ((hi - lo') * inject_Z (2 ^ Z.of_nat n)))%Q by ring.
      rewrite W. lra.
Qed.

Lemma stopFraction_capped (p a : Q) (l : option JS.num) :
  (0 < p)%Q -> (p <= 10 * a)%Q ->
  Calc.stopFraction (JS.Num p) (Some (JS.Num a)) l = Some (JS.Num (5 # 100)).
Proof.
  intros Hp Ha. unfold Calc.stopFraction, Calc.div, Calc.mul, Cli.mul.
  assert (Hz : Qeq_bool p 0 = false).
  { destruct (Qeq_bool p 0) eqn:E; [|reflexivity]. apply Qeq_bool_iff in E. lra. }
  rewrite Hz. cbn [Calc.min Calc.max].
  assert (Hx : Qle_bool (5 # 100) ((1 # 2) * a / p) = true).
  { apply Qle_bool_iff. apply Qle_shift_div_l; [exact Hp|]. lra. }
  rewrite Hx. reflexivity.
Qed.

(** X21.  With the default rates, when the ATR is at least a tenth of the
    price the stop fraction is capped at 5%, and then no take-profit up to
    10% earns twice the net loss: the net profit at 10% itself is below the
    target.  The solver does not report this; it returns a fraction within
    [10^-16] of 10%, the upper end of its search range. *)
Theorem X21_solver_saturates_at_capped_stop (p q a : Q) (l : option JS.num) :
  (0 < p)%Q -> (0 < q)%Q -> (p <= 10 * a)%Q ->
  exists sol g,
    Calc.requiredTPpercent Calc.defaultRates (JS.Num p) (JS.Num q) (Some (JS.Num a)) l
      = inr sol
    /\ Calc.calculatedStopLossPercent sol = JS.Num (5 # 100)
    /\ Calc.required_g sol = JS.Num g
    /\ (g <= 1 # 10)%Q /\ ((1 # 10) - g < 1 # 10000000000000000)%Q
    /\ Calc.ltb (Calc.netProfit Calc.defaultRates (JS.Num p) (JS.Num q)
                   (JS.Num (1 # 10)))
                (Calc.mul (JS.Num 2) (Calc.netLoss sol)) = true.
Proof.
  intros Hp Hq Ha.
  assert (Ha0 : (0 <= a)%Q) by lra.
  unfold Calc.requiredTPpercent.
  rewrite (positive_passes p Hp), (positive_passes q Hq), (nonnegative_atr a Ha0),
    (stopFraction_capped p a l Hp Ha).
  set (target := Calc.mul (JS.Num 2)
                   (Calc.lossAt Calc.defaultRates (JS.Num p) (JS.Num q)
                      (JS.Num (5 # 100)))).
  destruct (bisect_all_below Calc.defaultRates p q target 60 0 (1 # 10))
    as (lo & E & A & B & W); [lra| |].
  { intros x Hx1 Hx2. apply capped_stop_out_of_reach; auto. }
  cbv zeta. rewrite E. cbn [fst snd].
  eexists. exists ((lo + (1 # 10)) / 2)%Q. split; [reflexivity|].
  cbn [Calc.calculatedStopLossPercent Calc.required_g Calc.netLoss].
  split; [reflexivity|]. split; [reflexivity|].
  pose proof (midpoint lo (1 # 10)) as Hm.
  assert (Hpow : (inject_Z (2 ^ Z.of_nat 60) == 1152921504606846976)%Q) by reflexivity.
  rewrite Hpow in W.
  split; [lra|]. split; [lra|].
  apply capped_stop_out_of_reach; auto; lra.
Qed.

Lemma X21_solver_saturates_witness :
  exists sol g,
    Calc.requiredTPpercent Calc.defaultRates (JS.Num 100) (JS.Num 10)
      (Some (JS.Num 12)) None = inr sol
    /\ Calc.calculatedStopLossPercent sol = JS.Num (5 # 100)
    /\ Calc.required_g sol = JS.Num g
    /\ (g <= 1 # 10)%Q /\ ((1 # 10) - g < 1 # 10000000000000000)%Q
    /\ Calc.ltb (Calc.netProfit Calc.defaultRates (JS.Num 100) (JS.Num 10)
                   (JS.Num (1 # 10)))
                (Calc.mul (JS.Num 2) (Calc.netLoss sol)) = true.
Proof.
  apply (X21_solver_saturates_at_capped_stop 100 10 12 None); lra.
Defined.

(** ** The two revisions of OrderService *)

(** X22.  The two revisions of [validateOrderData] differ exactly by the
    checks each one lacks.  An order passes the later revision and is well
    formed in the sense of the earlier one (quantity above zero, side 1 or
    -1, type 1 to 4) if and only if it passes the earlier revision and, if
    it is a stop-limit order, has its limit price above zero and below its
    stop price. *)
Theorem X22_revisions_differ_by_their_checks (order : Order) :
  (outcome (OrderService.validateOrderData order) = Ok tt
   /\ wellFormed order = true)
  <-> (Cli.result (OrderServiceV1.validateOrderData order) = Cli.Done tt
       /\ stopLimitSound order = true).
Proof.
  destruct order as [sy q t sd pt v lp sp].
  unfold OrderService.validateOrderData, OrderServiceV1.validateOrderData,
    OrderServiceV1.missing, wellFormed, stopLimitSound.
  cbn [symbol qty type side limitPrice stopPrice].
  destruct (JS.falsy_string sy); [cbn; split; intros [H _]; discriminate H|].
  destruct (JS.falsy q); [cbn; split; intros [H _]; discriminate H|].
  cbn [orb app].
  destruct (Z.eqb_spec sd 0) as [->|Hs0];
    [cbn; split; intros [H _]; discriminate H|].
  cbn [List.length Nat.eqb negb].
  destruct (JS.leb q (JS.Num 0));
    [cbn; split; [intros [_ H]|intros [H _]]; discriminate H|].
  destruct (Z.eqb_spec sd 1) as [->|Hs1]; [|destruct (Z.eqb_spec sd (-1)) as [->|Hs2]];
    cbn [negb orb andb Z.eqb Pos.eqb];
    try (split; [intros [_ H]|intros [H _]]; discriminate H).
  all: destruct (Z.eqb_spec t 1) as [->|Ht1];
    [|destruct (Z.eqb_spec t 2) as [->|Ht2];
      [|destruct (Z.eqb_spec t 3) as [->|Ht3];
        [|destruct (Z.eqb_spec t 4) as [->|Ht4]]]];
    cbn [negb orb andb Z.eqb Pos.eqb];
    try (split; [intros [_ H]|intros [H _]]; discriminate H).
  all: destruct lp as [l|]; destruct sp as [s|];
    repeat match goal with
           | |- context [JS.falsy ?x || JS.leb ?x (JS.Num 0)] =>
               destruct (JS.falsy x || JS.leb x (JS.Num 0))
           | |- context [JS.geb ?x ?y] => destruct (JS.geb x y)
           end;
    cbn; split; intros [H1 H2]; try discriminate; auto.
Qed.

Lemma above_half (x : Q) :
  (1 # 2 < x)%Q ->
  JS.falsy (JS.Num (x - (1 # 2))) || JS.leb (JS.Num (x - (1 # 2))) (JS.Num 0) = false.
Proof. intros H. apply positive_passes. lra. Qed.

(** X23.  Under the earlier revision of [OrderService] the stop-limit order
    of the short variant is not rejected: with a symbol, a quantity above
    zero and a stop-loss price above fifty paise it passes validation and
    is handed to the SDK with trigger fifty paise below the limit.  The
    fallback to a stop-market order therefore depends on the later
    revision's price check. *)
Theorem X23_short_stop_limit_passes_earlier_revision
    (place_order : Order -> Response) (sym : string) (quantity stopLossPrice : Q) :
  JS.falsy_string sym = false ->
  (0 < quantity)%Q ->
  (1 # 2 < stopLossPrice)%Q ->
  sdkPlacements (Cli.calls (Cli.actions
                   (OrderServiceV1.placeOrder place_order
                      (Short.stopLossOrder sym (JS.Num quantity)
                         (JS.Num stopLossPrice)))))
  = [OrderServiceV1.buildOrder
       (Short.stopLossOrder sym (JS.Num quantity) (JS.Num stopLossPrice))]
  /\ limitPrice (OrderServiceV1.buildOrder
                   (Short.stopLossOrder sym (JS.Num quantity) (JS.Num stopLossPrice)))
     = Some (JS.Num stopLossPrice)
  /\ stopPrice (OrderServiceV1.buildOrder
                  (Short.stopLossOrder sym (JS.Num quantity) (JS.Num stopLossPrice)))
     = Some (JS.Num (stopLossPrice - (1 # 2))).
Proof.
  intros Hs Hq Hp.
  assert (Hq' := positive_passes quantity Hq).
  assert (Hp' := positive_passes stopLossPrice ltac:(lra)).
  assert (Ht' := above_half stopLossPrice Hp).
  apply orb_false_elim in Hq'. destruct Hq' as [Hq1 Hq2].
  apply orb_false_elim in Hp'. destruct Hp' as [Hp1 Hp2].
  pose proof Ht' as Ht''. apply orb_false_elim in Ht''. destruct Ht'' as [Ht1 Ht2].
  assert (Hb : OrderServiceV1.buildOrder
                 (Short.stopLossOrder sym (JS.Num quantity) (JS.Num stopLossPrice))
               = {| symbol := JS.toUpperCase sym; qty := JS.Num quantity;
                    type := 3%Z; side := 1%Z;
                    productType := "INTRADAY"; validity := "DAY";
                    limitPrice := Some (JS.Num stopLossPrice);
                    stopPrice := Some (JS.Num (stopLossPrice - (1 # 2))) |}).
  { unfold OrderServiceV1.buildOrder, Short.stopLossOrder, OrderServiceV1.orZero.
    cbn [od_symbol od_quantity od_type od_side od_productType od_validity
         od_limitPrice od_stopPrice JS.sub JS.half].
    rewrite Hp1, Ht1. reflexivity. }
  rewrite Hb. split; [|split; reflexivity].
  unfold OrderServiceV1.placeOrder. rewrite Hb.
  unfold OrderServiceV1.validateOrderData, OrderServiceV1.missing.
  cbn [symbol qty type side limitPrice stopPrice].
  rewrite falsy_string_upper, Hs, Hq1, Hq2, Ht'.
  cbn -[JS.toUpperCase]. destruct (place_order _); reflexivity.
Qed.

Lemma X23_short_stop_limit_earlier_witness :
  sdkPlacements (Cli.calls (Cli.actions
                   (OrderServiceV1.placeOrder CliSample.acceptAll
                      (Short.stopLossOrder "NSE:SBIN-EQ" (JS.Num 10) (JS.Num 502)))))
  = [OrderServiceV1.buildOrder
       (Short.stopLossOrder "NSE:SBIN-EQ" (JS.Num 10) (JS.Num 502))]
  /\ limitPrice (OrderServiceV1.buildOrder
                   (Short.stopLossOrder "NSE:SBIN-EQ" (JS.Num 10) (JS.Num 502)))
     = Some (JS.Num 502)
  /\ stopPrice (OrderServiceV1.buildOrder
                  (Short.stopLossOrder "NSE:SBIN-EQ" (JS.Num 10) (JS.Num 502)))
     = Some (JS.Num (502 - (1 # 2))).
Proof.
  apply (X23_short_stop_limit_passes_earlier_revision CliSample.acceptAll
           "NSE:SBIN-EQ" 10 502).
  - reflexivity.
  - lra.
  - lra.
Defined.

(** ** The stand-alone order monitor *)

Lemma firstOccurrences_In (l : list string) (x : string) :
  In x (Sweep.firstOccurrences l) <-> In x l.
Proof.
  induction l as [|y rest IH]; [reflexivity|].
  cbn [Sweep.firstOccurrences In]. rewrite filter_In, IH.
  destruct (String.eqb_spec x y) as [->|Hne]; cbn.
  - split; auto.
  - split.
    + intros [H|[H _]]; auto.
    + intros [H|H]; [auto|]. right. split; auto.
Qed.

Lemma forOrders_cancels (cancel_order : string -> Response)
    (group todo : list Sweep.Row) :
  Cli.result (Sweep.forOrders cancel_order group todo) = Cli.Done tt
  /\ cancelCalls (Cli.calls (Cli.actions (Sweep.forOrders cancel_order group todo)))
     = sweepTargets group todo
  /\ placeCalls (Cli.calls (Cli.actions (Sweep.forOrders cancel_order group todo))) = [].
Proof.
  induction todo as [|order rest IH]; [repeat split|].
  destruct IH as (Hr & Hc & Hp).
  cbn [Sweep.forOrders sweepTargets flat_map].
  destruct (Sweep.forOrders cancel_order group rest) as [tr res].
  unfold Cli.actions, Cli.result in Hr, Hc, Hp. cbn [fst snd] in Hr, Hc, Hp. subst res.
  fold (sweepTargets group rest).
  destruct (Sweep.isExecuted order).
  - destruct (cancelEach_footprint cancel_order
                (map Sweep.rowBase (filter (Sweep.isOtherPending order) group)))
      as (Er & Ef).
    destruct (Cli.cancelEach cancel_order
                (map Sweep.rowBase (filter (Sweep.isOtherPending order) group)))
      as [tc rc].
    unfold Cli.actions, Cli.result in Er, Ef. cbn [fst snd] in Er, Ef. subst rc.
    split_footprint Ef. cli_step. push_all.
    rewrite Hc, Hp, Hplaced, Hcancelled. auto.
  - cli_step. push_all. rewrite Hc, Hp. auto.
Qed.

Lemma forSymbols_cancels (cancel_order : string -> Response)
    (sells : list Sweep.Row) (symbols : list string) :
  Cli.result (Sweep.forSymbols cancel_order sells symbols) = Cli.Done tt
  /\ cancelCalls (Cli.calls (Cli.actions (Sweep.forSymbols cancel_order sells symbols)))
     = flat_map (fun sym =>
                   let group := filter (fun r => String.eqb (Sweep.rowSymbol r) sym)
                                       sells in
                   if (2 <=? List.length group)%nat then sweepTargets group group
                   else [])
                symbols
  /\ placeCalls (Cli.calls (Cli.actions (Sweep.forSymbols cancel_order sells symbols)))
     = [].
Proof.
  induction symbols as [|sym rest IH]; [repeat split|].
  destruct IH as (Hr & Hc & Hp).
  cbn [Sweep.forSymbols flat_map]. cbv zeta.
  destruct (Sweep.forSymbols cancel_order sells rest) as [tr res].
  unfold Cli.actions, Cli.result in Hr, Hc, Hp. cbn [fst snd] in Hr, Hc, Hp. subst res.
  rewrite <- Hc.
  set (group := filter (fun r => String.eqb (Sweep.rowSymbol r) sym) sells).
  destruct (2 <=? List.length group)%nat.
  - destruct (forOrders_cancels cancel_order group group) as (Er & Ec & Ep).
    destruct (Sweep.forOrders cancel_order group group) as [tg rg].
    unfold Cli.actions, Cli.result in Er, Ec, Ep. cbn [fst snd] in Er, Ec, Ep. subst rg.
    cli_step. push_all. rewrite Ec, Ep, Hp. auto.
  - cli_step. push_all. rewrite Hp. auto.
Qed.

Lemma two_in_group (group : list Sweep.Row) (o e : Sweep.Row) :
  In o group -> In e group -> Sweep.rowId o <> Sweep.rowId e ->
  (2 <=? List.length group)%nat = true.
Proof.
  intros Ho He Hne. apply Nat.leb_le.
  destruct group as [|a [|b rest]]; cbn [List.length]; try lia.
  - destruct Ho.
  - destruct Ho as [->|[]]. destruct He as [->|[]]. congruence.
Qed.

Lemma insertKey_In (k x : string) (sorted : list string) :
  In x (Sweep.insertKey k sorted) <-> x = k \/ In x sorted.
Proof.
  induction sorted as [|y rest IH]; cbn [Sweep.insertKey In].
  - split; intros [H|H]; auto.
  - destruct (Sweep.indexBefore k y); cbn [In]; [|rewrite IH]; split; intuition auto.
Qed.

Lemma sortKeys_In (x : string) (l : list string) :
  In x (Sweep.sortKeys l) <-> In x l.
Proof.
  induction l as [|k rest IH]; [reflexivity|].
  cbn [Sweep.sortKeys In]. rewrite insertKey_In, IH. split; intuition auto.
Qed.

(** [for ... in] visits every key once stored, whatever the order. *)
Lemma enumerated_In (x : string) (l : list string) :
  In x (Sweep.enumerated l) <-> In x l.
Proof.
  unfold Sweep.enumerated. cbv zeta.
  rewrite in_app_iff, sortKeys_In, !filter_In, firstOccurrences_In.
  destruct (Sweep.isArrayIndex x); cbn; split; intuition auto; discriminate.
Qed.

(** X24.  One sweep of the stand-alone monitor never throws and places
    nothing.  If an intraday sell order of the book has a symbol that
    names a member of [Object.prototype], the grouping fails and the sweep
    cancels nothing.  Otherwise it cancels order id [i] exactly when the
    book lists two intraday sell orders of one symbol with different ids,
    one of them with id [i] and status PENDING or OPEN, the other
    executed. *)
Theorem X24_sweep_cancels_siblings_of_executed_orders
    (book : Sweep.Answer) (cancel_order : string -> Response) (i : string) :
  Cli.result (Sweep.tick book cancel_order) = Cli.Done tt
  /\ placeCalls (Cli.calls (Cli.actions (Sweep.tick book cancel_order))) = []
  /\ (In (Some i) (cancelCalls (Cli.calls (Cli.actions (Sweep.tick book cancel_order))))
      <-> (forall r, In r (sweepRows book) ->
                     Cli.rowProductType (Sweep.rowBase r) = "INTRADAY" ->
                     Sweep.rowSide r = (-1)%Z ->
                     ~ In (Sweep.rowSymbol r)
                          ["constructor"; "__defineGetter__"; "__defineSetter__";
                           "hasOwnProperty"; "__lookupGetter__"; "__lookupSetter__";
                           "isPrototypeOf"; "propertyIsEnumerable"; "toString";
                           "valueOf"; "__proto__"; "toLocaleString"])
          /\ exists o e,
               In o (sweepRows book) /\ In e (sweepRows book)
               /\ Sweep.rowId o = i
               /\ Sweep.isIntradaySell o = true /\ Sweep.isIntradaySell e = true
               /\ Sweep.rowSymbol o = Sweep.rowSymbol e
               /\ Sweep.rowId o <> Sweep.rowId e
               /\ Cli.isPending (Sweep.rowBase o) = true
               /\ Sweep.isExecuted e = true).
Proof.
  unfold Sweep.tick.
  destruct book as [[rows|]|m|m]; cbn [sweepRows Sweep.plainBook];
    unfold OrderService.getOrders.
  2,3,4: cli_step; (split; [reflexivity|]); (split; [reflexivity|]);
    (split; [intros []|intros (_ & o & e & [] & _)]).
  set (sells := filter Sweep.isIntradaySell rows).
  destruct (existsb (fun order => Sweep.inherited (Sweep.rowSymbol order)) sells)
    eqn:Hinh.
  { cbn -[Sweep.forSymbols Sweep.enumerated Sweep.inherited filter existsb].
    split; [reflexivity|]. split; [reflexivity|].
    split; [intros []|]. intros (Hall & _).
    apply existsb_exists in Hinh. destruct Hinh as (r & Hr & Hi).
    apply filter_In in Hr. destruct Hr as [Hr Hs].
    unfold Sweep.isIntradaySell in Hs. apply andb_prop in Hs. destruct Hs as [Hp Hside].
    apply String.eqb_eq in Hp. apply Z.eqb_eq in Hside.
    apply (Hall r Hr Hp Hside).
    unfold Sweep.inherited in Hi. apply existsb_exists in Hi.
    destruct Hi as (name & Hname & Heq). apply String.eqb_eq in Heq. subst name.
    exact Hname. }
  assert (Hclean : forall r, In r rows ->
             Cli.rowProductType (Sweep.rowBase r) = "INTRADAY" ->
             Sweep.rowSide r = (-1)%Z ->
             ~ In (Sweep.rowSymbol r)
                  ["constructor"; "__defineGetter__"; "__defineSetter__";
                   "hasOwnProperty"; "__lookupGetter__"; "__lookupSetter__";
                   "isPrototypeOf"; "propertyIsEnumerable"; "toString";
                   "valueOf"; "__proto__"; "toLocaleString"]).
  { intros r Hr Hp Hside Hname.
    assert (Hex : existsb (fun order => Sweep.inherited (Sweep.rowSymbol order)) sells
                  = true).
    { apply existsb_exists. exists r. split.
      - apply filter_In. split; [exact Hr|]. unfold Sweep.isIntradaySell.
        rewrite Hp, Hside. reflexivity.
      - unfold Sweep.inherited. apply existsb_exists.
        exists (Sweep.rowSymbol r). split; [exact Hname|apply String.eqb_refl]. }
    congruence. }
  destruct (forSymbols_cancels cancel_order sells
              (Sweep.enumerated (map Sweep.rowSymbol sells))) as (Hr & Hc & Hp).
  cbn -[Sweep.forSymbols Sweep.enumerated Sweep.inherited filter existsb In].
  fold sells.
  destruct (Sweep.forSymbols cancel_order sells
              (Sweep.enumerated (map Sweep.rowSymbol sells))) as [tr res].
  unfold Cli.actions, Cli.result in Hr, Hc, Hp. cbn [fst snd] in Hr, Hc, Hp. subst res.
  cli_step. push_all. rewrite Hp, Hc. split; [reflexivity|]. split; [reflexivity|].
  rewrite in_flat_map. split.
  - intros (sym & Hsym & Hin). split; [exact Hclean|]. cbv zeta in Hin.
    set (group := filter (fun r => String.eqb (Sweep.rowSymbol r) sym) sells) in Hin.
    destruct (2 <=? List.length group)%nat; [|destruct Hin].
    unfold sweepTargets in Hin. apply in_flat_map in Hin.
    destruct Hin as (e & He & Hin).
    destruct (Sweep.isExecuted e) eqn:Hx; [|destruct Hin].
    unfold rowTargets in Hin. rewrite map_map in Hin. apply in_map_iff in Hin.
    destruct Hin as (o & Hid & Ho). injection Hid as Hid.
    apply filter_In in Ho. destruct Ho as [Ho Hop].
    unfold Sweep.isOtherPending in Hop. apply andb_prop in Hop.
    destruct Hop as [Hne Hpend]. apply negb_true_iff in Hne.
    apply String.eqb_neq in Hne.
    apply filter_In in Ho. destruct Ho as [Ho Hos]. apply String.eqb_eq in Hos.
    apply filter_In in He. destruct He as [He Hes]. apply String.eqb_eq in Hes.
    apply filter_In in Ho. destruct Ho as [Ho Hoi].
    apply filter_In in He. destruct He as [He Hei].
    exists o, e. repeat split; auto. congruence.
  - intros (_ & o & e & Ho & He & Hid & Hoi & Hei & Hsym & Hne & Hpend & Hx).
    exists (Sweep.rowSymbol e). split.
    + apply enumerated_In. apply in_map. apply filter_In. auto.
    + cbv zeta.
      set (group := filter (fun r => String.eqb (Sweep.rowSymbol r) (Sweep.rowSymbol e))
                           sells).
      assert (Hog : In o group).
      { apply filter_In. split; [apply filter_In; auto|]. apply String.eqb_eq. exact Hsym. }
      assert (Heg : In e group).
      { apply filter_In. split; [apply filter_In; auto|]. apply String.eqb_refl. }
      rewrite (two_in_group group o e Hog Heg Hne).
      unfold sweepTargets. apply in_flat_map. exists e. split; [exact Heg|].
      cbv beta. change (Sweep.isExecuted e = true) in Hx. rewrite Hx. unfold rowTargets.
      rewrite map_map. apply in_map_iff.
      exists o. split; [unfold Sweep.rowId in Hid; cbn; congruence|].
      apply filter_In. split; [exact Hog|].
      unfold Sweep.isOtherPending. apply andb_true_intro. split; [|exact Hpend].
      apply negb_true_iff. apply String.eqb_neq. exact Hne.
Qed.

